(** * Dexster-PRO dashboard: path codec, virtual file store, console log
      and server process lifecycle

    A shallow embedding of the parts of [src/db.js] that the lifecycle
    manager and its collaborators are made of, and the properties that the
    design document states about them. *)

From Stdlib Require Import Ascii String ZArith Lia Bool.
From stdpp Require Import base option list gmap strings.

Local Open Scope list_scope.
Local Open Scope stdpp_scope.

(* ===================================================================== *)
(** * JavaScript strings *)
(* ===================================================================== *)

Module JsString.

(** [s.startsWith(p)]. *)
Definition startsWith (s p : string) : bool := String.prefix p s.

(** [s.substring(n)]: the characters of [s] from index [n] on. *)
Fixpoint substring_from (n : nat) (s : string) : string :=
match n, s with
| O, _ => s
| S _, EmptyString => EmptyString
| S k, String _ t => substring_from k t
end.

(** [s.includes(p)]. *)
Fixpoint includes (s p : string) : bool :=
String.prefix p s ||
match s with
| EmptyString => false
| String _ t => includes t p
end.

(** [s.replace(/tok/g, rep)] for a pattern [tok] of literal characters:
  the scan goes left to right, each match is replaced by [rep] and the
  scan resumes after the matched text, so matches never overlap.  [skip]
  counts the characters of the current match still to be consumed. *)
Fixpoint replace_from (tok rep : string) (skip : nat) (s : string) : string :=
match s with
| EmptyString => EmptyString
| String c t =>
    match skip with
    | S k => replace_from tok rep k t
    | O =>
        if String.prefix tok s
        then rep +:+ replace_from tok rep (String.length tok - 1) t
        else String c (replace_from tok rep 0 t)
    end
end.

Definition replaceAll (tok rep s : string) : string := replace_from tok rep 0 s.

End JsString.

(* ===================================================================== *)
(** * Path keys (db.js, "Helper functions for encoding/decoding file path
      keys") *)
(* ===================================================================== *)

Definition DOT_TOKEN : string := "__DOT__".

(** [const encodeFilePathKey = (filePath) => filePath.replace(/\./g, '__DOT__')] *)
Definition encodeFilePathKey (filePath : string) : string :=
  JsString.replaceAll "." DOT_TOKEN filePath.

(** [const decodeFilePathKey = (encodedKey) => encodedKey.replace(/__DOT__/g, '.')] *)
Definition decodeFilePathKey (encodedKey : string) : string :=
  JsString.replaceAll DOT_TOKEN "." encodedKey.

(** The separator normalisation that every caller applies to a path before
    it is encoded and after it is decoded: [p.replace(/\\/g, '/')]. *)
Definition normalizeSeparators (p : string) : string :=
  JsString.replaceAll "\" "/" p.

(** A relative path is in normal form when the normalisation leaves it
    alone, that is, when it has no backslash. *)
Definition isNormalized (p : string) : bool :=
  negb (JsString.includes p "\").

(** The paths on which the scan of [decodeFilePathKey] can be led astray:
    those that hold the token itself, or a dot that follows the first five
    or six characters of the token, so that the token written for the dot
    completes an occurrence that starts before it. *)
Definition clashesWithToken (p : string) : bool :=
  JsString.includes p "__DOT__" || JsString.includes p "__DOT_." ||
  JsString.includes p "__DOT.".

(* ===================================================================== *)
(** * JavaScript [Map] with string keys *)
(* ===================================================================== *)

(** A [Map] keeps its entries in insertion order and holds one entry per
    key; it is embedded as an association list. *)
Module JsMap.
Section WithValues.
Context {V : Type}.

Definition t : Type := list (string * V).

Fixpoint lookup (k : string) (m : t) : option V :=
  match m with
  | [] => None
  | (k', v) :: rest => if String.eqb k k' then Some v else lookup k rest
  end.

(** [m.has(k)] *)
Definition has (k : string) (m : t) : bool :=
  match lookup k m with Some _ => true | None => false end.

(** [m.set(k, v)]: an existing key keeps its position. *)
Fixpoint set (k : string) (v : V) (m : t) : t :=
  match m with
  | [] => [(k, v)]
  | (k', v') :: rest =>
      if String.eqb k k' then (k', v) :: rest else (k', v') :: set k v rest
  end.

(** [m.delete(k)] *)
Fixpoint delete (k : string) (m : t) : t :=
  match m with
  | [] => []
  | (k', v') :: rest =>
      if String.eqb k k' then delete k rest else (k', v') :: delete k rest
  end.

(** [Array.from(m.keys())] *)
Definition keys (m : t) : list string := map fst m.

(** The representation invariant: one entry per key. *)
Definition wf (m : t) : Prop := NoDup (keys m).
End WithValues.
Arguments t : clear implicits.
End JsMap.

(** What a [Map] of file contents can hold: a base64 string, or
    [undefined] (what [get] answers for a missing key). *)
Inductive FileContent : Type :=
| Undefined
| Base64 (data : string).

Definition FileStore : Type := JsMap.t FileContent.

(** [files.get(k)] *)
Definition files_get (k : string) (files : FileStore) : FileContent :=
  match JsMap.lookup k files with Some v => v | None => Undefined end.

(* ===================================================================== *)
(** * Renaming in the virtual file store ([app.post('/rename-file')]) *)
(* ===================================================================== *)

Inductive RenameOutcome : Type :=
| Renamed            (* 'تمت إعادة التسمية بنجاح' *)
| SourceNotFound     (* 'الملف أو المجلد الأصلي غير موجود' *)
| DestinationExists. (* 'الاسم الجديد موجود بالفعل' *)

(** [Array.from(files.keys()).some(k => k.startsWith(prefix))] *)
Definition someKeyStartsWith (files : FileStore) (prefix : string) : bool :=
  existsb (fun k => JsString.startsWith k prefix) (JsMap.keys files).

(** One turn of the loop over [keysToRename]. *)
Definition moveKey (oldPrefix newPrefix : string) (files : FileStore) (oldKey : string)
  : FileStore :=
  let newKey := newPrefix +:+ JsString.substring_from (String.length oldPrefix) oldKey in
  JsMap.delete oldKey (JsMap.set newKey (files_get oldKey files) files).

(** The store part of the handler, from the two encoded paths on.  The
    handler computes [encodedOldFilePath] from the submitted [filePath] and
    [encodedNewFullFilePath] from its directory joined with the new name (a
    name with a slash in it is refused before this point). *)
Definition renameInStore (files : FileStore)
    (encodedOldFilePath encodedNewFullFilePath : string) : RenameOutcome * FileStore :=
  let sep := encodeFilePathKey "/" in
  let isFile := JsMap.has encodedOldFilePath files in
  let isDirectory := negb isFile && someKeyStartsWith files (encodedOldFilePath +:+ sep) in
  if negb isFile && negb isDirectory then (SourceNotFound, files)
  else
    let newPathExistsAsFile := JsMap.has encodedNewFullFilePath files in
    let newPathExistsAsDirectory := someKeyStartsWith files (encodedNewFullFilePath +:+ sep) in
    if newPathExistsAsFile || newPathExistsAsDirectory then (DestinationExists, files)
    else if isFile then
      (Renamed,
       JsMap.delete encodedOldFilePath
         (JsMap.set encodedNewFullFilePath (files_get encodedOldFilePath files) files))
    else
      let oldPrefix := encodedOldFilePath +:+ sep in
      let newPrefix := encodedNewFullFilePath +:+ sep in
      let keysToRename :=
        List.filter (fun fp => JsString.startsWith fp oldPrefix) (JsMap.keys files) in
      (Renamed, fold_left (moveKey oldPrefix newPrefix) keysToRename files).

(* ===================================================================== *)
(** * Console lines *)
(* ===================================================================== *)

(** A formatted console line.  [formatConsoleOutput] wraps the text in
    markup with the time of day and an icon; a line is kept here as the
    place in the source that produced it, with the text it interpolates. *)
Inductive Line : Type :=
| LRemoveWarn (code : string)            (* '⚠️ تحذير: فشل تنظيف المجلد المؤقت القديم' *)
| LPreparing                             (* '🚀 جاري تجهيز السيرفر...' *)
| LInstallingUserPkgs (pkgs : list string)
| LExecStdout (out : string)             (* stdout of an npm run *)
| LExecStderr (err : string)             (* stderr of an npm run *)
| LUserPkgsDone
| LUserPkgsFailed (message : string)
| LEntryScriptMissing (mainFile : string) (* '❌ ملف التشغيل الرئيسي (...) غير موجود' *)
| LInstallingDeps
| LDepsDone
| LDepsFailed (message : string)
| LStarted (port : string)               (* '✅ تم تشغيل السيرفر بنجاح على المنفذ ...' *)
| LChildStdout (chunk : string)
| LChildStderr (chunk : string)
| LClosed (code : option Z)              (* '❌ توقف السيرفر (رمز الخروج: ...)' *)
| LSpawnError (message : string)
| LStartFailed (message : string)        (* '❌ حدث خطأ أثناء تشغيل السيرفر: ...' *)
| LStopped                               (* '[معلومات] تم إيقاف السيرفر' *)
| LStoppingForRestart
| LRestarting
| LRestartFatal (message : string)
| LKillRequested
| LKillSignalWarn (message : string)
| LKillCleanupWarn
| LWasNotRunning.                        (* 'ℹ️ السيرفر لم يكن يعمل لمحاولة الإيقاف القسري.' *)

Global Instance Line_eq_dec : EqDecision Line.
Proof. solve_decision. Defined.

Definition isEntryScriptMissing (l : Line) : bool :=
  match l with LEntryScriptMissing _ => true | _ => false end.

(** What is sent to a viewer's socket. *)
Inductive Push : Type :=
| PLine (l : Line)          (* a formatted line *)
| PClearConsole             (* '__CLEAR_CONSOLE__' *)
| PStoppedText.             (* the unformatted '[معلومات] تم إيقاف السيرفر' *)

(* ===================================================================== *)
(** * JavaScript arrays *)
(* ===================================================================== *)

Module JsArray.
Section WithElems.
Context {A : Type}.

(** [arr.slice(start)] *)
Definition slice_from (start : Z) (arr : list A) : list A :=
  let len := Z.of_nat (length arr) in
  let k := if (start <? 0)%Z then Z.max (len + start) 0 else Z.min start len in
  drop (Z.to_nat k) arr.

(** What [arr.splice(0, arr.length - max)] leaves in [arr] when it is
    run under the guard [arr.length > max]. *)
Definition cap (max : nat) (arr : list A) : list A :=
  if (max <? length arr)%nat then drop (length arr - max) arr else arr.

(** [arr.sort((a, b) => key(a) - key(b))]: the sort is stable. *)
Fixpoint insert_sorted (key : A → Z) (x : A) (sorted : list A) : list A :=
  match sorted with
  | [] => [x]
  | y :: rest =>
      if (key x <=? key y)%Z then x :: y :: rest
      else y :: insert_sorted key x rest
  end.

Fixpoint sort_by (key : A → Z) (arr : list A) : list A :=
  match arr with
  | [] => []
  | x :: rest => insert_sorted key x (sort_by key rest)
  end.
End WithElems.
End JsArray.

(** The newest [n] elements of a list, oldest first. *)
Definition newest {A : Type} (n : nat) (l : list A) : list A :=
  drop (length l - n) l.

(* ===================================================================== *)
(** * The JSON database ([loadDb] / [saveDb]) *)
(* ===================================================================== *)

Record ConsoleRow : Type := mkConsoleRow {
  row_userId : string;
  row_serverId : string;
  row_timestamp : Z;
  row_content : Line
}.

Record ProcessStateRow : Type := mkProcessStateRow {
  ps_userId : string;
  ps_serverId : string;
  ps_isRunning : bool;
  ps_startTime : option Z
}.

Record ProcessState : Type := mkProcessState {
  isRunning : bool;
  startTime : option Z
}.

Record UserRow : Type := mkUserRow {
  u_userId : string;
  u_username : string;
  u_isAdmin : bool
}.

Record Permissions : Type := mkPermissions {
  viewConsole : bool; viewFiles : bool; editFiles : bool;
  viewSettings : bool; editSettings : bool;
  viewUsers : bool; editUsers : bool;
  viewStartup : bool; editStartup : bool
}.

(** [server.users.get(id) || {}] when the user has no entry. *)
Definition noPermissions : Permissions :=
  mkPermissions false false false false false false false false false.

Record Server : Type := mkServer {
  s_id : string;
  s_name : string;
  s_ownerId : string;
  s_isSuspended : bool;
  s_users : JsMap.t Permissions;
  s_files : FileStore;
  s_startupSettings : JsMap.t string
}.

Record EventRow : Type := mkEventRow {
  ev_event : string;
  ev_userId : string;
  ev_serverId : string
}.

Record Db : Type := mkDb {
  appUsers : list UserRow;
  appServers : list Server;
  appEventLogs : list EventRow;
  appConsoleLogs : list ConsoleRow;
  appProcessState : list ProcessStateRow
}.

Definition sameKey (userId serverId : string) (u s : string) : bool :=
  String.eqb u userId && String.eqb s serverId.

Module DbFile.

(** [const MAX = 5000] in [saveConsoleLog]. *)
Definition MAX : nat := 5000.

(** [saveConsoleLog(userId, serverId, content)], on the rows of
  [appConsoleLogs]; [now] is what [Date.now()] answers. *)
Definition saveConsoleLog (now : Z) (userId serverId : string) (content : Line)
  (rows : list ConsoleRow) : list ConsoleRow :=
JsArray.cap MAX (rows ++ [mkConsoleRow userId serverId now content]).

(** [getRecentConsoleLogs(userId, serverId, limit = 100)] *)
Definition getRecentConsoleLogs (userId serverId : string) (limit : Z)
  (rows : list ConsoleRow) : list Line :=
map row_content
  (JsArray.slice_from (- limit)
     (JsArray.sort_by row_timestamp
        (List.filter (fun r => sameKey userId serverId (row_userId r) (row_serverId r))
           rows))).

(** [clearConsoleLogs(userId, serverId)] *)
Definition clearConsoleLogs (userId serverId : string) (rows : list ConsoleRow)
  : list ConsoleRow :=
List.filter (fun r => negb (sameKey userId serverId (row_userId r) (row_serverId r))) rows.

(** [upsert(array, predicate, newDoc)] for a [newDoc] that sets every
  field of the row. *)
Fixpoint upsert {A : Type} (predicate : A → bool) (newDoc : A) (array : list A) : list A :=
match array with
| [] => [newDoc]
| x :: rest => if predicate x then newDoc :: rest else x :: upsert predicate newDoc rest
end.

(** [setProcessState(userId, serverId, running, startTime)] *)
Definition setProcessState (userId serverId : string) (running : bool)
  (startTime : option Z) (rows : list ProcessStateRow) : list ProcessStateRow :=
upsert (fun r => sameKey userId serverId (ps_userId r) (ps_serverId r))
  (mkProcessStateRow userId serverId running startTime) rows.

(** [clearProcessState(userId, serverId)] *)
Definition clearProcessState (userId serverId : string) (rows : list ProcessStateRow)
  : list ProcessStateRow :=
List.filter (fun r => negb (sameKey userId serverId (ps_userId r) (ps_serverId r))) rows.

(** [getProcessState(userId, serverId)]; [row.startTime || null] turns a
  zero start time into [null]. *)
Definition getProcessState (userId serverId : string) (rows : list ProcessStateRow)
  : ProcessState :=
match List.find (fun r => sameKey userId serverId (ps_userId r) (ps_serverId r)) rows with
| Some row =>
    mkProcessState (ps_isRunning row)
      (match ps_startTime row with
       | Some t => if (t =? 0)%Z then None else Some t
       | None => None
       end)
| None => mkProcessState false None
end.

(** [JsonUserModel.findOne({ userId })] *)
Definition findUser (userId : string) (users : list UserRow) : option UserRow :=
if String.eqb userId "" then None
else List.find (fun u => String.eqb (u_userId u) userId) users.

(** [JsonServerModel.findOne({ id })] *)
Definition findServer (id : string) (servers : list Server) : option Server :=
if String.eqb id "" then None
else List.find (fun s => String.eqb (s_id s) id) servers.

(** [JsonServerModel.deleteOne({ id })] *)
Definition deleteServer (id : string) (servers : list Server) : list Server :=
if String.eqb id "" then servers
else List.filter (fun s => negb (String.eqb (s_id s) id)) servers.

End DbFile.

(** One call of [saveConsoleLog]: who appends what, and what [Date.now()]
    answers at that moment. *)
Record Append : Type := mkAppend {
  ap_now : Z;
  ap_userId : string;
  ap_serverId : string;
  ap_content : Line
}.

Definition rowOf (a : Append) : ConsoleRow :=
  mkConsoleRow (ap_userId a) (ap_serverId a) (ap_now a) (ap_content a).

(** A sequence of calls of [saveConsoleLog], one after the other. *)
Definition saveAll (appends : list Append) (rows : list ConsoleRow) : list ConsoleRow :=
  fold_left
    (λ rows a, DbFile.saveConsoleLog (ap_now a) (ap_userId a) (ap_serverId a) (ap_content a) rows)
    appends rows.

(** The rows of one (owner, server) pair. *)
Definition rowsOf (userId serverId : string) (rows : list ConsoleRow) : list ConsoleRow :=
  List.filter (λ r, sameKey userId serverId (row_userId r) (row_serverId r)) rows.

(** The clock did not run backwards while the rows were written. *)
Fixpoint chronological (rows : list ConsoleRow) : bool :=
  match rows with
  | [] => true
  | r :: rest =>
      forallb (λ r', (row_timestamp r <=? row_timestamp r')%Z) rest && chronological rest
  end.

(** [const maxLogSize = 1000] *)
Definition maxLogSize : nat := 1000.

(** [trimLogs(logs)], as the new contents of the array [logs]. *)
Definition trimLogs (logs : list Line) : list Line :=
  JsArray.cap maxLogSize logs.

(* ===================================================================== *)
(** * The dashboard process: its globals, its children, its viewers *)
(* ===================================================================== *)

Definition Pid : Type := nat.

Inductive Signal : Type := SIGTERM | SIGKILL.

(** A child process as the operating system has it.  [child_signals] are
    the signals sent through its handle, [child_stdin] the lines written to
    its standard input (the child is spawned with all three streams piped). *)
Record Child : Type := mkChild {
  child_pid : Pid;
  child_script : string;
  child_port : string;
  child_signals : list Signal;
  child_stdin : list string
}.

Inductive WsEvent : Type := EvMessage | EvClose.

Global Instance WsEvent_eq_dec : EqDecision WsEvent.
Proof. solve_decision. Defined.

(** The callbacks that the connection handler hands to [ws.on]. *)
Inductive WsListener : Type :=
| CloseListener.   (* [() => { /* Cleanup if needed */ }] *)

(** A socket in [wss.clients]. *)
Record Viewer : Type := mkViewer {
  ws_id : nat;
  ws_userId : option string;
  ws_serverId : option string;
  ws_open : bool;
  ws_listeners : list (WsEvent * WsListener);
  ws_received : list Push
}.

Record World : Type := mkWorld {
  consoleLogs : gmap string (list Line);
  runningProcesses : gmap string (gmap string Pid);
  serverStartTime : gmap string Z;
  db : Db;
  clock : Z;                      (* what [Date.now()] answers *)
  children : list Child;
  viewers : list Viewer           (* [wss.clients] *)
}.

Definition withConsoleLogs (f : gmap string (list Line) → gmap string (list Line))
    (w : World) : World :=
  mkWorld (f (consoleLogs w)) (runningProcesses w) (serverStartTime w) (db w) (clock w)
    (children w) (viewers w).

Definition withRunningProcesses
    (f : gmap string (gmap string Pid) → gmap string (gmap string Pid)) (w : World) : World :=
  mkWorld (consoleLogs w) (f (runningProcesses w)) (serverStartTime w) (db w) (clock w)
    (children w) (viewers w).

Definition withServerStartTime (f : gmap string Z → gmap string Z) (w : World) : World :=
  mkWorld (consoleLogs w) (runningProcesses w) (f (serverStartTime w)) (db w) (clock w)
    (children w) (viewers w).

Definition withDb (f : Db → Db) (w : World) : World :=
  mkWorld (consoleLogs w) (runningProcesses w) (serverStartTime w) (f (db w)) (clock w)
    (children w) (viewers w).

Definition withChildren (f : list Child → list Child) (w : World) : World :=
  mkWorld (consoleLogs w) (runningProcesses w) (serverStartTime w) (db w) (clock w)
    (f (children w)) (viewers w).

Definition withViewers (f : list Viewer → list Viewer) (w : World) : World :=
  mkWorld (consoleLogs w) (runningProcesses w) (serverStartTime w) (db w) (clock w)
    (children w) (f (viewers w)).

Definition withAppConsoleLogs (f : list ConsoleRow → list ConsoleRow) (d : Db) : Db :=
  mkDb (appUsers d) (appServers d) (appEventLogs d) (f (appConsoleLogs d)) (appProcessState d).

Definition withAppProcessState (f : list ProcessStateRow → list ProcessStateRow) (d : Db) : Db :=
  mkDb (appUsers d) (appServers d) (appEventLogs d) (appConsoleLogs d) (f (appProcessState d)).

Definition withAppServers (f : list Server → list Server) (d : Db) : Db :=
  mkDb (appUsers d) (f (appServers d)) (appEventLogs d) (appConsoleLogs d) (appProcessState d).

Definition withAppEventLogs (f : list EventRow → list EventRow) (d : Db) : Db :=
  mkDb (appUsers d) (appServers d) (f (appEventLogs d)) (appConsoleLogs d) (appProcessState d).

(** The registry entry of a key: [runningProcesses[userId]?.[serverId]]. *)
Definition registryGet (userId serverId : string) (w : World) : option Pid :=
  match runningProcesses w !! userId with
  | Some perUser => perUser !! serverId
  | None => None
  end.

Definition findChild (pid : Pid) (w : World) : option Child :=
  List.find (fun c => Nat.eqb (child_pid c) pid) (children w).

(* ===================================================================== *)
(** * Computations that can throw *)
(* ===================================================================== *)

Inductive JsError : Type :=
| FsError (code : string)        (* a failed file-system call *)
| ExecError (message : string)   (* a failed or timed-out [execPromise] *)
| SignalError (message : string) (* a failed [kill] *)
| TypeError.                     (* a property read or call on [undefined] *)

Definition errMessage (e : JsError) : string :=
  match e with
  | FsError code => code
  | ExecError message => message
  | SignalError message => message
  | TypeError => "TypeError"
  end.

Inductive Completion (A : Type) : Type :=
| Normal (a : A)
| Throw (e : JsError).
Arguments Normal {A} a.
Arguments Throw {A} e.

(** A piece of handler code: it changes the world and either completes or
    throws; what it changed before it threw stays changed. *)
Definition Run (A : Type) : Type := World → World * Completion A.

Global Instance Run_ret : MRet Run := λ A a w, (w, Normal a).

Global Instance Run_bind : MBind Run := λ A B f m w,
  match m w with
  | (w', Normal a) => f a w'
  | (w', Throw e) => (w', Throw e)
  end.

Definition throw {A : Type} (e : JsError) : Run A := λ w, (w, Throw e).

(** [try { body } catch (e) { handler(e) }] *)
Definition tryCatch {A : Type} (body : Run A) (handler : JsError → Run A) : Run A := λ w,
  match body w with
  | (w', Normal a) => (w', Normal a)
  | (w', Throw e) => handler e w'
  end.

(** [promise.catch(() => {})] and [try { ... } catch (e) { /* ignore */ }] *)
Definition ignoreFailure (body : Run unit) : Run unit :=
  tryCatch body (λ _, mret ()).

(** A call of an [async] function whose promise nobody awaits: a rejection
    does not reach the caller. *)
Definition detach (body : Run unit) : Run unit := λ w, (fst (body w), Normal ()).

Definition getWorld : Run World := λ w, (w, Normal w).

Definition modify (f : World → World) : Run unit := λ w, (f w, Normal ()).

(** What the file system and the package installer answer. *)
Inductive FsOutcome : Type := FsDone | FsFails (code : string).

Inductive ExecOutcome : Type :=
| ExecDone (stdout stderr : string)
| ExecFails (message : string).

Definition fsCall (o : FsOutcome) : Run unit :=
  match o with
  | FsDone => mret ()
  | FsFails code => throw (FsError code)
  end.

Definition execCall (o : ExecOutcome) : Run (string * string) :=
  match o with
  | ExecDone stdout stderr => mret (stdout, stderr)
  | ExecFails message => throw (ExecError message)
  end.

(* ===================================================================== *)
(** * Statements of the handlers *)
(* ===================================================================== *)

(** [`${userId}-${serverId}`] *)
Definition logKeyOf (userId serverId : string) : string :=
  userId +:+ "-" +:+ serverId.

(** [consoleLogs[key].push(line)] *)
Definition consolePush (key : string) (line : Line) : Run unit := λ w,
  match consoleLogs w !! key with
  | Some logs => (withConsoleLogs (insert key (logs ++ [line])) w, Normal ())
  | None => (w, Throw TypeError)
  end.

(** [trimLogs(consoleLogs[key])] *)
Definition consoleTrim (key : string) : Run unit :=
  modify (withConsoleLogs (alter trimLogs key)).

(** [consoleLogs[key] = []] *)
Definition consoleReset (key : string) : Run unit :=
  modify (withConsoleLogs (insert key [])).

(** [initializeServerLogs(userId, serverId)] *)
Definition initializeServerLogs (userId serverId : string) : Run unit :=
  let logKey := logKeyOf userId serverId in
  modify (λ w,
    let w1 :=
      match consoleLogs w !! logKey with
      | None => withConsoleLogs (insert logKey []) w
      | Some _ => w
      end in
    let w2 :=
      match runningProcesses w1 !! userId with
      | None => withRunningProcesses (insert userId ∅) w1
      | Some _ => w1
      end in
    match serverStartTime w2 !! logKey with
    | None => withServerStartTime (insert logKey (clock w2)) w2
    | Some t =>
        if (t =? 0)%Z then withServerStartTime (insert logKey (clock w2)) w2 else w2
    end).

(** The wrappers around the database helpers swallow every exception. *)
Definition saveConsoleLog (userId serverId : string) (content : Line) : Run unit :=
  modify (λ w,
    withDb (withAppConsoleLogs (DbFile.saveConsoleLog (clock w) userId serverId content)) w).

Definition clearConsoleLogs (userId serverId : string) : Run unit :=
  modify (withDb (withAppConsoleLogs (DbFile.clearConsoleLogs userId serverId))).

Definition setProcessState (userId serverId : string) (running : bool)
    (startTime : option Z) : Run unit :=
  modify (withDb (withAppProcessState (DbFile.setProcessState userId serverId running startTime))).

(** [logServerEvent(event, { userId, serverId })] *)
Definition logServerEvent (event userId serverId : string) : Run unit :=
  modify (withDb (withAppEventLogs (λ rows, rows ++ [mkEventRow event userId serverId]))).

(** [client.userId === targetUserId && client.serverId === serverId &&
     client.readyState === client.OPEN] *)
Definition watches (targetUserId serverId : string) (v : Viewer) : bool :=
  bool_decide (ws_userId v = Some targetUserId) &&
  bool_decide (ws_serverId v = Some serverId) &&
  ws_open v.

Definition deliver (p : Push) (v : Viewer) : Viewer :=
  mkViewer (ws_id v) (ws_userId v) (ws_serverId v) (ws_open v) (ws_listeners v)
    (ws_received v ++ [p]).

(** [wss.clients.forEach(client => { if (...) client.send(p) })] *)
Definition broadcast (targetUserId serverId : string) (p : Push) : Run unit :=
  modify (withViewers
    (map (λ v, if watches targetUserId serverId v then deliver p v else v))).

(** [if (!runningProcesses[u]) runningProcesses[u] = {};
     runningProcesses[u][s] = serverProcess] *)
Definition registrySet (userId serverId : string) (pid : Pid) : Run unit :=
  modify (withRunningProcesses (λ reg,
    let perUser := match reg !! userId with Some m => m | None => ∅ end in
    <[userId := <[serverId := pid]> perUser]> reg)).

(** [delete runningProcesses[u][s]] *)
Definition registryDelete (userId serverId : string) : Run unit := λ w,
  match runningProcesses w !! userId with
  | Some perUser =>
      (withRunningProcesses (insert userId (delete serverId perUser)) w, Normal ())
  | None => (w, Throw TypeError)
  end.

(** [delete runningProcesses[u]?.[s]] *)
Definition registryDeleteOptional (userId serverId : string) : Run unit :=
  ignoreFailure (registryDelete userId serverId).

(** [spawn('node', [mainFilePath], { env: { PORT: port }, stdio: pipes })] *)
Definition spawn (script port : string) : Run Pid := λ w,
  let pid := length (children w) in
  (withChildren (λ cs, cs ++ [mkChild pid script port [] []]) w, Normal pid).

(** The children after the signal [sig] was sent to the child [pid]. *)
Definition signalChild (pid : Pid) (sig : Signal) (cs : list Child) : list Child :=
  map (λ c,
    if Nat.eqb (child_pid c) pid
    then mkChild (child_pid c) (child_script c) (child_port c)
           (child_signals c ++ [sig]) (child_stdin c)
    else c) cs.

(** [handle.kill(signal)] *)
Definition kill (pid : Pid) (sig : Signal) : Run unit :=
  modify (withChildren (signalChild pid sig)).

(** [x || fallback] on a setting that may be missing. *)
Definition orDefault (x : option string) (fallback : string) : string :=
  match x with
  | Some s => if String.eqb s "" then fallback else s
  | None => fallback
  end.

(** The white-space characters and line terminators of JavaScript that
    take one byte: U+0009 to U+000D and U+0020. *)
Definition isSpace (c : ascii) : bool :=
  match nat_of_ascii c with
  | 9 | 10 | 11 | 12 | 13 | 32 => true
  | _ => false
  end.

(** The length in bytes of the white-space character or line terminator
    of JavaScript that the text starts with, and 0 when it starts with none.
    A string holds the UTF-8 bytes of the JavaScript string; the characters
    are U+0009 to U+000D, U+0020, U+00A0, U+1680, U+2000 to U+200A, U+2028,
    U+2029, U+202F, U+205F, U+3000 and U+FEFF. *)
Definition spaceLength (s : string) : nat :=
  match s with
  | EmptyString => 0
  | String c rest =>
      if isSpace c then 1
      else
        match rest with
        | String d (String e _) =>
            let c := nat_of_ascii c in
            let d := nat_of_ascii d in
            let e := nat_of_ascii e in
            if (c =? 194)%nat && (d =? 160)%nat then 2
            else if (c =? 225)%nat && (d =? 154)%nat && (e =? 128)%nat then 3
            else if (c =? 226)%nat && (d =? 128)%nat &&
                    (((128 <=? e)%nat && (e <=? 138)%nat) || (e =? 168)%nat ||
                     (e =? 169)%nat || (e =? 175)%nat) then 3
            else if (c =? 226)%nat && (d =? 129)%nat && (e =? 159)%nat then 3
            else if (c =? 227)%nat && (d =? 128)%nat && (e =? 128)%nat then 3
            else if (c =? 239)%nat && (d =? 187)%nat && (e =? 191)%nat then 3
            else 0
        | String d EmptyString =>
            if (nat_of_ascii c =? 194)%nat && (nat_of_ascii d =? 160)%nat then 2 else 0
        | EmptyString => 0
        end
  end.

(** [text.trim().split(/\s+/).filter(pkg => pkg)]: the maximal runs of
    characters of [text] that are not white space.  [word] is the run being
    read; [skip] counts the bytes of the current white-space character
    still to be passed over. *)
Fixpoint wordsFrom (skip : nat) (word : string) (text : string) : list string :=
  match text with
  | EmptyString => if String.eqb word "" then [] else [word]
  | String c rest =>
      match skip with
      | S k => wordsFrom k word rest
      | O =>
          match spaceLength text with
          | O => wordsFrom 0 (word +:+ String c "") rest
          | S k =>
              if String.eqb word "" then wordsFrom k "" rest
              else word :: wordsFrom k "" rest
          end
      end
  end.

Definition words (text : string) : list string := wordsFrom 0 "" text.


(* ===================================================================== *)
(** * [startServerInBackground] *)
(* ===================================================================== *)

(** What the outside world answers during one run of
    [startServerInBackground]. *)
Record StartEnv : Type := mkStartEnv {
  dirExists : bool;                 (* [fs.existsSync(serverDir)] *)
  removeStale : FsOutcome;          (* [await fs.remove(serverDir)] *)
  ensureServerDir : FsOutcome;      (* [await fs.ensureDir(serverDir)] *)
  writeFile : string → FsOutcome;   (* [ensureDir] and [writeFile] of one decoded path *)
  installUserPackages : ExecOutcome; (* [npm install <packages> --save] *)
  mainFileExists : bool;            (* [fs.existsSync(mainFilePath)] *)
  packageJsonExists : bool;         (* [fs.existsSync(packageJsonPath)] *)
  npmInstall : ExecOutcome;         (* [npm install] *)
  removeAfterFailure : FsOutcome    (* [fs.remove(serverDir)] of the outer [catch] *)
}.

(** [for (const [encodedFilePath, fileContent] of server.files.entries())] *)
Fixpoint writeFiles (env : StartEnv) (entries : FileStore) : Run unit :=
  match entries with
  | [] => mret ()
  | (encodedFilePath, _) :: rest =>
      let filePath := decodeFilePathKey encodedFilePath in
      fsCall (writeFile env filePath) ;;
      writeFiles env rest
  end.

(** The three statements that most messages go through: push to the
    in-memory console, persist, send to the viewers of the key. *)
Definition pushSaveSend (targetUserId serverId : string) (line : Line) : Run unit :=
  consolePush (logKeyOf targetUserId serverId) line ;;
  saveConsoleLog targetUserId serverId line ;;
  broadcast targetUserId serverId (PLine line).

(** [if (stdout) { ... } if (stderr) { ... }] *)
Definition reportExec (targetUserId serverId : string) (out : string * string) : Run unit :=
  (if String.eqb (fst out) "" then mret ()
   else pushSaveSend targetUserId serverId (LExecStdout (fst out))) ;;
  (if String.eqb (snd out) "" then mret ()
   else pushSaveSend targetUserId serverId (LExecStderr (snd out))).

(** The blocks of [startServerInBackground], under the comments that head
    them in the source. *)

(** "تنظيف المجلد المؤقت إذا كان موجودًا": a stale working directory is
    removed; a failure is reported as a warning and the start goes on. *)
Definition removeStaleDir (serverId targetUserId : string) (env : StartEnv) : Run unit :=
  let logKey := logKeyOf targetUserId serverId in
  if dirExists env then
    tryCatch (fsCall (removeStale env))
      (λ rmErr,
         let removeWarnMsg := LRemoveWarn (errMessage rmErr) in
         initializeServerLogs targetUserId serverId ;;
         consolePush logKey removeWarnMsg ;;
         consoleTrim logKey ;;
         broadcast targetUserId serverId (PLine removeWarnMsg))
  else mret ().

(** "تثبيت الحزم المحددة من قبل المستخدم أولاً": the packages named in the
    startup settings; a failure is reported and the start goes on. *)
Definition installUserPackagesFirst (serverId targetUserId : string)
    (packagesToInstall : list string) (env : StartEnv) : Run unit :=
  let logKey := logKeyOf targetUserId serverId in
  let installingUserPkgsMsg := LInstallingUserPkgs packagesToInstall in
  consolePush logKey installingUserPkgsMsg ;;
  broadcast targetUserId serverId (PLine installingUserPkgsMsg) ;;
  tryCatch
    (out ← execCall (installUserPackages env) ;
     reportExec targetUserId serverId out ;;
     pushSaveSend targetUserId serverId LUserPkgsDone)
    (λ error,
       let formattedError := LUserPkgsFailed (errMessage error) in
       consolePush logKey formattedError ;;
       broadcast targetUserId serverId (PLine formattedError)).

(** "التحقق من وجود package.json وتثبيت الحزم": the full installation; a
    failure is reported and thrown again. *)
Definition installDependencies (serverId targetUserId : string) (env : StartEnv) : Run unit :=
  if packageJsonExists env then
    pushSaveSend targetUserId serverId LInstallingDeps ;;
    tryCatch
      (out ← execCall (npmInstall env) ;
       reportExec targetUserId serverId out ;;
       pushSaveSend targetUserId serverId LDepsDone)
      (λ error,
         pushSaveSend targetUserId serverId (LDepsFailed (errMessage error)) ;;
         throw error)
  else mret ().

(** "تشغيل السيرفر": the child is spawned and registered. *)
Definition launch (serverId targetUserId mainFile port : string) : Run unit :=
  let logKey := logKeyOf targetUserId serverId in
  serverProcess ← spawn mainFile port ;
  registrySet targetUserId serverId serverProcess ;;
  w ← getWorld ;
  modify (withServerStartTime (insert logKey (clock w))) ;;
  setProcessState targetUserId serverId true (Some (clock w)) ;;
  pushSaveSend targetUserId serverId (LStarted port) ;;
  logServerEvent "تشغيل سيرفر" targetUserId serverId.

(** What the outer [catch] does with an error. *)
Definition reportStartFailure (serverId targetUserId : string) (env : StartEnv)
    (error : JsError) : Run unit :=
  let errorMsg := LStartFailed (errMessage error) in
  consolePush (logKeyOf targetUserId serverId) errorMsg ;;
  broadcast targetUserId serverId (PLine errorMsg) ;;
  ignoreFailure (fsCall (removeAfterFailure env)).

Definition startServerInBackground (serverId targetUserId : string) (server : Server)
    (env : StartEnv) : Run unit :=
  let logKey := logKeyOf targetUserId serverId in
  tryCatch
    (removeStaleDir serverId targetUserId env ;;
     fsCall (ensureServerDir env) ;;
     initializeServerLogs targetUserId serverId ;;
     consoleReset logKey ;;
     clearConsoleLogs targetUserId serverId ;;
     broadcast targetUserId serverId PClearConsole ;;
     pushSaveSend targetUserId serverId LPreparing ;;
     writeFiles env (s_files server) ;;
     let mainFile := orDefault (JsMap.lookup "mainFile" (s_startupSettings server)) "index.js" in
     let userPackages := orDefault (JsMap.lookup "packages" (s_startupSettings server)) "" in
     let port := orDefault (JsMap.lookup "port" (s_startupSettings server)) "3000" in
     (match words userPackages with
      | [] => mret ()
      | packagesToInstall =>
          installUserPackagesFirst serverId targetUserId packagesToInstall env
      end) ;;
     if negb (mainFileExists env) then
       pushSaveSend targetUserId serverId (LEntryScriptMissing mainFile)
     else
       installDependencies serverId targetUserId env ;;
       launch serverId targetUserId mainFile port)
    (reportStartFailure serverId targetUserId env).

(** ** The listeners that a started child gets *)

(** [serverProcess.stdout.on('data', ...)] *)
Definition onChildStdout (targetUserId serverId : string) (data : string) : Run unit :=
  let logKey := logKeyOf targetUserId serverId in
  consolePush logKey (LChildStdout data) ;;
  consoleTrim logKey ;;
  broadcast targetUserId serverId (PLine (LChildStdout data)) ;;
  saveConsoleLog targetUserId serverId (LChildStdout data).

(** [serverProcess.stderr.on('data', ...)] *)
Definition onChildStderr (targetUserId serverId : string) (data : string) : Run unit :=
  let logKey := logKeyOf targetUserId serverId in
  consolePush logKey (LChildStderr data) ;;
  consoleTrim logKey ;;
  broadcast targetUserId serverId (PLine (LChildStderr data)) ;;
  saveConsoleLog targetUserId serverId (LChildStderr data).

(** [serverProcess.on('close', async (code) => ...)]; [removeDir] is what
    [fs.remove(serverDir)] answers. *)
Definition onChildClose (targetUserId serverId : string) (code : option Z)
    (removeDir : FsOutcome) : Run unit :=
  let logKey := logKeyOf targetUserId serverId in
  consolePush logKey (LClosed code) ;;
  consoleTrim logKey ;;
  registryDelete targetUserId serverId ;;
  setProcessState targetUserId serverId false None ;;
  ignoreFailure (fsCall removeDir) ;;
  broadcast targetUserId serverId (PLine (LClosed code)).

(** [serverProcess.on('error', async (error) => ...)]; [removeDir] is what
    [fs.removeSync(serverDir)] answers. *)
Definition onChildError (targetUserId serverId : string) (message : string)
    (removeDir : FsOutcome) : Run unit :=
  let logKey := logKeyOf targetUserId serverId in
  consolePush logKey (LSpawnError message) ;;
  consoleTrim logKey ;;
  registryDelete targetUserId serverId ;;
  setProcessState targetUserId serverId false None ;;
  fsCall removeDir ;;
  broadcast targetUserId serverId (PLine (LSpawnError message)).

(* ===================================================================== *)
(** * Requests, middleware and the lifecycle routes *)
(* ===================================================================== *)

Record Request : Type := mkRequest {
  session_userId : option string;        (* [req.session.userId] *)
  session_impersonating : option string; (* [req.session.impersonating] *)
  body_userId : option string;           (* [req.body.userId] *)
  body_serverId : option string          (* [req.body.serverId] *)
}.

(** How a request is answered.  Every answer is a redirect; they are told
    apart by the message they carry. *)
Inductive Response : Type :=
| ToLogin                 (* 'يرجى تسجيل الدخول أولاً' *)
| ErrServerIdMissing      (* 'معرف السيرفر غير محدد' *)
| ErrUserNotFound         (* 'المستخدم غير موجود' *)
| ErrTargetUserNotFound   (* 'المستخدم المستهدف غير موجود' *)
| ErrServerNotFound       (* 'السيرفر غير موجود' *)
| ErrNotOwnedByTarget     (* 'السيرفر لا ينتمي إلى هذا المستخدم' *)
| ErrSuspended            (* 'هذا السيرفر معلق. يرجى التواصل مع الإدارة' *)
| ErrNoAccess             (* 'غير مصرح لك بالوصول إلى هذا السيرفر' *)
| ErrNotPermitted         (* 'غير مصرح لك ب...' of the route *)
| ErrAlreadyStopped       (* 'السيرفر متوقف بالفعل' *)
| ErrWasNotRunning        (* 'السيرفر لم يكن يعمل أو لا يمكن إيجاد العملية.' *)
| OkStarting              (* 'جاري تشغيل السيرفر...' *)
| OkStopped               (* 'تم إيقاف السيرفر بنجاح' *)
| OkRestarting            (* 'جاري إعادة تشغيل السيرفر...' *)
| OkKillSent              (* 'تم إرسال إشارة الإيقاف القسري بنجاح.' *)
| OkDeleted.              (* 'تم حذف السيرفر بنجاح' *)

Global Instance Response_eq_dec : EqDecision Response.
Proof. solve_decision. Defined.

(** A value as a condition: a missing or empty string is falsy. *)
Definition truthy (x : option string) : option string :=
  match x with
  | Some s => if String.eqb s "" then None else Some s
  | None => None
  end.

(** What the two middlewares leave on [req] for the route. *)
Record Access : Type := mkAccess {
  a_userId : string;          (* [req.userId] *)
  a_originalUserId : string;  (* [req.originalUserId] *)
  a_serverId : string;
  a_targetUserId : string;    (* [req.targetUserId] *)
  a_isServerOwner : bool;     (* [req.isServerOwner] *)
  a_isAdmin : bool;           (* [req.isAdmin] *)
  a_server : Server           (* [req.server] *)
}.

(** [ensureLoggedIn] followed by [ensureServerAccess], on a POST. *)
Definition ensureServerAccess (req : Request) (d : Db) : Response + Access :=
  match truthy (session_userId req) with
  | None => inl ToLogin
  | Some originalUserId =>
      let userId :=
        match truthy (session_impersonating req) with
        | Some other => other
        | None => originalUserId
        end in
      let targetUserId :=
        match truthy (body_userId req) with Some u => u | None => userId end in
      match truthy (body_serverId req) with
      | None => inl ErrServerIdMissing
      | Some serverId =>
          match DbFile.findUser userId (appUsers d) with
          | None => inl ErrUserNotFound
          | Some user =>
              match DbFile.findUser targetUserId (appUsers d) with
              | None => inl ErrTargetUserNotFound
              | Some _ =>
                  match DbFile.findServer serverId (appServers d) with
                  | None => inl ErrServerNotFound
                  | Some server =>
                      if negb (String.eqb (s_ownerId server) targetUserId)
                      then inl ErrNotOwnedByTarget
                      else if s_isSuspended server && negb (u_isAdmin user)
                      then inl ErrSuspended
                      else
                        let isServerOwner := String.eqb (s_ownerId server) userId in
                        if isServerOwner || u_isAdmin user || JsMap.has userId (s_users server)
                        then inr (mkAccess userId originalUserId serverId targetUserId
                                    isServerOwner (u_isAdmin user) server)
                        else inl ErrNoAccess
                  end
              end
          end
      end
  end.

(** A route behind both middlewares. *)
Definition guarded (req : Request) (route : Access → Run Response) : Run Response :=
  w ← getWorld ;
  match ensureServerAccess req (db w) with
  | inl refusal => mret refusal
  | inr acc => route acc
  end.

(** [server.users.get(id) || {}] *)
Definition permissionsOf (server : Server) (id : string) : Permissions :=
  match JsMap.lookup id (s_users server) with
  | Some p => p
  | None => noPermissions
  end.

(** [app.post('/start-server', ensureLoggedIn, ensureServerAccess, ...)] *)
Definition postStartServer (req : Request) (env : StartEnv) : Run Response :=
  guarded req (λ acc,
    let serverId := a_serverId acc in
    let targetUserId := a_targetUserId acc in
    w ← getWorld ;
    match DbFile.findServer serverId (appServers (db w)) with
    | None => mret ErrServerNotFound
    | Some server =>
        if s_isSuspended server then mret ErrSuspended
        else
          detach (startServerInBackground serverId targetUserId server env) ;;
          mret OkStarting
    end).

(** [app.post('/stop-server', ...)]; [removeDir] is what [fs.removeSync]
    answers. *)
Definition postStopServer (req : Request) (removeDir : FsOutcome) : Run Response :=
  guarded req (λ acc,
    let serverId := a_serverId acc in
    let targetUserId := a_targetUserId acc in
    let permissions := permissionsOf (a_server acc) (a_userId acc) in
    if negb (a_isServerOwner acc) && negb (a_isAdmin acc) && negb (editSettings permissions)
    then mret ErrNotPermitted
    else
      w ← getWorld ;
      match registryGet targetUserId serverId w with
      | None => mret ErrAlreadyStopped
      | Some handle =>
          kill handle SIGTERM ;;
          registryDelete targetUserId serverId ;;
          setProcessState targetUserId serverId false None ;;
          consolePush (logKeyOf targetUserId serverId) LStopped ;;
          saveConsoleLog targetUserId serverId LStopped ;;
          consoleTrim (logKeyOf targetUserId serverId) ;;
          fsCall removeDir ;;
          broadcast targetUserId serverId PStoppedText ;;
          logServerEvent "إيقاف سيرفر" (a_userId acc) serverId ;;
          mret OkStopped
      end).

(** What the outside world answers during [/restart-server]. *)
Record RestartEnv : Type := mkRestartEnv {
  tempDirExists : bool;        (* [fs.existsSync(serverSpecificTempDir)] *)
  removeTempDir : FsOutcome;   (* [await fs.remove(serverSpecificTempDir)] *)
  restartStart : StartEnv
}.

(** [!req.isServerOwner && !requestingUser.isAdmin && !permissions.p], for
    the [requestingUser] that [User.findOne({ userId: req.originalUserId })]
    answered: [requestingUser.isAdmin] is read only when the request is not
    the owner's, and the read throws when there is no such account. *)
Definition lacksPermission (acc : Access) (requestingUser : option UserRow) (p : bool)
    : Run bool :=
  if a_isServerOwner acc then mret false
  else
    match requestingUser with
    | None => throw TypeError
    | Some user => mret (negb (u_isAdmin user) && negb p)
    end.

(** [app.post('/restart-server', ...)] *)
Definition postRestartServer (req : Request) (env : RestartEnv) : Run Response :=
  guarded req (λ acc,
    let serverId := a_serverId acc in
    let targetUserId := a_targetUserId acc in
    let logKey := logKeyOf targetUserId serverId in
    w ← getWorld ;
    let requestingUser := DbFile.findUser (a_originalUserId acc) (appUsers (db w)) in
    let permissions := permissionsOf (a_server acc) (a_originalUserId acc) in
    refused ← lacksPermission acc requestingUser (editStartup permissions) ;
    if refused : bool then mret ErrNotPermitted
    else
      initializeServerLogs targetUserId serverId ;;
      w1 ← getWorld ;
      (match registryGet targetUserId serverId w1 with
       | Some handle =>
           consolePush logKey LStoppingForRestart ;;
           consoleTrim logKey ;;
           broadcast targetUserId serverId (PLine LStoppingForRestart) ;;
           kill handle SIGTERM ;;
           registryDelete targetUserId serverId ;;
           (if tempDirExists env then ignoreFailure (fsCall (removeTempDir env))
            else mret ())
       | None =>
           if tempDirExists env then ignoreFailure (fsCall (removeTempDir env))
           else mret ()
       end) ;;
      consoleReset logKey ;;
      clearConsoleLogs targetUserId serverId ;;
      broadcast targetUserId serverId PClearConsole ;;
      consolePush logKey LRestarting ;;
      consoleTrim logKey ;;
      broadcast targetUserId serverId (PLine LRestarting) ;;
      detach
        (tryCatch
           (startServerInBackground serverId targetUserId (a_server acc) (restartStart env))
           (λ err,
              consolePush logKey (LRestartFatal (errMessage err)) ;;
              consoleTrim logKey ;;
              broadcast targetUserId serverId (PLine (LRestartFatal (errMessage err))))) ;;
      logServerEvent "إعادة تشغيل سيرفر" (a_originalUserId acc) serverId ;;
      mret OkRestarting).

(** What the outside world answers during [/kill-server]. *)
Record KillEnv : Type := mkKillEnv {
  sendSignal : option string;  (* the message of the error [kill('SIGKILL')] throws, if any *)
  removeKilledDir : FsOutcome  (* [fs.remove(serverDir)] *)
}.

(** [app.post('/kill-server', ...)] *)
Definition postKillServer (req : Request) (env : KillEnv) : Run Response :=
  guarded req (λ acc,
    let serverId := a_serverId acc in
    let targetUserId := a_targetUserId acc in
    let logKey := logKeyOf targetUserId serverId in
    w ← getWorld ;
    let requestingUser := DbFile.findUser (a_originalUserId acc) (appUsers (db w)) in
    let permissions := permissionsOf (a_server acc) (a_originalUserId acc) in
    refused ← lacksPermission acc requestingUser (editSettings permissions) ;
    if refused : bool then mret ErrNotPermitted
    else
      initializeServerLogs targetUserId serverId ;;
      w1 ← getWorld ;
      match registryGet targetUserId serverId w1 with
      | Some serverProcess =>
          consolePush logKey LKillRequested ;;
          consoleTrim logKey ;;
          broadcast targetUserId serverId (PLine LKillRequested) ;;
          tryCatch
            (match sendSignal env with
             | None => kill serverProcess SIGKILL
             | Some message => throw (SignalError message)
             end)
            (λ killError,
               let killErrorMsg := LKillSignalWarn (errMessage killError) in
               consolePush logKey killErrorMsg ;;
               consoleTrim logKey ;;
               broadcast targetUserId serverId (PLine killErrorMsg)) ;;
          registryDeleteOptional targetUserId serverId ;;
          detach
            (tryCatch (fsCall (removeKilledDir env))
               (λ _,
                  consolePush logKey LKillCleanupWarn ;;
                  consoleTrim logKey ;;
                  broadcast targetUserId serverId (PLine LKillCleanupWarn))) ;;
          logServerEvent "إيقاف قسري للسيرفر (Kill)" (a_originalUserId acc) serverId ;;
          mret OkKillSent
      | None =>
          consolePush logKey LWasNotRunning ;;
          consoleTrim logKey ;;
          broadcast targetUserId serverId (PLine LWasNotRunning) ;;
          detach (ignoreFailure (fsCall (removeKilledDir env))) ;;
          mret ErrWasNotRunning
      end).

(** [app.post('/delete-server', ...)] *)
Definition postDeleteServer (req : Request) : Run Response :=
  guarded req (λ acc,
    let serverId := a_serverId acc in
    let targetUserId := a_targetUserId acc in
    if negb (a_isServerOwner acc) && negb (a_isAdmin acc) then mret ErrNotPermitted
    else
      w ← getWorld ;
      (match registryGet targetUserId serverId w with
       | Some handle =>
           kill handle SIGTERM ;;
           registryDelete targetUserId serverId
       | None => mret ()
       end) ;;
      modify (withDb (withAppServers (DbFile.deleteServer serverId))) ;;
      logServerEvent "حذف سيرفر" (a_userId acc) serverId ;;
      mret OkDeleted).

(* ===================================================================== *)
(** * The viewer socket ([wss.on('connection', ...)]) *)
(* ===================================================================== *)

Definition sendTo (id : nat) (p : Push) : Run unit :=
  modify (withViewers (map (λ v,
    if Nat.eqb (ws_id v) id && ws_open v then deliver p v else v))).

Fixpoint sendAll (id : nat) (lines : list Line) : Run unit :=
  match lines with
  | [] => mret ()
  | l :: rest => sendTo id (PLine l) ;; sendAll id rest
  end.

(** [ws.on(event, listener)] *)
Definition wsOn (id : nat) (ev : WsEvent) (listener : WsListener) : Run unit :=
  modify (withViewers (map (λ v,
    if Nat.eqb (ws_id v) id
    then mkViewer (ws_id v) (ws_userId v) (ws_serverId v) (ws_open v)
           (ws_listeners v ++ [(ev, listener)]) (ws_received v)
    else v))).

(** The connection handler, for the socket [id] opened with the query
    parameters [userId] and [serverId]. *)
Definition wsConnection (id : nat) (userId serverId : option string) : Run unit :=
  modify (withViewers (λ vs, vs ++ [mkViewer id userId serverId true [] []])) ;;
  (match truthy userId, truthy serverId with
   | Some u, Some s =>
       initializeServerLogs u s ;;
       w ← getWorld ;
       sendAll id (DbFile.getRecentConsoleLogs u s 100 (appConsoleLogs (db w)))
   | _, _ => mret ()
   end) ;;
  wsOn id EvClose CloseListener.

Definition runListener (listener : WsListener) (data : string) : Run unit :=
  match listener with
  | CloseListener => mret ()
  end.

Fixpoint runListeners (ev : WsEvent) (data : string)
    (listeners : list (WsEvent * WsListener)) : Run unit :=
  match listeners with
  | [] => mret ()
  | (ev', listener) :: rest =>
      (if bool_decide (ev' = ev) then runListener listener data else mret ()) ;;
      runListeners ev data rest
  end.

(** The socket [id] emits [ev]: every listener registered for [ev] on that
    socket runs. *)
Definition wsEmit (id : nat) (ev : WsEvent) (data : string) : Run unit :=
  w ← getWorld ;
  match List.find (λ v, Nat.eqb (ws_id v) id) (viewers w) with
  | Some v => runListeners ev data (ws_listeners v)
  | None => mret ()
  end.

(** A viewer submits a line: the socket emits ['message']. *)
Definition viewerSubmits (id : nat) (line : string) : Run unit :=
  wsEmit id EvMessage line.

(* ===================================================================== *)
(** * What the console page shows, and reasoning about handler code *)
(* ===================================================================== *)

(** The "running" flag of the console page ([app.get('/server')]):
    [persistedState.isRunning || !!runningProcesses[userId]?.[serverId]].
    A server is stopped when the flag is off. *)
Definition shownAsRunning (userId serverId : string) (w : World) : bool :=
  isRunning (DbFile.getProcessState userId serverId (appProcessState (db w))) ||
  match registryGet userId serverId w with Some _ => true | None => false end.

(** [wp m Q E w]: run from [w], the code [m] either completes with a value
    and a world that satisfy [Q], or throws an error in a world that
    satisfy [E]. *)
Definition wp {A : Type} (m : Run A) (Q : A → World → Prop) (E : JsError → World → Prop)
    (w : World) : Prop :=
  match m w with
  | (w', Normal a) => Q a w'
  | (w', Throw e) => E e w'
  end.

(** [keeps R m]: whatever [m] does, the world it leaves is related by [R]
    to the world it started from. *)
Definition keeps {A : Type} (R : World → World → Prop) (m : Run A) : Prop :=
  ∀ w, R w (fst (m w)).

(** The part of the world that only spawning, signalling, the registry and
    the process-state table can change. *)
Definition sameProcesses (w w' : World) : Prop :=
  children w' = children w ∧
  (∀ u s, registryGet u s w' = registryGet u s w) ∧
  appProcessState (db w') = appProcessState (db w) ∧
  appServers (db w') = appServers (db w) ∧
  appUsers (db w') = appUsers (db w).

(** [steady I m]: from a world in [I], the code [m] completes without
    throwing and leaves a world in [I]; [tolerant I m]: it may also throw,
    and still leaves a world in [I]. *)
Definition steady {A : Type} (I : World → Prop) (m : Run A) : Prop :=
  ∀ w, I w → wp m (λ _ w', I w') (λ _ _, False) w.

Definition tolerant {A : Type} (I : World → Prop) (m : Run A) : Prop :=
  ∀ w, I w → wp m (λ _ w', I w') (λ _ w', I w') w.

(** Lines and rows other than the "entry script missing" line of a key. *)
Definition noMissingLine (lines : list Line) : bool :=
  forallb (λ l, negb (isEntryScriptMissing l)) lines.

Definition isMissingRowOf (userId serverId : string) (r : ConsoleRow) : bool :=
  sameKey userId serverId (row_userId r) (row_serverId r) &&
  isEntryScriptMissing (row_content r).

Definition noMissingRow (userId serverId : string) (rows : list ConsoleRow) : bool :=
  forallb (λ r, negb (isMissingRowOf userId serverId r)) rows.

(** A start under way that has not reported a missing entry script and
    has not touched a process. *)
Definition quiet (userId serverId : string) (w0 w : World) : Prop :=
  (∃ lines, consoleLogs w !! logKeyOf userId serverId = Some lines ∧
            noMissingLine lines = true) ∧
  noMissingRow userId serverId (appConsoleLogs (db w)) = true ∧
  sameProcesses w0 w.

(* ===================================================================== *)
(** * The stored process state, by key *)
(* ===================================================================== *)

(** The key of a row of [appProcessState]. *)
Definition ps_key (r : ProcessStateRow) : string * string := (ps_userId r, ps_serverId r).

(** [row.startTime || null] *)
Definition startTimeOrNull (t : option Z) : option Z :=
  match t with
  | Some t => if (t =? 0)%Z then None else Some t
  | None => None
  end.

(** * Creating and deleting in the virtual file store *)

Inductive CreateOutcome : Type :=
| Created          (* 'تم إنشاء الملف بنجاح' *)
| FileExists.      (* 'الملف موجود بالفعل' *)

(** The store part of [app.post('/create-file')], from the encoded path of
    the new file on: [Buffer.from('').toString('base64')] is the empty
    string. *)
Definition createInStore (files : FileStore) (encodedNewFilePath : string)
  : CreateOutcome * FileStore :=
  if JsMap.has encodedNewFilePath files then (FileExists, files)
  else (Created, JsMap.set encodedNewFilePath (Base64 "") files).

Inductive DeleteOutcome : Type :=
| Deleted           (* 'تم الحذف بنجاح' *)
| NothingToDelete.  (* 'الملف أو المجلد غير موجود' *)

(** What [/delete-file] and each turn of the loop of [/delete-files] do to
    the store for one path: the file itself goes, if there is one, and then
    every key under the path. *)
Definition deleteEntry (files : FileStore) (encodedFilePath : string) : FileStore :=
  let prefix := encodedFilePath +:+ encodeFilePathKey "/" in
  let files1 :=
    if JsMap.has encodedFilePath files then JsMap.delete encodedFilePath files else files in
  let keysToDelete :=
    List.filter (λ fp, JsString.startsWith fp prefix) (JsMap.keys files1) in
  fold_left (λ fs fp, JsMap.delete fp fs) keysToDelete files1.

(** The store part of [app.get('/delete-file')]. *)
Definition deleteInStore (files : FileStore) (encodedFilePath : string)
  : DeleteOutcome * FileStore :=
  let prefix := encodedFilePath +:+ encodeFilePathKey "/" in
  let fileExists := JsMap.has encodedFilePath files in
  let dirExists := someKeyStartsWith files prefix in
  if negb fileExists && negb dirExists then (NothingToDelete, files)
  else (Deleted, deleteEntry files encodedFilePath).

(** The store part of [app.get('/delete-files')], for the decoded paths
    that the request lists. *)
Definition deleteManyInStore (files : FileStore) (filesToDeletePaths : list string)
  : FileStore :=
  fold_left (λ fs filePath, deleteEntry fs (encodeFilePathKey filePath))
    filesToDeletePaths files.

(* ===================================================================== *)
(** * Server records: queries, creation, members, administration *)
(* ===================================================================== *)

(** The [id] of a query handed to [JsonServerModel.findOne]: missing, a
    string, or the object [{ $ne: id }]. *)
Inductive IdQuery : Type :=
| IdMissing
| IdIs (id : string)
| IdNot (id : string).

Record ServerQuery : Type := mkServerQuery {
  q_id : IdQuery;
  q_name : option string;
  q_ownerId : option string
}.

(** [JsonServerModel.findOne(query)]: [if (!query.id) return null], then
    [db.appServers.find(s => s.id === query.id)]; the name and the owner of
    the query are not looked at, and no stored id is [===] an object. *)
Definition findOneServer (query : ServerQuery) (servers : list Server) : option Server :=
  match q_id query with
  | IdMissing => None
  | IdIs id => DbFile.findServer id servers
  | IdNot _ => None
  end.

(** [JsonUserModel.findOne({ username })] *)
Definition findUserByName (username : option string) (users : list UserRow) : option UserRow :=
  match truthy username with
  | None => None
  | Some name => List.find (λ u, String.eqb (u_username u) name) users
  end.

(** [server.save()]: [upsert(db.appServers, s => s.id === this.id, row)],
    with a row that carries every field of the server. *)
Definition saveServer (server : Server) (servers : list Server) : list Server :=
  DbFile.upsert (λ s, String.eqb (s_id s) (s_id server)) server servers.

(** [s.trim() === '']: the text is made of white space only.  [skip]
    counts the bytes of the current character still to be passed over. *)
Fixpoint isBlankFrom (skip : nat) (s : string) : bool :=
  match s with
  | EmptyString => true
  | String _ rest =>
      match skip with
      | S k => isBlankFrom k rest
      | O =>
          match spaceLength s with
          | O => false
          | S k => isBlankFrom k rest
          end
      end
  end.

Definition isBlank (s : string) : bool := isBlankFrom 0 s.

(** [req.userId] as [ensureLoggedIn] sets it. *)
Definition ensureLoggedIn (req : Request) : option string :=
  match truthy (session_userId req) with
  | None => None
  | Some originalUserId =>
      Some match truthy (session_impersonating req) with
           | Some other => other
           | None => originalUserId
           end
  end.

Inductive CreateServerAnswer : Type :=
| CsToLogin        (* 'يرجى تسجيل الدخول أولاً' *)
| CsInvalidName    (* 'اسم السيرفر غير صالح' *)
| CsNameTaken      (* 'اسم السيرفر موجود بالفعل' *)
| CsCreated.       (* 'تم إنشاء السيرفر بنجاح' *)

(** [app.post('/create-server', ensureLoggedIn, ...)]; [newId] is what
    [uuidv4()] answers. *)
Definition postCreateServer (req : Request) (serverName : option string) (newId : string)
  : Run CreateServerAnswer :=
  w ← getWorld ;
  match ensureLoggedIn req with
  | None => mret CsToLogin
  | Some userId =>
      match truthy serverName with
      | None => mret CsInvalidName
      | Some name =>
          if isBlank name then mret CsInvalidName
          else
            match findOneServer (mkServerQuery IdMissing (Some name) (Some userId))
                    (appServers (db w)) with
            | Some _ => mret CsNameTaken
            | None =>
                let newServer :=
                  mkServer newId name userId false
                    [(userId, mkPermissions true true true true true true true true true)]
                    [] [] in
                modify (withDb (withAppServers (saveServer newServer))) ;;
                logServerEvent "إنشاء سيرفر" userId newId ;;
                mret CsCreated
            end
      end
  end.

(** How the routes of the users page answer. *)
Inductive UsersAnswer : Type :=
| AccessRefused (refusal : Response)  (* the answer of the middleware *)
| ErrMayNotEditUsers     (* 'غير مصرح لك بتعديل المستخدمين' *)
| ErrNoSuchUser          (* 'المستخدم غير موجود' *)
| ErrOwnerAsMember       (* 'لا يمكن إضافة مالك السيرفر كمستخدم فرعي' *)
| ErrAlreadyMember       (* 'المستخدم موجود بالفعل' *)
| ErrCannotRemoveOwner   (* 'لا يمكن إزالة مالك السيرفر' *)
| OkUserAdded            (* 'تم إضافة المستخدم بنجاح' *)
| OkPermissionsEdited    (* 'تم تعديل الأذونات بنجاح' *)
| OkUserRemoved.         (* 'تم إزالة المستخدم بنجاح' *)

(** A route of the users page behind both middlewares and the check
    [!req.isServerOwner && !user.isAdmin && !permissions.editUsers]. *)
Definition usersRoute (req : Request) (route : Access → Run UsersAnswer) : Run UsersAnswer :=
  w ← getWorld ;
  match ensureServerAccess req (db w) with
  | inl refusal => mret (AccessRefused refusal)
  | inr acc =>
      let permissions := permissionsOf (a_server acc) (a_userId acc) in
      if negb (a_isServerOwner acc) && negb (a_isAdmin acc) && negb (editUsers permissions)
      then mret ErrMayNotEditUsers
      else route acc
  end.

Definition withUsers (f : JsMap.t Permissions → JsMap.t Permissions) (server : Server)
  : Server :=
  mkServer (s_id server) (s_name server) (s_ownerId server) (s_isSuspended server)
    (f (s_users server)) (s_files server) (s_startupSettings server).

(** [app.post('/add-user', ...)]; [submitted] holds the nine check boxes of
    the form. *)
Definition postAddUser (req : Request) (username : option string) (submitted : Permissions)
  : Run UsersAnswer :=
  usersRoute req (λ acc,
    let server := a_server acc in
    w ← getWorld ;
    match findUserByName username (appUsers (db w)) with
    | None => mret ErrNoSuchUser
    | Some newUser =>
        if String.eqb (u_userId newUser) (s_ownerId server) then mret ErrOwnerAsMember
        else if JsMap.has (u_userId newUser) (s_users server) then mret ErrAlreadyMember
        else
          modify (withDb (withAppServers
            (saveServer (withUsers (JsMap.set (u_userId newUser) submitted) server)))) ;;
          logServerEvent "إضافة مستخدم إلى سيرفر" (a_userId acc) (a_serverId acc) ;;
          mret OkUserAdded
    end).

(** [app.post('/edit-user', ...)]: the handler reads seven of the nine
    check boxes and stores an object with those seven fields; in the stored
    object [viewStartup] and [editStartup] are missing, and a missing
    permission is no permission. *)
Definition postEditUser (req : Request) (targetUserId : string) (submitted : Permissions)
  : Run UsersAnswer :=
  usersRoute req (λ acc,
    let server := a_server acc in
    if negb (JsMap.has targetUserId (s_users server)) then mret ErrNoSuchUser
    else
      let stored :=
        mkPermissions (viewConsole submitted) (viewFiles submitted) (editFiles submitted)
          (viewSettings submitted) (editSettings submitted) (viewUsers submitted)
          (editUsers submitted) false false in
      modify (withDb (withAppServers
        (saveServer (withUsers (JsMap.set targetUserId stored) server)))) ;;
      logServerEvent "تعديل أذونات مستخدم" (a_userId acc) (a_serverId acc) ;;
      mret OkPermissionsEdited).

(** [app.post('/remove-user', ...)] *)
Definition postRemoveUser (req : Request) (targetUserId : string) : Run UsersAnswer :=
  usersRoute req (λ acc,
    let server := a_server acc in
    if negb (JsMap.has targetUserId (s_users server)) then mret ErrNoSuchUser
    else if String.eqb targetUserId (s_ownerId server) then mret ErrCannotRemoveOwner
    else
      modify (withDb (withAppServers
        (saveServer (withUsers (JsMap.delete targetUserId) server)))) ;;
      logServerEvent "إزالة مستخدم من سيرفر" (a_userId acc) (a_serverId acc) ;;
      mret OkUserRemoved).

(** How the routes of the administration page answer. *)
Inductive AdminAnswer : Type :=
| AdmToLogin             (* 'يرجى تسجيل الدخول أولاً' *)
| AdmNotAdmin            (* 'غير مصرح لك بالوصول إلى هذه الصفحة' *)
| AdmServerNotFound      (* 'السيرفر غير موجود' *)
| AdmSuspensionToggled   (* 'تم تغيير حالة التعليق بنجاح' *)
| AdmServerDeleted.      (* 'تم حذف السيرفر بنجاح' *)

(** [ensureLoggedIn] followed by [ensureAdmin]: the account that the
    request acts as must be an administrator. *)
Definition ensureAdmin (req : Request) (d : Db) : AdminAnswer + string :=
  match ensureLoggedIn req with
  | None => inl AdmToLogin
  | Some userId =>
      match DbFile.findUser userId (appUsers d) with
      | Some user => if u_isAdmin user then inr userId else inl AdmNotAdmin
      | None => inl AdmNotAdmin
      end
  end.

Definition toggleSuspension (server : Server) : Server :=
  mkServer (s_id server) (s_name server) (s_ownerId server) (negb (s_isSuspended server))
    (s_users server) (s_files server) (s_startupSettings server).

(** The query [{ id: serverId }] for the [serverId] of the body. *)
Definition byRequestedId (req : Request) : ServerQuery :=
  mkServerQuery (match body_serverId req with Some id => IdIs id | None => IdMissing end)
    None None.

(** [app.post('/admin/toggle-server-suspension', ...)] *)
Definition postAdminToggleSuspension (req : Request) : Run AdminAnswer :=
  w ← getWorld ;
  match ensureAdmin req (db w) with
  | inl refusal => mret refusal
  | inr userId =>
      match findOneServer (byRequestedId req) (appServers (db w)) with
      | None => mret AdmServerNotFound
      | Some server =>
          modify (withDb (withAppServers (saveServer (toggleSuspension server)))) ;;
          logServerEvent "تغيير حالة تعليق السيرفر" userId (default "" (body_serverId req)) ;;
          mret AdmSuspensionToggled
      end
  end.

(** [app.post('/admin/delete-server', ...)] *)
Definition postAdminDeleteServer (req : Request) : Run AdminAnswer :=
  w ← getWorld ;
  match ensureAdmin req (db w) with
  | inl refusal => mret refusal
  | inr userId =>
      match findOneServer (byRequestedId req) (appServers (db w)) with
      | None => mret AdmServerNotFound
      | Some server =>
          modify (withDb (withAppServers
            (DbFile.deleteServer (default "" (body_serverId req))))) ;;
          logServerEvent "حذف سيرفر بواسطة المدير" userId (default "" (body_serverId req)) ;;
          mret AdmServerDeleted
      end
  end.


(* ===================================================================== *)
(** * What a start does to the children and the registry *)
(* ===================================================================== *)

(** The children and the registry are the same in both worlds. *)
Definition sameHandles (w w' : World) : Prop :=
  children w' = children w ∧ ∀ u s, registryGet u s w' = registryGet u s w.

(** From [w] to [w'] one child was spawned and registered for the key
    [(u, s)], and nothing else happened to a child or a registry entry. *)
Definition spawnedFor (u s : string) (w w' : World) : Prop :=
  ∃ child : Child,
    children w' = children w ++ [child] ∧
    child_pid child = length (children w) ∧
    child_signals child = [] ∧
    registryGet u s w' = Some (length (children w)) ∧
    ∀ u' s', (u', s') ≠ (u, s) → registryGet u' s' w' = registryGet u' s' w.

(** What one run of [startServerInBackground] for the key [(u, s)] can
    do to the children and the registry. *)
Definition startOutcome (u s : string) (w w' : World) : Prop :=
  sameHandles w w' ∨ spawnedFor u s w w'.

(* ===================================================================== *)
(** * A small installation to run the handlers on *)
(* ===================================================================== *)

Definition allPermissions : Permissions :=
  mkPermissions true true true true true true true true true.

(** The server [s1] of the user [u1], as [/create-server] makes it, with
    the given files. *)
Definition demoServer (suspended : bool) (files : FileStore) : Server :=
  mkServer "s1" "bot" "u1" suspended [("u1", allPermissions)] files [].

(** A database with the owner [u1], an administrator and the server. *)
Definition demoDb (suspended : bool) (files : FileStore) : Db :=
  mkDb [mkUserRow "u1" "owner" false; mkUserRow "root" "Ebrahim" true]
       [demoServer suspended files] [] [] [].

(** The dashboard right after it booted on that database. *)
Definition bootedWorld (suspended : bool) (files : FileStore) : World :=
  mkWorld ∅ ∅ ∅ (demoDb suspended files) 1000 [] [].

Definition indexJs : FileStore := [("index__DOT__js", Base64 "Y29uc29sZS5sb2coMSk=")].

(** A file system and an installer that do what they are asked;
    [mainExists] is whether the entry script is found. *)
Definition quietDisk (mainExists : bool) : StartEnv :=
  mkStartEnv false FsDone FsDone (λ _, FsDone) (ExecDone "" "") mainExists false
    (ExecDone "" "") FsDone.

(** The owner, and the administrator acting on the owner's server. *)
Definition ownerRequest : Request := mkRequest (Some "u1") None None (Some "s1").
Definition adminRequest : Request := mkRequest (Some "root") None (Some "u1") (Some "s1").

(** The world after the owner started the server once. *)
Definition runningWorld : World :=
  fst (postStartServer ownerRequest (quietDisk true) (bootedWorld false indexJs)).

(** ** The small installation with a second account *)

Definition guestRow : UserRow := mkUserRow "u2" "guest" false.

(** The dashboard after the account [guest] registered. *)
Definition guestWorld : World :=
  withDb (λ d, mkDb (appUsers d ++ [guestRow]) (appServers d) (appEventLogs d)
                 (appConsoleLogs d) (appProcessState d))
    (bootedWorld false indexJs).

(** The world after the owner added [guest] to the server with every
    permission. *)
Definition memberWorld : World :=
  fst (postAddUser ownerRequest (Some "guest") allPermissions guestWorld).

(** A request of [guest] for the owner's server. *)
Definition guestRequest : Request := mkRequest (Some "u2") None (Some "u1") (Some "s1").

(* ===================================================================== *)
(* ===================================================================== *)
(** * Properties *)
(* ===================================================================== *)
(* ===================================================================== *)

Example encode_ab : encodeFilePathKey "a/b.txt" = "a/b__DOT__txt".
Proof. reflexivity. Qed.

Example decode_ab : decodeFilePathKey "a/b__DOT__txt" = "a/b.txt".
Proof. reflexivity. Qed.

Example normalize_ab : normalizeSeparators "a\b\c.js" = "a/b/c.js".
Proof. reflexivity. Qed.

Example words_example : words "  express  ws@8
 chalk " = ["express"; "ws@8"; "chalk"].
Proof. reflexivity. Qed.

(** A no-break space (U+00A0, the bytes 194 and 160) separates words too. *)
Example words_no_break_space :
  words ("express" +:+ String (ascii_of_nat 194) (String (ascii_of_nat 160) "ws")) =
  ["express"; "ws"].
Proof. reflexivity. Qed.

(* ===================================================================== *)
(** ** Strings *)
(* ===================================================================== *)

Section StringFacts.

Lemma append_cons (a : ascii) (p s : string) : String a p +:+ s = String a (p +:+ s).
Proof. reflexivity. Qed.

Lemma append_empty_l (s : string) : "" +:+ s = s.
Proof. reflexivity. Qed.

Lemma prefix_empty (s : string) : String.prefix "" s = true.
Proof. by destruct s. Qed.

Lemma prefix_cons (a b : ascii) (p s : string) :
String.prefix (String a p) (String b s) = Ascii.eqb a b && String.prefix p s.
Proof.
simpl. destruct (ascii_dec a b) as [->|Hne].
- by rewrite Ascii.eqb_refl.
- apply Ascii.eqb_neq in Hne. by rewrite Hne.
Qed.

Lemma prefix_nil_r (a : ascii) (p : string) : String.prefix (String a p) "" = false.
Proof. reflexivity. Qed.

Lemma prefix_app (p s : string) : String.prefix p (p +:+ s) = true.
Proof.
induction p as [|a p IH].
- apply prefix_empty.
- by rewrite append_cons, prefix_cons, Ascii.eqb_refl.
Qed.

Lemma prefix_split (p s : string) :
String.prefix p s = true →
s = p +:+ JsString.substring_from (String.length p) s.
Proof.
revert s. induction p as [|a p IH]; intros s H; [done|].
destruct s as [|b s]; [done|].
rewrite prefix_cons in H. apply andb_prop in H as [Hab Hp].
apply Ascii.eqb_eq in Hab as ->. rewrite append_cons. simpl. f_equal. by apply IH.
Qed.

Lemma substring_from_app (p s : string) :
JsString.substring_from (String.length p) (p +:+ s) = s.
Proof. induction p as [|a p IH]; [done | by rewrite append_cons]. Qed.

Lemma substring_from_empty (n : nat) : JsString.substring_from n "" = "".
Proof. by destruct n. Qed.

Lemma replace_from_skip (tok rep : string) (k : nat) (s : string) :
JsString.replace_from tok rep k s =
JsString.replace_from tok rep 0 (JsString.substring_from k s).
Proof.
revert k. induction s as [|c t IH]; intros k.
- by rewrite substring_from_empty.
- destruct k as [|k]; [done|]. simpl. apply IH.
Qed.

Lemma includes_cons (c : ascii) (t p : string) :
JsString.includes (String c t) p = String.prefix p (String c t) || JsString.includes t p.
Proof. reflexivity. Qed.

End StringFacts.

(* ===================================================================== *)
(** ** The path codec *)
(* ===================================================================== *)

Section Codec.

Lemma encode_cons (c : ascii) (t : string) :
encodeFilePathKey (String c t) =
if Ascii.eqb c "." then DOT_TOKEN +:+ encodeFilePathKey t
else String c (encodeFilePathKey t).
Proof.
unfold encodeFilePathKey, JsString.replaceAll.
cbn [JsString.replace_from]. rewrite prefix_cons, prefix_empty, andb_true_r.
rewrite (Ascii.eqb_sym c). by destruct (Ascii.eqb "." c).
Qed.

Lemma decode_cons (c : ascii) (t : string) :
decodeFilePathKey (String c t) =
if String.prefix DOT_TOKEN (String c t)
then String "." (decodeFilePathKey (JsString.substring_from 6 t))
else String c (decodeFilePathKey t).
Proof.
unfold decodeFilePathKey, JsString.replaceAll.
cbn [JsString.replace_from].
destruct (String.prefix DOT_TOKEN (String c t)); [|done].
by rewrite replace_from_skip.
Qed.

Lemma decode_token (s : string) :
decodeFilePathKey (DOT_TOKEN +:+ s) = String "." (decodeFilePathKey s).
Proof.
unfold DOT_TOKEN. rewrite !append_cons, append_empty_l, decode_cons.
unfold DOT_TOKEN. by rewrite !prefix_cons, prefix_empty.
Qed.

(** A character of the path that is not a dot is copied by the encoder.
  If the decoder finds the token at such a character, the path has one
  of the three clashing shapes there. *)
Lemma token_found_at_copy (c : ascii) (t : string) :
Ascii.eqb c "." = false →
String.prefix DOT_TOKEN (String c (encodeFilePathKey t)) = true →
String.prefix "__DOT__" (String c t) || String.prefix "__DOT_." (String c t)
|| String.prefix "__DOT." (String c t) = true.
Proof.
intros Hc H. unfold DOT_TOKEN in H.
repeat match goal with
| H : String.prefix (String _ _) (String _ (encodeFilePathKey ?t)) = true |- _ =>
    rewrite prefix_cons in H; apply andb_prop in H as [?%Ascii.eqb_eq H]; subst;
    destruct t as [|? ?]; [discriminate H|];
    rewrite encode_cons in H;
    match type of H with
    | context [Ascii.eqb ?a "."] => destruct (Ascii.eqb a ".") eqn:?
    end
| H : String.prefix _ (DOT_TOKEN +:+ _) = true |- _ =>
    unfold DOT_TOKEN in H; rewrite !append_cons, ?append_empty_l in H
| H : Ascii.eqb _ "." = true |- _ => apply Ascii.eqb_eq in H; subst
| H : String.prefix (String _ _) (String _ _) = true |- _ =>
    rewrite prefix_cons in H; apply andb_prop in H as [?%Ascii.eqb_eq H]; subst
end; try discriminate.
all: try (repeat rewrite prefix_cons, ?prefix_empty; simpl; done).
Qed.

End Codec.

Section CodecRoundTrip.

Lemma clash_free_cons (c : ascii) (t : string) :
clashesWithToken (String c t) = false →
(String.prefix "__DOT__" (String c t) || String.prefix "__DOT_." (String c t)
 || String.prefix "__DOT." (String c t) = false) ∧
clashesWithToken t = false.
Proof.
unfold clashesWithToken. rewrite !includes_cons.
destruct (String.prefix "__DOT__" (String c t)),
  (String.prefix "__DOT_." (String c t)),
  (String.prefix "__DOT." (String c t)),
  (JsString.includes t "__DOT__"), (JsString.includes t "__DOT_."),
  (JsString.includes t "__DOT."); simpl; intros H; try discriminate H; done.
Qed.

Lemma decode_encode_clash_free (p : string) :
clashesWithToken p = false → decodeFilePathKey (encodeFilePathKey p) = p.
Proof.
induction p as [|c t IH]; intros Hfree; [done|].
apply clash_free_cons in Hfree as [Hhere Hrest].
rewrite encode_cons. destruct (Ascii.eqb c ".") eqn:Hc.
- apply Ascii.eqb_eq in Hc as ->. rewrite decode_token. f_equal. by apply IH.
- rewrite decode_cons.
  destruct (String.prefix DOT_TOKEN (String c (encodeFilePathKey t))) eqn:Hfound.
  + apply (token_found_at_copy c t Hc) in Hfound. congruence.
  + f_equal. by apply IH.
Qed.

Lemma normalize_normalized (p : string) :
isNormalized p = true → normalizeSeparators p = p.
Proof.
unfold isNormalized, normalizeSeparators, JsString.replaceAll.
induction p as [|c t IH]; intros H; [done|].
apply negb_true_iff in H. rewrite includes_cons in H.
apply orb_false_elim in H as [Hc Ht].
cbn [JsString.replace_from]. rewrite Hc. f_equal.
apply IH. by apply negb_true_iff.
Qed.

(** In what the decoder writes, the token never starts at a character it
  copied: a text without dots that begins the decoder's output begins
  its input too. *)
Lemma decode_prefix_reflects (u s : string) :
JsString.includes u "." = false →
String.prefix u (decodeFilePathKey s) = true → String.prefix u s = true.
Proof.
revert s. induction u as [|a u IH]; intros s Hdots H; [apply prefix_empty|].
rewrite includes_cons in Hdots. apply orb_false_elim in Hdots as [Ha Hu].
rewrite prefix_cons, prefix_empty, andb_true_r in Ha.
destruct s as [|c t]; [done|].
rewrite decode_cons in H.
destruct (String.prefix DOT_TOKEN (String c t)).
- rewrite prefix_cons in H. apply andb_prop in H as [H _].
  rewrite Ascii.eqb_sym in Ha. congruence.
- rewrite prefix_cons in H |- *. apply andb_prop in H as [-> H]. by apply IH.
Qed.

Lemma decode_never_starts_with_token (s : string) :
String.prefix DOT_TOKEN (decodeFilePathKey s) = false.
Proof.
destruct (String.prefix DOT_TOKEN (decodeFilePathKey s)) eqn:H; [|done].
pose proof (decode_prefix_reflects DOT_TOKEN s eq_refl H) as Hs.
destruct s as [|c t]; [done|].
rewrite decode_cons, Hs in H. done.
Qed.

Lemma decode_never_yields_token (k : nat) (s : string) :
JsString.includes (JsString.replace_from DOT_TOKEN "." k s) DOT_TOKEN = false.
Proof.
revert k. induction s as [|c t IH]; intros k; [done|].
destruct k as [|k]; [|apply IH].
pose proof (decode_never_starts_with_token (String c t)) as Hhead.
unfold decodeFilePathKey, JsString.replaceAll in Hhead.
cbn [JsString.replace_from] in Hhead |- *.
destruct (String.prefix DOT_TOKEN (String c t)).
- change ("." +:+ ?x) with (String "." x) in *.
  rewrite includes_cons, Hhead. apply IH.
- rewrite includes_cons, Hhead. apply IH.
Qed.

End CodecRoundTrip.

(** C9 (as amended).  For every relative path in normal form that holds
    neither the escape token [__DOT__] nor a dot right after [__DOT] or
    [__DOT_], decoding the encoded key gives the normalised path back:
    [decode(encode(p)) = normalize(p)]. *)
Theorem path_codec_round_trip (p : string) :
  isNormalized p = true →
  clashesWithToken p = false →
  decodeFilePathKey (encodeFilePathKey p) = normalizeSeparators p.
Proof.
  intros Hnorm Hfree.
  rewrite (normalize_normalized p Hnorm). by apply decode_encode_clash_free.
Qed.

Lemma path_codec_round_trip_witness :
  decodeFilePathKey (encodeFilePathKey "src/app.config.js") =
  normalizeSeparators "src/app.config.js".
Proof. apply path_codec_round_trip; reflexivity. Defined.

(** C9 as stated fails: the path [__DOT.txt] is in normal form and does not
    hold the escape token, yet the key of its dot completes an occurrence
    of the token that starts four characters earlier, and the decoder
    answers [.DOT__txt]. *)
Lemma path_codec_round_trip_counterexample :
  isNormalized "__DOT.txt" = true ∧
  JsString.includes "__DOT.txt" DOT_TOKEN = false ∧
  encodeFilePathKey "__DOT.txt" = "__DOT__DOT__txt" ∧
  decodeFilePathKey (encodeFilePathKey "__DOT.txt") = ".DOT__txt" ∧
  decodeFilePathKey (encodeFilePathKey "__DOT.txt") ≠ normalizeSeparators "__DOT.txt".
Proof. repeat split; done. Qed.

(* ===================================================================== *)
(** ** Maps *)
(* ===================================================================== *)

Section JsMapFacts.
Context {V : Type}.
Implicit Types (m : JsMap.t V) (k : string) (v : V).

Lemma jsmap_lookup_set_eq k v m : JsMap.lookup k (JsMap.set k v m) = Some v.
Proof.
induction m as [|[k' v'] m IH]; simpl.
- by rewrite String.eqb_refl.
- destruct (String.eqb k k') eqn:E; simpl; rewrite E; [done | exact IH].
Qed.

Lemma jsmap_lookup_set_ne k k' v m :
k ≠ k' → JsMap.lookup k' (JsMap.set k v m) = JsMap.lookup k' m.
Proof.
intros Hne. induction m as [|[k0 v0] m IH]; simpl.
- apply not_eq_sym, String.eqb_neq in Hne. by rewrite Hne.
- destruct (String.eqb k k0) eqn:E; simpl; [|by rewrite IH].
  apply String.eqb_eq in E as <-.
  apply not_eq_sym, String.eqb_neq in Hne. by rewrite Hne.
Qed.

Lemma jsmap_lookup_delete_eq k m : JsMap.lookup k (JsMap.delete k m) = None.
Proof.
induction m as [|[k' v'] m IH]; simpl; [done|].
destruct (String.eqb k k') eqn:E; simpl; [exact IH | by rewrite E].
Qed.

Lemma jsmap_lookup_delete_ne k k' m :
k ≠ k' → JsMap.lookup k' (JsMap.delete k m) = JsMap.lookup k' m.
Proof.
intros Hne. induction m as [|[k0 v0] m IH]; simpl; [done|].
destruct (String.eqb k k0) eqn:E; simpl; [|by rewrite IH].
apply String.eqb_eq in E as <-.
apply not_eq_sym, String.eqb_neq in Hne. by rewrite Hne.
Qed.

Lemma lookup_None_keys k m : JsMap.lookup k m = None ↔ k ∉ JsMap.keys m.
Proof.
induction m as [|[k' v'] m IH]; simpl.
- split; [intros _; apply not_elem_of_nil | done].
- rewrite not_elem_of_cons. destruct (String.eqb k k') eqn:E.
  + apply String.eqb_eq in E. split; [done | tauto].
  + apply String.eqb_neq in E. rewrite IH. tauto.
Qed.

Lemma has_false_lookup k m : JsMap.has k m = false ↔ JsMap.lookup k m = None.
Proof. unfold JsMap.has. by destruct (JsMap.lookup k m). Qed.

End JsMapFacts.

(** C10.  The encoding of path keys is not injective: the distinct paths
    [a.b] and [a__DOT__b] have the same key, so whatever is stored under
    one of them is what the store answers for the other, and storing the
    second overwrites the first; and for every path that holds the escape
    token, decoding its key gives a different path. *)
Theorem path_key_encoding_not_injective :
  "a.b" ≠ "a__DOT__b" ∧
  encodeFilePathKey "a.b" = encodeFilePathKey "a__DOT__b" ∧
  (∀ (files : FileStore) (first second : FileContent),
     files_get (encodeFilePathKey "a.b")
       (JsMap.set (encodeFilePathKey "a__DOT__b") second
          (JsMap.set (encodeFilePathKey "a.b") first files)) = second) ∧
  (∀ p : string,
     JsString.includes p DOT_TOKEN = true →
     decodeFilePathKey (encodeFilePathKey p) ≠ p).
Proof.
  split; [done|]. split; [done|]. split.
  - intros files first second. unfold files_get.
    change (encodeFilePathKey "a.b") with "a__DOT__b".
    change (encodeFilePathKey "a__DOT__b") with "a__DOT__b".
    by rewrite jsmap_lookup_set_eq.
  - intros p Hin Heq.
    pose proof (decode_never_yields_token 0 (encodeFilePathKey p)) as Hout.
    change (JsString.replace_from DOT_TOKEN "." 0 (encodeFilePathKey p))
      with (decodeFilePathKey (encodeFilePathKey p)) in Hout.
    congruence.
Qed.

Lemma path_key_encoding_not_injective_witness :
  decodeFilePathKey (encodeFilePathKey "lib/__DOT__/x.js") ≠ "lib/__DOT__/x.js".
Proof.
  apply (proj2 (proj2 (proj2 path_key_encoding_not_injective))). reflexivity.
Defined.

(* ===================================================================== *)
(** ** The console log *)
(* ===================================================================== *)

Section ConsoleLogFacts.

Lemma cap_newest {A : Type} (max : nat) (l : list A) : JsArray.cap max l = newest max l.
Proof.
unfold JsArray.cap, newest. destruct (max <? length l)%nat eqn:E; [done|].
apply Nat.ltb_ge in E. by replace (length l - max) with 0 by lia.
Qed.

Lemma newest_app_newest {A : Type} (n : nat) (l l' : list A) :
newest n (newest n l ++ l') = newest n (l ++ l').
Proof.
unfold newest. rewrite !drop_app, !drop_drop, !length_app, !length_drop.
f_equal; f_equal; lia.
Qed.

Lemma newest_all {A : Type} (n : nat) (l : list A) : length l ≤ n → newest n l = l.
Proof. intros H. unfold newest. by replace (length l - n) with 0 by lia. Qed.

Lemma saveAll_newest (appends : list Append) (rows : list ConsoleRow) :
saveAll appends (newest DbFile.MAX rows) =
newest DbFile.MAX (rows ++ map rowOf appends).
Proof.
revert rows. induction appends as [|a appends IH]; intros rows; simpl.
- by rewrite app_nil_r.
- unfold DbFile.saveConsoleLog. rewrite cap_newest, newest_app_newest.
  rewrite (IH (rows ++ [_])). by rewrite <- app_assoc.
Qed.

Lemma filter_drop_suffix {A : Type} (f : A → bool) (n : nat) (l : list A) :
List.filter f (drop n l) `suffix_of` List.filter f l.
Proof.
exists (List.filter f (take n l)).
by rewrite <- List.filter_app, take_drop.
Qed.

Lemma forallb_drop {A : Type} (f : A → bool) (n : nat) (l : list A) :
forallb f l = true → forallb f (drop n l) = true.
Proof.
revert n. induction l as [|x l IH]; intros [|n] H; try done.
simpl in *. apply andb_prop in H as [_ H]. by apply IH.
Qed.

Lemma forallb_filter {A : Type} (f g : A → bool) (l : list A) :
forallb f l = true → forallb f (List.filter g l) = true.
Proof.
induction l as [|x l IH]; intros H; [done|].
simpl in *. apply andb_prop in H as [Hx H].
destruct (g x); simpl; [rewrite Hx|]; by apply IH.
Qed.

Lemma chronological_drop (n : nat) (rows : list ConsoleRow) :
chronological rows = true → chronological (drop n rows) = true.
Proof.
revert n. induction rows as [|r rows IH]; intros [|n] H; try done.
simpl in *. apply andb_prop in H as [_ H]. by apply IH.
Qed.

Lemma chronological_filter (g : ConsoleRow → bool) (rows : list ConsoleRow) :
chronological rows = true → chronological (List.filter g rows) = true.
Proof.
induction rows as [|r rows IH]; intros H; [done|].
simpl in *. apply andb_prop in H as [Hr H].
destruct (g r); simpl; [|by apply IH].
rewrite (forallb_filter _ g rows Hr). by apply IH.
Qed.

(** A stable sort leaves rows alone that are in order already. *)
Lemma sort_chronological (rows : list ConsoleRow) :
chronological rows = true → JsArray.sort_by row_timestamp rows = rows.
Proof.
induction rows as [|r rows IH]; intros H; [done|].
simpl in *. apply andb_prop in H as [Hr H]. rewrite (IH H).
destruct rows as [|r' rows]; [done|].
simpl in *. apply andb_prop in Hr as [-> _]. done.
Qed.

Lemma slice_from_newest {A : Type} (n : nat) (l : list A) :
1 ≤ n → JsArray.slice_from (- Z.of_nat n) l = newest n l.
Proof.
intros Hn. unfold JsArray.slice_from, newest.
replace (- Z.of_nat n <? 0)%Z with true by (symmetry; apply Z.ltb_lt; lia).
f_equal. lia.
Qed.

End ConsoleLogFacts.

(** C7 (as amended).  Appending beyond the retained maximum evicts only
    the oldest rows: after any sequence of appends the store holds exactly
    the newest 5000 rows ever written, so what it holds of one (owner,
    server) pair is the newest part of what that pair appended; the
    in-memory buffer is cut back to its newest 1000 lines in the same way;
    and for every limit [N] of at least one, [recent(owner, server, N)] is
    the newest [N] (or fewer) of the pair's retained rows, oldest first. *)
Theorem console_fifo_and_recent (rows : list ConsoleRow) (appends : list Append)
    (userId serverId : string) (N : nat) :
  length rows ≤ DbFile.MAX →
  chronological (rows ++ map rowOf appends) = true →
  1 ≤ N →
  let written := rows ++ map rowOf appends in
  let kept := saveAll appends rows in
  kept = newest DbFile.MAX written ∧
  rowsOf userId serverId kept `suffix_of` rowsOf userId serverId written ∧
  (∀ logs : list Line, trimLogs logs = newest maxLogSize logs) ∧
  DbFile.getRecentConsoleLogs userId serverId (Z.of_nat N) kept =
    map row_content (newest N (rowsOf userId serverId kept)) ∧
  length (DbFile.getRecentConsoleLogs userId serverId (Z.of_nat N) kept) ≤ N.
Proof.
  intros Hlen Hchron HN written kept.
  assert (Hkept : kept = newest DbFile.MAX written).
  { subst kept written. rewrite <- (newest_all DbFile.MAX rows Hlen) at 1.
    apply saveAll_newest. }
  assert (Hrecent :
    DbFile.getRecentConsoleLogs userId serverId (Z.of_nat N) kept =
    map row_content (newest N (rowsOf userId serverId kept))).
  { unfold DbFile.getRecentConsoleLogs. fold (rowsOf userId serverId kept).
    rewrite sort_chronological, slice_from_newest; [done..|].
    apply chronological_filter. rewrite Hkept. by apply chronological_drop. }
  split; [exact Hkept|]. split; [rewrite Hkept; apply filter_drop_suffix|].
  split; [intros logs; apply cap_newest|]. split; [exact Hrecent|].
  rewrite Hrecent, length_map. unfold newest. rewrite length_drop. lia.
Qed.

Lemma console_fifo_and_recent_witness :
  DbFile.getRecentConsoleLogs "u1" "s1" 2
    (saveAll [mkAppend 11 "u1" "s1" (LChildStdout "b"); mkAppend 12 "u2" "s1" LPreparing;
              mkAppend 12 "u1" "s1" (LChildStdout "c")]
       [mkConsoleRow "u1" "s1" 10 (LChildStdout "a")])
  = [LChildStdout "b"; LChildStdout "c"].
Proof.
  pose proof (console_fifo_and_recent
    [mkConsoleRow "u1" "s1" 10 (LChildStdout "a")]
    [mkAppend 11 "u1" "s1" (LChildStdout "b"); mkAppend 12 "u2" "s1" LPreparing;
     mkAppend 12 "u1" "s1" (LChildStdout "c")] "u1" "s1" 2) as H.
  simpl in H. destruct H as (_ & _ & _ & H & _).
  - unfold DbFile.MAX. lia.
  - reflexivity.
  - lia.
  - exact H.
Defined.

(** C7 as stated fails in two ways.  At the limit 0, [slice(-0)] is
    [slice(0)], the whole array, so [recent(owner, server, 0)] answers every
    retained line of the pair and not "the newest 0 (or fewer)".  And the
    maximum of 5000 is on the one array that the pairs share: after a pair
    wrote its line, 5000 appends of another pair evict it, and the first
    pair has lost its most recent entry although it wrote a single one. *)
Lemma console_recent_counterexample :
  (let kept := saveAll [mkAppend 1 "u1" "s1" (LChildStdout "a");
                        mkAppend 2 "u1" "s1" (LChildStdout "b")] [] in
   DbFile.getRecentConsoleLogs "u1" "s1" 0 kept = [LChildStdout "a"; LChildStdout "b"] ∧
   ¬ length (DbFile.getRecentConsoleLogs "u1" "s1" 0 kept) ≤ 0) ∧
  (let kept := saveAll (mkAppend 1 "u1" "s1" (LChildStdout "a") ::
                        replicate 5000 (mkAppend 2 "u2" "s2" LPreparing)) [] in
   DbFile.getRecentConsoleLogs "u1" "s1" 100 kept = []).
Proof.
  split; [split; [reflexivity | simpl; lia]|].
  vm_compute. reflexivity.
Qed.

(* ===================================================================== *)
(** ** Renaming in the file store *)
(* ===================================================================== *)

Section RenameFacts.

Lemma append_inj_l (p s1 s2 : string) : p +:+ s1 = p +:+ s2 → s1 = s2.
Proof.
induction p as [|a p IH]; [done|].
rewrite !append_cons. intros [= H]. by apply IH.
Qed.

(** Two prefixes of one string: one of them is a prefix of the other. *)
Lemma prefix_comparable (p q r : string) :
String.prefix p (q +:+ r) = true →
String.prefix p q = true ∨ String.prefix q p = true.
Proof.
revert q. induction p as [|a p IH]; intros q H.
- left. apply prefix_empty.
- destruct q as [|b q]; [right; done|].
  rewrite append_cons, prefix_cons in H. apply andb_prop in H as [Hab H].
  rewrite !prefix_cons, Hab, (Ascii.eqb_sym b a), Hab. simpl. by apply IH.
Qed.

Lemma prefix_trans (p q s : string) :
String.prefix p q = true → String.prefix q s = true → String.prefix p s = true.
Proof.
revert q s. induction p as [|a p IH]; intros q s Hpq Hqs; [apply prefix_empty|].
destruct q as [|b q]; [done|]. destruct s as [|c s]; [done|].
rewrite prefix_cons in *. apply andb_prop in Hpq as [Hab Hpq].
apply andb_prop in Hqs as [Hbc Hqs].
apply Ascii.eqb_eq in Hab as ->. rewrite Hbc. simpl. by eapply IH.
Qed.

Lemma someKeyStartsWith_false (files : FileStore) (prefix : string) :
someKeyStartsWith files prefix = false ↔
∀ k, k ∈ JsMap.keys files → JsString.startsWith k prefix = false.
Proof.
unfold someKeyStartsWith. induction (JsMap.keys files) as [|k0 ks IH]; simpl.
- split; [intros _ k Hk; by apply elem_of_nil in Hk | done].
- rewrite orb_false_iff, IH. split.
  + intros [H0 H] k [->|Hk]%elem_of_cons; auto.
  + intros H. split; [apply H; left | intros k Hk; apply H; by right].
Qed.

Lemma someKeyStartsWith_true (files : FileStore) (prefix : string) :
someKeyStartsWith files prefix = true →
∃ k, k ∈ JsMap.keys files ∧ JsString.startsWith k prefix = true.
Proof.
unfold someKeyStartsWith. induction (JsMap.keys files) as [|k0 ks IH]; simpl; [done|].
intros [H|H]%orb_prop.
- exists k0. split; [left | done].
- destruct (IH H) as (k & Hk & Hp). exists k. split; [by right | done].
Qed.

Lemma elem_of_filter_bool {A : Type} (f : A → bool) (l : list A) (x : A) :
x ∈ List.filter f l ↔ x ∈ l ∧ f x = true.
Proof. rewrite !list_elem_of_In. apply List.filter_In. Qed.

Lemma NoDup_filter_bool {A : Type} (f : A → bool) (l : list A) :
NoDup l → NoDup (List.filter f l).
Proof.
induction 1 as [|x l Hx Hl IH]; simpl; [constructor|].
destruct (f x) eqn:E; [|done].
constructor; [|done]. rewrite elem_of_filter_bool. tauto.
Qed.

Context (oldPrefix newPrefix : string).

(** The key that [oldKey] is moved to. *)
Let target (oldKey : string) : string :=
newPrefix +:+ JsString.substring_from (String.length oldPrefix) oldKey.

(** No key under the new prefix lies under the old one. *)
Hypothesis apart : ∀ rest, JsString.startsWith (newPrefix +:+ rest) oldPrefix = false.

Lemma target_not_under_old (j : string) : JsString.startsWith (target j) oldPrefix = false.
Proof. apply apart. Qed.

(** A key that the loop neither moves nor writes keeps its entry. *)
Lemma fold_moveKey_other (ks : list string) (m : FileStore) (k : string) :
k ∉ ks → (∀ j, j ∈ ks → k ≠ target j) →
JsMap.lookup k (fold_left (moveKey oldPrefix newPrefix) ks m) = JsMap.lookup k m.
Proof.
revert m. induction ks as [|k1 ks IH]; intros m Hk Ht; [done|].
apply not_elem_of_cons in Hk as [Hk1 Hk]. simpl.
rewrite IH; [|done|intros j Hj; apply Ht; by right].
unfold moveKey. rewrite jsmap_lookup_delete_ne by done.
apply jsmap_lookup_set_ne. apply not_eq_sym, Ht. by left.
Qed.

(** A key that the loop moves away is gone. *)
Lemma fold_moveKey_moved (ks : list string) (m : FileStore) (k : string) :
(∀ j, j ∈ ks → JsString.startsWith j oldPrefix = true) →
k ∈ ks →
JsMap.lookup k (fold_left (moveKey oldPrefix newPrefix) ks m) = None.
Proof.
revert m. induction ks as [|k1 ks IH]; intros m Hunder Hk; [by apply elem_of_nil in Hk|].
simpl. destruct (decide (k ∈ ks)) as [Hin|Hnotin].
- apply IH; [intros j Hj; apply Hunder; by right | done].
- apply elem_of_cons in Hk as [->|Hk]; [|done].
  rewrite fold_moveKey_other; [apply jsmap_lookup_delete_eq | done |].
  intros j Hj Heq.
  pose proof (target_not_under_old j) as Hnew.
  rewrite <- Heq, Hunder in Hnew; [done | by left].
Qed.

(** The entry of a moved key is found under its new key. *)
Lemma fold_moveKey_target (ks : list string) (m : FileStore) (j : string) :
NoDup ks →
(∀ j, j ∈ ks → JsString.startsWith j oldPrefix = true) →
j ∈ ks →
JsMap.lookup (target j) (fold_left (moveKey oldPrefix newPrefix) ks m) =
Some (files_get j m).
Proof.
revert m. induction ks as [|k1 ks IH]; intros m Hnd Hunder Hj;
  [by apply elem_of_nil in Hj|].
apply NoDup_cons in Hnd as [Hk1 Hnd]. simpl.
assert (Hne1 : ∀ i, JsString.startsWith i oldPrefix = true → i ≠ target k1).
{ intros i Hi Heq. pose proof (target_not_under_old k1) as Hnew. congruence. }
apply elem_of_cons in Hj as [->|Hj].
- rewrite fold_moveKey_other.
  + unfold moveKey. fold (target k1).
    rewrite jsmap_lookup_delete_ne by (apply Hne1, Hunder; by left).
    apply jsmap_lookup_set_eq.
  + intros Hin. apply (Hne1 (target k1)); [|done]. apply Hunder. by right.
  + intros i Hi Heq. unfold target in Heq. apply append_inj_l in Heq.
    assert (i = k1); [|congruence].
    rewrite (prefix_split oldPrefix i), (prefix_split oldPrefix k1).
    * by rewrite Heq.
    * apply Hunder. by left.
    * apply Hunder. by right.
- rewrite IH; [|done|intros i Hi; apply Hunder; by right|done].
  f_equal. unfold files_get, moveKey. fold (target k1).
  assert (j ≠ k1) by congruence.
  rewrite jsmap_lookup_delete_ne by done.
  rewrite jsmap_lookup_set_ne; [done|].
  apply not_eq_sym, Hne1, Hunder. by right.
Qed.

End RenameFacts.

Section RenameTheorem.

Context (files : FileStore) (P Q : string).

Let oldPrefix : string := P +:+ "/".
Let newPrefix : string := Q +:+ "/".
Let keysToRename : list string :=
  List.filter (λ fp, JsString.startsWith fp oldPrefix) (JsMap.keys files).

Lemma keysToRename_under (j : string) :
  j ∈ keysToRename → JsString.startsWith j oldPrefix = true.
Proof. unfold keysToRename. rewrite elem_of_filter_bool. tauto. Qed.

Lemma rename_destination_taken :
  JsMap.has Q files || someKeyStartsWith files (Q +:+ "/") = true →
  snd (renameInStore files P Q) = files ∧
  fst (renameInStore files P Q) =
    if JsMap.has P files || someKeyStartsWith files (P +:+ "/")
    then DestinationExists else SourceNotFound.
Proof.
  intros Htaken. unfold renameInStore.
  change (encodeFilePathKey "/") with "/". rewrite Htaken.
  destruct (JsMap.has P files); simpl; [done|].
  by destruct (someKeyStartsWith files (P +:+ "/")).
Qed.

Hypothesis files_wf : JsMap.wf files.
Hypothesis source_not_file : JsMap.has P files = false.
Hypothesis source_is_directory : someKeyStartsWith files oldPrefix = true.
Hypothesis destination_free :
  JsMap.has Q files || someKeyStartsWith files newPrefix = false.
Hypothesis not_into_itself : JsString.startsWith newPrefix oldPrefix = false.

Lemma rename_runs_the_loop :
  renameInStore files P Q =
  (Renamed, fold_left (moveKey oldPrefix newPrefix) keysToRename files).
Proof.
  unfold renameInStore. change (encodeFilePathKey "/") with "/".
  fold oldPrefix newPrefix. by rewrite source_not_file, source_is_directory, destination_free.
Qed.

Lemma nothing_under_new (k : string) :
  k ∈ JsMap.keys files → JsString.startsWith k newPrefix = false.
Proof.
  apply someKeyStartsWith_false.
  by destruct (orb_false_elim _ _ destination_free).
Qed.

Lemma prefixes_apart (rest : string) :
  JsString.startsWith (newPrefix +:+ rest) oldPrefix = false.
Proof.
  unfold JsString.startsWith in *.
  destruct (String.prefix oldPrefix (newPrefix +:+ rest)) eqn:H; [|done].
  apply prefix_comparable in H as [H|H]; [congruence|].
  destruct (someKeyStartsWith_true _ _ source_is_directory) as (k & Hk & Hunder).
  pose proof (nothing_under_new k Hk) as Hnone.
  unfold JsString.startsWith in *.
  by rewrite (prefix_trans _ _ _ H Hunder) in Hnone.
Qed.

Lemma rename_moves_every_key (rest : string) :
  JsMap.lookup (newPrefix +:+ rest) (snd (renameInStore files P Q)) =
  JsMap.lookup (oldPrefix +:+ rest) files.
Proof.
  rewrite rename_runs_the_loop. simpl.
  destruct (decide (oldPrefix +:+ rest ∈ JsMap.keys files)) as [Hin|Hnotin].
  - assert (Hmoved : oldPrefix +:+ rest ∈ keysToRename).
    { unfold keysToRename. rewrite elem_of_filter_bool. split; [done|].
      apply prefix_app. }
    pose proof (fold_moveKey_target oldPrefix newPrefix prefixes_apart
      keysToRename files (oldPrefix +:+ rest)
      (NoDup_filter_bool _ _ files_wf) keysToRename_under Hmoved) as H.
    cbv beta zeta in H. rewrite substring_from_app in H. rewrite H. unfold files_get.
    destruct (JsMap.lookup (oldPrefix +:+ rest) files) eqn:E; [done|].
    by apply lookup_None_keys in E.
  - rewrite (fold_moveKey_other oldPrefix newPrefix).
    + rewrite (proj2 (lookup_None_keys (oldPrefix +:+ rest) files) Hnotin).
      apply lookup_None_keys. intros Hin.
      pose proof (nothing_under_new _ Hin) as Hnone.
      unfold JsString.startsWith in Hnone. by rewrite prefix_app in Hnone.
    + intros Hin. apply keysToRename_under in Hin. by rewrite prefixes_apart in Hin.
    + intros j Hj Heq. apply append_inj_l in Heq. apply Hnotin.
      rewrite Heq. rewrite <- prefix_split by (by apply keysToRename_under).
      unfold keysToRename in Hj. apply elem_of_filter_bool in Hj. tauto.
Qed.

Lemma rename_leaves_nothing_behind (k : string) :
  k ∈ JsMap.keys (snd (renameInStore files P Q)) →
  JsString.startsWith k oldPrefix = false.
Proof.
  rewrite rename_runs_the_loop. simpl. intros Hk.
  destruct (JsString.startsWith k oldPrefix) eqn:Hunder; [|done].
  exfalso. revert Hk. apply lookup_None_keys.
  destruct (decide (k ∈ JsMap.keys files)) as [Hin|Hnotin].
  - apply (fold_moveKey_moved oldPrefix newPrefix prefixes_apart);
      [exact keysToRename_under|].
    unfold keysToRename. by apply elem_of_filter_bool.
  - rewrite (fold_moveKey_other oldPrefix newPrefix).
    + by apply lookup_None_keys.
    + unfold keysToRename. rewrite elem_of_filter_bool. tauto.
    + intros j _ ->. by rewrite prefixes_apart in Hunder.
Qed.

Lemma rename_keeps_the_rest (k : string) :
  JsString.startsWith k oldPrefix = false →
  JsString.startsWith k newPrefix = false →
  JsMap.lookup k (snd (renameInStore files P Q)) = JsMap.lookup k files.
Proof.
  intros Hold Hnew. rewrite rename_runs_the_loop. simpl.
  apply (fold_moveKey_other oldPrefix newPrefix).
  - intros Hin. apply keysToRename_under in Hin. congruence.
  - intros j _ ->. unfold JsString.startsWith in Hnew. by rewrite prefix_app in Hnew.
Qed.

End RenameTheorem.

Lemma prefix_longer (p s : string) (a : ascii) :
  String.prefix (p +:+ String a s) p = false.
Proof.
  induction p as [|b p IH]; [done|].
  by rewrite append_cons, prefix_cons, Ascii.eqb_refl.
Qed.

(** The rename of a path that is itself a key moves that one key. *)
Lemma rename_moves_the_file (files : FileStore) (P Q : string) :
  JsMap.has P files = true →
  JsMap.has Q files || someKeyStartsWith files (Q +:+ "/") = false →
  renameInStore files P Q =
    (Renamed, JsMap.delete P (JsMap.set Q (files_get P files) files)).
Proof.
  intros Hfile Hfree. unfold renameInStore. change (encodeFilePathKey "/") with "/".
  by rewrite Hfile, Hfree.
Qed.




Example rename_directory_example :
  renameInStore
    [("src/a__DOT__js", Base64 "QQ=="); ("README", Base64 "");
     ("src/lib/b__DOT__js", Base64 "Qg==")] "src" "app" =
  (Renamed,
   [("README", Base64 ""); ("app/a__DOT__js", Base64 "QQ==");
    ("app/lib/b__DOT__js", Base64 "Qg==")]).
Proof. reflexivity. Qed.

(* ===================================================================== *)
(** ** Rules for handler code *)
(* ===================================================================== *)

Section RunRules.

Context {A B : Type}.
Implicit Types (Q : A → World → Prop) (E : JsError → World → Prop) (w : World).

Lemma wp_ret (a : A) Q E w : Q a w → wp (mret a) Q E w.
Proof. done. Qed.

Lemma wp_throw (e : JsError) Q E w : E e w → wp (throw e) Q E w.
Proof. done. Qed.

Lemma wp_bind (m : Run B) (f : B → Run A) Q E w :
  wp m (λ b w', wp (f b) Q E w') E w → wp (m ≫= f) Q E w.
Proof.
  unfold wp, mbind, Run_bind. by destruct (m w) as [w' [b|e]].
Qed.

Lemma wp_tryCatch (body : Run A) (handler : JsError → Run A) Q E w :
  wp body Q (λ e w', wp (handler e) Q E w') w → wp (tryCatch body handler) Q E w.
Proof.
  unfold wp, tryCatch. by destruct (body w) as [w' [a|e]].
Qed.

Lemma wp_mono (m : Run A) Q Q' E E' w :
  (∀ a w', Q a w' → Q' a w') → (∀ e w', E e w' → E' e w') →
  wp m Q E w → wp m Q' E' w.
Proof.
  unfold wp. intros HQ HE. destruct (m w) as [w' [a|e]]; auto.
Qed.

End RunRules.

Section RunRulesUnit.

Implicit Types (Q : unit → World → Prop) (E : JsError → World → Prop) (w : World).

Lemma wp_modify (f : World → World) Q E w : Q () (f w) → wp (modify f) Q E w.
Proof. done. Qed.

Lemma wp_getWorld (Q : World → World → Prop) E w : Q w w → wp getWorld Q E w.
Proof. done. Qed.

Lemma wp_fsCall_done Q E w : Q () w → wp (fsCall FsDone) Q E w.
Proof. done. Qed.

Lemma wp_fsCall (o : FsOutcome) Q E w :
  (o = FsDone → Q () w) → (∀ code, o = FsFails code → E (FsError code) w) →
  wp (fsCall o) Q E w.
Proof. intros H1 H2. destruct o; [by apply H1 | by apply H2]. Qed.

Lemma wp_execCall (o : ExecOutcome) (Q : string * string → World → Prop) E w :
  (∀ out err, o = ExecDone out err → Q (out, err) w) →
  (∀ message, o = ExecFails message → E (ExecError message) w) →
  wp (execCall o) Q E w.
Proof. intros H1 H2. destruct o; [by apply H1 | by apply H2]. Qed.

Lemma wp_ignoreFailure (body : Run unit) Q E w :
  wp body Q (λ _ w', Q () w') w → wp (ignoreFailure body) Q E w.
Proof. intros H. apply wp_tryCatch. revert H. by apply wp_mono. Qed.

Lemma wp_consolePush (key : string) (line : Line) (logs : list Line) Q E w :
  consoleLogs w !! key = Some logs →
  Q () (withConsoleLogs (insert key (logs ++ [line])) w) →
  wp (consolePush key line) Q E w.
Proof. intros Hlogs HQ. unfold wp, consolePush. by rewrite Hlogs. Qed.

End RunRulesUnit.

Section SteadyRules.

Context (I : World → Prop).

Lemma steady_tolerant {A : Type} (m : Run A) : steady I m → tolerant I m.
Proof. intros H w Hw. eapply wp_mono; [| |exact (H w Hw)]; done. Qed.

Lemma steady_ret {A : Type} (a : A) : steady I (mret a).
Proof. by intros w Hw. Qed.

Lemma steady_bind {A B : Type} (m : Run B) (f : B → Run A) :
  steady I m → (∀ b, steady I (f b)) → steady I (m ≫= f).
Proof.
  intros Hm Hf w Hw. apply wp_bind.
  eapply wp_mono; [| |exact (Hm w Hw)]; [|done].
  intros b w' Hw'. by apply Hf.
Qed.

Lemma tolerant_bind {A B : Type} (m : Run B) (f : B → Run A) :
  tolerant I m → (∀ b, tolerant I (f b)) → tolerant I (m ≫= f).
Proof.
  intros Hm Hf w Hw. apply wp_bind.
  eapply wp_mono; [| |exact (Hm w Hw)]; [|done].
  intros b w' Hw'. by apply Hf.
Qed.

Lemma tolerant_throw {A : Type} (e : JsError) : tolerant I (throw (A:=A) e).
Proof. by intros w Hw. Qed.

Lemma steady_tryCatch {A : Type} (body : Run A) (handler : JsError → Run A) :
  tolerant I body → (∀ e, steady I (handler e)) → steady I (tryCatch body handler).
Proof.
  intros Hb Hh w Hw. apply wp_tryCatch.
  eapply wp_mono; [| |exact (Hb w Hw)]; [done|].
  intros e w' Hw'. by apply Hh.
Qed.

Lemma steady_modify (f : World → World) : (∀ w, I w → I (f w)) → steady I (modify f).
Proof. intros Hf w Hw. by apply Hf. Qed.

Lemma steady_fsCall_done : steady I (fsCall FsDone).
Proof. by intros w Hw. Qed.

Lemma tolerant_execCall (o : ExecOutcome) : tolerant I (execCall o).
Proof. intros w Hw. by destruct o. Qed.

Lemma steady_ignoreFailure (body : Run unit) : tolerant I body → steady I (ignoreFailure body).
Proof. intros H. apply steady_tryCatch; [done|]. intros _. apply steady_ret. Qed.

End SteadyRules.

Section KeepsRules.

Context (R : World → World → Prop) `{!Reflexive R} `{!Transitive R}.

Lemma keeps_ret {A : Type} (a : A) : keeps R (mret a).
Proof. intros w. simpl. reflexivity. Qed.

Lemma keeps_throw {A : Type} (e : JsError) : keeps R (throw (A:=A) e).
Proof. intros w. simpl. reflexivity. Qed.

Lemma keeps_bind {A B : Type} (m : Run B) (f : B → Run A) :
  keeps R m → (∀ b, keeps R (f b)) → keeps R (m ≫= f).
Proof.
  intros Hm Hf w. specialize (Hm w). unfold mbind, Run_bind.
  destruct (m w) as [w' [b|e]]; simpl in *; [|done].
  etrans; [exact Hm | apply Hf].
Qed.

Lemma keeps_tryCatch {A : Type} (body : Run A) (handler : JsError → Run A) :
  keeps R body → (∀ e, keeps R (handler e)) → keeps R (tryCatch body handler).
Proof.
  intros Hb Hh w. specialize (Hb w). unfold tryCatch.
  destruct (body w) as [w' [a|e]]; simpl in *; [done|].
  etrans; [exact Hb | apply Hh].
Qed.

Lemma keeps_ignoreFailure (body : Run unit) : keeps R body → keeps R (ignoreFailure body).
Proof. intros H. apply keeps_tryCatch; [done|]. intros _. apply keeps_ret. Qed.

Lemma keeps_detach (body : Run unit) : keeps R body → keeps R (detach body).
Proof. intros H w. apply H. Qed.

Lemma keeps_getWorld : keeps R getWorld.
Proof. intros w. simpl. reflexivity. Qed.

Lemma keeps_modify (f : World → World) : (∀ w, R w (f w)) → keeps R (modify f).
Proof. intros H w. apply H. Qed.

Lemma keeps_fsCall (o : FsOutcome) : keeps R (fsCall o).
Proof. intros w. destruct o; simpl; reflexivity. Qed.

Lemma keeps_execCall (o : ExecOutcome) : keeps R (execCall o).
Proof. intros w. destruct o; simpl; reflexivity. Qed.

End KeepsRules.

Global Instance sameProcesses_refl : Reflexive sameProcesses.
Proof. by intros w. Qed.

Global Instance sameProcesses_trans : Transitive sameProcesses.
Proof.
  intros w1 w2 w3 (Hc1 & Hr1 & Hp1 & Hs1 & Hu1) (Hc2 & Hr2 & Hp2 & Hs2 & Hu2).
  repeat split; try congruence; intros u s; by rewrite Hr2.
Qed.

(* ===================================================================== *)
(** ** Statements that touch no process *)
(* ===================================================================== *)

Lemma sameProcesses_step (w0 w w' : World) :
  sameProcesses w0 w →
  children w' = children w →
  runningProcesses w' = runningProcesses w →
  appProcessState (db w') = appProcessState (db w) →
  appServers (db w') = appServers (db w) →
  appUsers (db w') = appUsers (db w) →
  sameProcesses w0 w'.
Proof.
  intros (Hc & Hr & Hp & Hs & Hu) Hc' Hr' Hp' Hs' Hu'.
  repeat split; try congruence.
  intros u s. rewrite <- Hr. unfold registryGet. by rewrite Hr'.
Qed.

Ltac world_simpl :=
  cbn [consoleLogs runningProcesses serverStartTime db clock children viewers
       withConsoleLogs withRunningProcesses withServerStartTime withDb withChildren
       withViewers appUsers appServers appEventLogs appConsoleLogs appProcessState
       withAppConsoleLogs withAppProcessState withAppServers withAppEventLogs] in *.

Ltac same_processes :=
  match goal with
  | |- sameProcesses ?w0 _ =>
      first [ eapply sameProcesses_step; [eassumption | reflexivity ..]
            | eapply (sameProcesses_step w0 w0); [reflexivity | reflexivity ..] ]
  end.

Lemma keeps_consolePush (key : string) (line : Line) :
  keeps sameProcesses (consolePush key line).
Proof.
  intros w. unfold consolePush.
  destruct (consoleLogs w !! key); simpl; [same_processes | reflexivity].
Qed.

Lemma keeps_consoleTrim (key : string) : keeps sameProcesses (consoleTrim key).
Proof. intros w. simpl. same_processes. Qed.

Lemma keeps_consoleReset (key : string) : keeps sameProcesses (consoleReset key).
Proof. intros w. simpl. same_processes. Qed.

Lemma keeps_saveConsoleLog (u s : string) (line : Line) :
  keeps sameProcesses (saveConsoleLog u s line).
Proof. intros w. simpl. same_processes. Qed.

Lemma keeps_clearConsoleLogs (u s : string) : keeps sameProcesses (clearConsoleLogs u s).
Proof. intros w. simpl. same_processes. Qed.

Lemma keeps_broadcast (u s : string) (p : Push) : keeps sameProcesses (broadcast u s p).
Proof. intros w. simpl. same_processes. Qed.

Lemma keeps_logServerEvent (event u s : string) :
  keeps sameProcesses (logServerEvent event u s).
Proof. intros w. simpl. same_processes. Qed.

Lemma registryGet_initialized (userId : string) (w : World) (u s : string) :
  registryGet u s
    (match runningProcesses w !! userId with
     | None => withRunningProcesses (insert userId ∅) w
     | Some _ => w
     end) = registryGet u s w.
Proof.
  destruct (runningProcesses w !! userId) eqn:E; [done|].
  unfold registryGet. simpl. destruct (decide (userId = u)) as [->|Hne].
  - by rewrite lookup_insert_eq, E.
  - by rewrite lookup_insert_ne.
Qed.

(** What [initializeServerLogs] leaves behind. *)
Lemma initializeServerLogs_spec (userId serverId : string) (w : World) :
  ∃ w', initializeServerLogs userId serverId w = (w', Normal ()) ∧
        consoleLogs w' !! logKeyOf userId serverId =
          Some (default [] (consoleLogs w !! logKeyOf userId serverId)) ∧
        (∀ key, key ≠ logKeyOf userId serverId →
                consoleLogs w' !! key = consoleLogs w !! key) ∧
        sameProcesses w w' ∧
        appConsoleLogs (db w') = appConsoleLogs (db w) ∧
        viewers w' = viewers w.
Proof.
  eexists. split; [reflexivity|]. simpl.
  set (key := logKeyOf userId serverId).
  set (w1 := match consoleLogs w !! key with
             | None => withConsoleLogs (insert key []) w
             | Some _ => w
             end).
  set (w2 := match runningProcesses w1 !! userId with
             | None => withRunningProcesses (insert userId ∅) w1
             | Some _ => w1
             end).
  assert (H1 : consoleLogs w1 !! key = Some (default [] (consoleLogs w !! key)) ∧
               (∀ k, k ≠ key → consoleLogs w1 !! k = consoleLogs w !! k) ∧
               sameProcesses w w1 ∧ db w1 = db w ∧ viewers w1 = viewers w).
  { subst w1. destruct (consoleLogs w !! key) eqn:E; simpl.
    - by repeat split.
    - rewrite lookup_insert_eq. repeat split; try done.
      intros k Hk. by rewrite lookup_insert_ne. }
  destruct H1 as (Hkey & Hother & Hsame & Hdb & Hviewers).
  assert (H2 : consoleLogs w2 = consoleLogs w1 ∧ sameProcesses w1 w2 ∧
               db w2 = db w1 ∧ viewers w2 = viewers w1).
  { repeat split; try (subst w2; by destruct (runningProcesses w1 !! userId)).
    intros u s. apply registryGet_initialized. }
  destruct H2 as (Hlogs & Hsame2 & Hdb2 & Hviewers2).
  assert (Hsame02 : sameProcesses w w2) by (etrans; eassumption).
  destruct (serverStartTime w2 !! key) as [t|]; [destruct (t =? 0)%Z|];
    simpl; rewrite ?Hlogs, ?Hdb2, ?Hdb, ?Hviewers2;
    (split; [done|]; split; [done|]; split; [same_processes|]; split; done).
Qed.

Lemma keeps_initializeServerLogs (u s : string) :
  keeps sameProcesses (initializeServerLogs u s).
Proof.
  intros w. destruct (initializeServerLogs_spec u s w) as (w' & -> & _ & _ & H & _).
  exact H.
Qed.

Ltac keeps_step :=
  lazymatch goal with
  | |- keeps _ (mret _) => apply (keeps_ret sameProcesses)
  | |- keeps _ (throw _) => apply (keeps_throw sameProcesses)
  | |- keeps _ getWorld => apply (keeps_getWorld sameProcesses)
  | |- keeps _ (fsCall _) => apply (keeps_fsCall sameProcesses)
  | |- keeps _ (execCall _) => apply (keeps_execCall sameProcesses)
  | |- keeps _ (consolePush _ _) => apply keeps_consolePush
  | |- keeps _ (consoleTrim _) => apply keeps_consoleTrim
  | |- keeps _ (consoleReset _) => apply keeps_consoleReset
  | |- keeps _ (saveConsoleLog _ _ _) => apply keeps_saveConsoleLog
  | |- keeps _ (clearConsoleLogs _ _) => apply keeps_clearConsoleLogs
  | |- keeps _ (broadcast _ _ _) => apply keeps_broadcast
  | |- keeps _ (logServerEvent _ _ _) => apply keeps_logServerEvent
  | |- keeps _ (initializeServerLogs _ _) => apply keeps_initializeServerLogs
  | |- keeps _ (ignoreFailure _) => apply (keeps_ignoreFailure sameProcesses)
  | |- keeps _ (detach _) => apply (keeps_detach sameProcesses)
  | |- keeps _ (_ ≫= _) => apply (keeps_bind sameProcesses); [|intros ?]
  | |- keeps _ (tryCatch _ _) => apply (keeps_tryCatch sameProcesses); [|intros ?]
  | |- keeps _ (if ?b then _ else _) => destruct b
  | |- keeps _ (match ?x with _ => _ end) => destruct x
  end.

Ltac keeps_auto := repeat keeps_step.

Lemma keeps_pushSaveSend (u s : string) (line : Line) :
  keeps sameProcesses (pushSaveSend u s line).
Proof. unfold pushSaveSend. keeps_auto. Qed.

Lemma keeps_reportExec (u s : string) (out : string * string) :
  keeps sameProcesses (reportExec u s out).
Proof. unfold reportExec. keeps_auto; apply keeps_pushSaveSend. Qed.

Lemma keeps_writeFiles (env : StartEnv) (entries : FileStore) :
  keeps sameProcesses (writeFiles env entries).
Proof.
  induction entries as [|[k v] entries IH]; simpl; [keeps_step|].
  apply (keeps_bind sameProcesses); [keeps_step | intros _; exact IH].
Qed.

(* ===================================================================== *)
(** ** A start that finds no entry script *)
(* ===================================================================== *)

Lemma forallb_cap {A : Type} (f : A → bool) (max : nat) (l : list A) :
  forallb f l = true → forallb f (JsArray.cap max l) = true.
Proof.
  intros H. unfold JsArray.cap. destruct (max <? length l)%nat; [|done].
  by apply forallb_drop.
Qed.

Lemma wp_initializeServerLogs (userId serverId : string)
    (Q : unit → World → Prop) (E : JsError → World → Prop) (w : World) :
  (∀ w',
     consoleLogs w' !! logKeyOf userId serverId =
       Some (default [] (consoleLogs w !! logKeyOf userId serverId)) →
     sameProcesses w w' →
     appConsoleLogs (db w') = appConsoleLogs (db w) →
     Q () w') →
  wp (initializeServerLogs userId serverId) Q E w.
Proof.
  intros H. destruct (initializeServerLogs_spec userId serverId w)
    as (w' & Heq & Hkey & _ & Hsame & Hrows & _).
  unfold wp. rewrite Heq. by apply H.
Qed.

Section QuietStart.

Context (userId serverId : string) (w0 : World).

Let key : string := logKeyOf userId serverId.
Let I : World → Prop := quiet userId serverId w0.

Lemma quiet_consolePush (line : Line) :
  isEntryScriptMissing line = false → steady I (consolePush key line).
Proof.
  intros Hline w ((lines & Hlines & Hquiet) & Hrows & Hsame).
  eapply wp_consolePush; [exact Hlines|].
  split; [|split; [done | same_processes]].
  exists (lines ++ [line]). simpl. rewrite lookup_insert_eq. split; [done|].
  unfold noMissingLine in *. rewrite forallb_app, Hquiet. simpl. by rewrite Hline.
Qed.

Lemma quiet_consoleTrim : steady I (consoleTrim key).
Proof.
  intros w ((lines & Hlines & Hquiet) & Hrows & Hsame). apply wp_modify.
  split; [|split; [done | same_processes]].
  exists (trimLogs lines). cbn [consoleLogs withConsoleLogs].
  rewrite lookup_alter_eq. unfold key. rewrite Hlines. split; [done|].
  by apply forallb_cap.
Qed.

Lemma quiet_saveConsoleLog (line : Line) :
  isEntryScriptMissing line = false → steady I (saveConsoleLog userId serverId line).
Proof.
  intros Hline w (Hconsole & Hrows & Hsame). apply wp_modify.
  split; [exact Hconsole|]. split; [|same_processes].
  simpl. unfold DbFile.saveConsoleLog, noMissingRow in *. apply forallb_cap.
  rewrite forallb_app, Hrows. simpl. unfold isMissingRowOf. simpl.
  by rewrite Hline, andb_false_r.
Qed.

Lemma quiet_broadcast (p : Push) : steady I (broadcast userId serverId p).
Proof.
  intros w (Hconsole & Hrows & Hsame). apply wp_modify.
  split; [exact Hconsole|]. split; [exact Hrows | same_processes].
Qed.

Lemma quiet_pushSaveSend (line : Line) :
  isEntryScriptMissing line = false → steady I (pushSaveSend userId serverId line).
Proof.
  intros Hline. unfold pushSaveSend.
  apply steady_bind; [by apply quiet_consolePush | intros _].
  apply steady_bind; [by apply quiet_saveConsoleLog | intros _].
  apply quiet_broadcast.
Qed.

Lemma quiet_reportExec (out : string * string) : steady I (reportExec userId serverId out).
Proof.
  unfold reportExec. apply steady_bind; [|intros _].
  - destruct (String.eqb (fst out) ""); [apply steady_ret | by apply quiet_pushSaveSend].
  - destruct (String.eqb (snd out) ""); [apply steady_ret | by apply quiet_pushSaveSend].
Qed.

Lemma quiet_writeFiles (env : StartEnv) (entries : FileStore) :
  (∀ path, writeFile env path = FsDone) → steady I (writeFiles env entries).
Proof.
  intros Hwrite. induction entries as [|[k v] entries IH]; simpl; [apply steady_ret|].
  apply steady_bind; [|intros _; exact IH].
  rewrite Hwrite. apply steady_fsCall_done.
Qed.

(** The installation of the extra packages is tolerated whether it
    succeeds or fails. *)
Lemma quiet_installUserPackagesFirst (env : StartEnv) (packagesToInstall : list string) :
  steady I (installUserPackagesFirst serverId userId packagesToInstall env).
Proof.
  unfold installUserPackagesFirst. cbv zeta.
  apply steady_bind; [by apply quiet_consolePush | intros _].
  apply steady_bind; [apply quiet_broadcast | intros _].
  apply steady_tryCatch.
  - apply tolerant_bind; [apply tolerant_execCall | intros out].
    apply steady_tolerant.
    apply steady_bind; [apply quiet_reportExec | intros _].
    by apply quiet_pushSaveSend.
  - intros error.
    apply steady_bind; [by apply quiet_consolePush | intros _].
    apply quiet_broadcast.
Qed.

(** The report of the missing entry script is the one such line. *)
Lemma quiet_report_missing (mainFile : string) (w : World) :
  I w →
  wp (pushSaveSend userId serverId (LEntryScriptMissing mainFile))
    (λ _ w',
       (∃ lines, consoleLogs w' !! key = Some (lines ++ [LEntryScriptMissing mainFile]) ∧
                 noMissingLine lines = true) ∧
       length (List.filter (isMissingRowOf userId serverId) (appConsoleLogs (db w'))) = 1 ∧
       sameProcesses w0 w')
    (λ _ _, False) w.
Proof.
  intros ((lines & Hlines & Hquiet) & Hrows & Hsame). unfold pushSaveSend.
  apply wp_bind. eapply wp_consolePush; [exact Hlines|].
  apply wp_bind, wp_modify, wp_modify.
  split; [|split; [|same_processes]].
  - exists lines. simpl. by rewrite lookup_insert_eq.
  - simpl. unfold DbFile.saveConsoleLog, JsArray.cap.
    set (rows := appConsoleLogs (db w)) in *.
    set (row := mkConsoleRow userId serverId (clock w) (LEntryScriptMissing mainFile)).
    assert (Hnone : ∀ l, noMissingRow userId serverId l = true →
                         List.filter (isMissingRowOf userId serverId) l = []).
    { induction l as [|r l IH]; [done|]. simpl. intros [Hr Hl]%andb_prop.
      apply negb_true_iff in Hr. rewrite Hr. by apply IH. }
    assert (Hrow : isMissingRowOf userId serverId row = true).
    { unfold isMissingRowOf, sameKey. simpl. by rewrite !String.eqb_refl. }
    assert (Hcount : ∀ n, n ≤ length rows →
              length (List.filter (isMissingRowOf userId serverId)
                        (drop n (rows ++ [row]))) = 1).
    { intros n Hn. rewrite drop_app_le by done.
      rewrite List.filter_app, Hnone by (by apply forallb_drop).
      simpl. by rewrite Hrow. }
    destruct (DbFile.MAX <? length (rows ++ [row]))%nat.
    + apply Hcount. rewrite length_app. simpl. unfold DbFile.MAX. lia.
    + rewrite <- (drop_0 (rows ++ [row])). apply Hcount. lia.
Qed.

End QuietStart.

Lemma noMissingRow_clear (userId serverId : string) (rows : list ConsoleRow) :
  noMissingRow userId serverId (DbFile.clearConsoleLogs userId serverId rows) = true.
Proof.
  unfold DbFile.clearConsoleLogs, noMissingRow.
  induction rows as [|r rows IH]; [done|].
  cbn [List.filter].
  destruct (sameKey userId serverId (row_userId r) (row_serverId r)) eqn:E;
    cbn [negb forallb]; [exact IH|].
  unfold isMissingRowOf at 1. rewrite E. exact IH.
Qed.

(** The removal of a stale working directory never stops a start: it
    completes whether the removal succeeds or fails. *)
Lemma removeStaleDir_completes (userId serverId : string) (env : StartEnv) (w : World) :
  wp (removeStaleDir serverId userId env)
    (λ _ w', sameProcesses w w') (λ _ _, False) w.
Proof.
  unfold removeStaleDir. cbv zeta.
  destruct (dirExists env); [|apply wp_ret; reflexivity].
  apply wp_tryCatch, wp_fsCall; [reflexivity|]. intros code _. cbv zeta.
  apply wp_bind, wp_initializeServerLogs. intros w1 Hkey Hsame _.
  apply wp_bind. eapply wp_consolePush; [exact Hkey|].
  apply wp_bind, wp_modify, wp_modify. same_processes.
Qed.

(** A start whose working directory can be written reaches the check of
    the entry script, with a console that was cleared and holds lines of
    this start only, and without having touched a process. *)
Lemma start_reaches_entry_check
    (serverId targetUserId : string) (server : Server) (env : StartEnv) (w : World)
    (Q : unit → World → Prop) (E : JsError → World → Prop) :
  ensureServerDir env = FsDone →
  (∀ path, writeFile env path = FsDone) →
  (∀ w', quiet targetUserId serverId w w' →
     wp (if negb (mainFileExists env) then
           pushSaveSend targetUserId serverId
             (LEntryScriptMissing
                (orDefault (JsMap.lookup "mainFile" (s_startupSettings server)) "index.js"))
         else
           installDependencies serverId targetUserId env ;;
           launch serverId targetUserId
             (orDefault (JsMap.lookup "mainFile" (s_startupSettings server)) "index.js")
             (orDefault (JsMap.lookup "port" (s_startupSettings server)) "3000"))
       Q (λ e w'', wp (reportStartFailure serverId targetUserId env e) Q E w'') w') →
  wp (startServerInBackground serverId targetUserId server env) Q E w.
Proof.
  intros Hdir Hwrite Hrest.
  unfold startServerInBackground. rewrite Hdir. cbv zeta.
  apply wp_tryCatch.
  apply wp_bind.
  eapply wp_mono; [| |apply (removeStaleDir_completes targetUserId serverId env w)];
    [|done].
  intros [] w1 Hsame1. cbv beta.
  apply wp_bind, wp_fsCall_done.
  apply wp_bind, wp_initializeServerLogs. intros w2 Hkey Hsame2 _.
  apply wp_bind, wp_modify, wp_bind, wp_modify, wp_bind, wp_modify.
  match goal with |- wp _ _ _ ?w3 => set (w3' := w3) end.
  assert (Hquiet : quiet targetUserId serverId w w3').
  { subst w3'. split; [|split].
    - exists []. world_simpl. by rewrite lookup_insert_eq.
    - world_simpl. apply noMissingRow_clear.
    - assert (sameProcesses w w2) by (etrans; eassumption). same_processes. }
  clearbody w3'.
  apply wp_bind.
  eapply wp_mono;
    [| |apply (quiet_pushSaveSend targetUserId serverId w LPreparing eq_refl w3' Hquiet)];
    [|done].
  intros [] w4 Hquiet4. cbv beta.
  apply wp_bind.
  eapply wp_mono;
    [| |apply (quiet_writeFiles targetUserId serverId w env (s_files server) Hwrite
                 w4 Hquiet4)]; [|done].
  intros [] w5 Hquiet5. cbv beta.
  apply wp_bind.
  assert (Hinstall : wp
    (match words (orDefault (JsMap.lookup "packages" (s_startupSettings server)) "") with
     | [] => mret ()
     | p :: ps => installUserPackagesFirst serverId targetUserId (p :: ps) env
     end)
    (λ _ w', quiet targetUserId serverId w w') (λ _ _, False) w5).
  { destruct (words _) as [|p ps]; [by apply wp_ret|].
    by apply (quiet_installUserPackagesFirst targetUserId serverId w env (p :: ps)). }
  eapply wp_mono; [| |exact Hinstall]; [|done].
  intros [] w6 Hquiet6. cbv beta. by apply Hrest.
Qed.



(** The scenario of the design document: a server with default settings
    and an empty file store is started; the console holds the "preparing"
    line and the one "entry script missing" line, and nothing is
    registered. *)
Example start_of_empty_server :
  let w' := fst (postStartServer ownerRequest (quietDisk false) (bootedWorld false [])) in
  consoleLogs w' !! "u1-s1" = Some [LPreparing; LEntryScriptMissing "index.js"] ∧
  registryGet "u1" "s1" w' = None ∧
  children w' = [].
Proof. vm_compute. done. Qed.

(* ===================================================================== *)
(** ** The access check *)
(* ===================================================================== *)

Lemma ensureServerAccess_granted (req : Request) (d : Db) (acc : Access) :
  ensureServerAccess req d = inr acc →
  truthy (body_serverId req) = Some (a_serverId acc) ∧
  DbFile.findServer (a_serverId acc) (appServers d) = Some (a_server acc) ∧
  (s_isSuspended (a_server acc) = true → a_isAdmin acc = true).
Proof.
  unfold ensureServerAccess.
  destruct (truthy (session_userId req)) as [originalUserId|]; [|done].
  destruct (truthy (body_serverId req)) as [serverId|]; [|done].
  destruct (DbFile.findUser _ (appUsers d)) as [user|]; [|done].
  destruct (DbFile.findUser _ (appUsers d)) as [targetUser|]; [|done].
  destruct (DbFile.findServer serverId (appServers d)) as [server|] eqn:Hserver; [|done].
  destruct (negb (String.eqb (s_ownerId server) _)); [done|].
  destruct (s_isSuspended server) eqn:Hsusp, (u_isAdmin user) eqn:Hadmin; simpl; try done.
  all: match goal with
       | |- (if ?c then _ else _) = _ → _ => destruct c; [|done]
       | _ => idtac
       end.
  all: intros [= <-]; simpl; repeat split; try done; congruence.
Qed.

(* ===================================================================== *)
(** ** Input from a viewer *)
(* ===================================================================== *)

Lemma runListeners_nothing (ev : WsEvent) (data : string)
    (listeners : list (WsEvent * WsListener)) (w : World) :
  runListeners ev data listeners w = (w, Normal ()).
Proof.
  induction listeners as [|[ev' []] listeners IH]; [done|].
  simpl. unfold mbind, Run_bind. by destruct (bool_decide (ev' = ev)).
Qed.

(** C3, what the code does.  The connection handler registers a listener
    for ['close'] only, so a line that a viewer submits runs no code at
    all: the world is as it was, whether or not a child process is
    registered for the viewer's key, and in particular nothing is written
    to the standard input of any child. *)
Theorem viewer_input_is_never_forwarded (id : nat) (line : string) (w : World) :
  viewerSubmits id line w = (w, Normal ()) ∧
  (let attached := fst (wsConnection 7 (Some "u1") (Some "s1") runningWorld) in
   registryGet "u1" "s1" attached = Some 0 ∧
   (child_stdin <$> findChild 0 (fst (viewerSubmits 7 "help" attached))) = Some []).
Proof.
  split.
  - unfold viewerSubmits, wsEmit, mbind, Run_bind, getWorld.
    destruct (List.find _ (viewers w)); [apply runListeners_nothing | done].
  - vm_compute. done.
Qed.

(* ===================================================================== *)
(** ** Server records and registry entries *)
(* ===================================================================== *)

Lemma truthy_nonempty (x : option string) (s : string) : truthy x = Some s → s ≠ "".
Proof.
  destruct x as [s'|]; [|done]. simpl.
  destruct (String.eqb s' "") eqn:E; [done|]. intros [= <-]. by apply String.eqb_neq.
Qed.

Lemma findServer_deleteServer (id : string) (servers : list Server) :
  id ≠ "" → DbFile.findServer id (DbFile.deleteServer id servers) = None.
Proof.
  intros Hid. unfold DbFile.findServer, DbFile.deleteServer.
  apply String.eqb_neq in Hid. rewrite Hid.
  induction servers as [|s servers IH]; [done|]. simpl.
  destruct (String.eqb (s_id s) id) eqn:E; simpl; [exact IH|]. by rewrite E.
Qed.

Lemma registryGet_Some (userId serverId : string) (w : World) (handle : Pid) :
  registryGet userId serverId w = Some handle →
  ∃ perUser, runningProcesses w !! userId = Some perUser ∧ perUser !! serverId = Some handle.
Proof.
  unfold registryGet. destruct (runningProcesses w !! userId) as [perUser|]; [|done].
  intros H. by exists perUser.
Qed.

(* ===================================================================== *)
(** ** Removal of the working directory *)
(* ===================================================================== *)

Lemma wp_registryDelete (userId serverId : string) (perUser : gmap string Pid)
    (Q : unit → World → Prop) (E : JsError → World → Prop) (w : World) :
  runningProcesses w !! userId = Some perUser →
  Q () (withRunningProcesses (insert userId (delete serverId perUser)) w) →
  wp (registryDelete userId serverId) Q E w.
Proof. intros Huser HQ. unfold wp, registryDelete. by rewrite Huser. Qed.

Lemma wp_result {A : Type} (m : Run A) (Q : A → World → Prop)
    (E : JsError → World → Prop) (w : World) :
  wp m Q E w →
  ∃ w' c, m w = (w', c) ∧
          match c with Normal a => Q a w' | Throw e => E e w' end.
Proof. unfold wp. destruct (m w) as [w' c]. intros H. by exists w', c. Qed.

(** C6, what the code does.  Where the removal of the working directory
    is guarded ([fs.remove(...).catch(...)], as in the ['close'] listener)
    a failure is swallowed and the listener completes.  In [/stop-server]
    and in the ['error'] listener the removal is the unguarded
    [fs.removeSync]: when it fails, the error leaves the handler, and what
    follows the removal (the message to the viewers, the event log, the
    answer to the request) does not happen. *)
Theorem failed_removal_breaks_off_stop_and_error_listener :
  (∀ (req : Request) (w : World) (acc : Access) (handle : Pid) (logs : list Line)
     (code : string),
     ensureServerAccess req (db w) = inr acc →
     a_isServerOwner acc || a_isAdmin acc ||
       editSettings (permissionsOf (a_server acc) (a_userId acc)) = true →
     registryGet (a_targetUserId acc) (a_serverId acc) w = Some handle →
     consoleLogs w !! logKeyOf (a_targetUserId acc) (a_serverId acc) = Some logs →
     ∃ w', postStopServer req (FsFails code) w = (w', Throw (FsError code)) ∧
           viewers w' = viewers w ∧
           appEventLogs (db w') = appEventLogs (db w)) ∧
  (∀ (userId serverId message code : string) (w : World) (logs : list Line)
     (perUser : gmap string Pid),
     consoleLogs w !! logKeyOf userId serverId = Some logs →
     runningProcesses w !! userId = Some perUser →
     ∃ w', onChildError userId serverId message (FsFails code) w =
             (w', Throw (FsError code)) ∧
           viewers w' = viewers w) ∧
  (∀ (userId serverId code : string) (exitCode : option Z) (w : World) (logs : list Line)
     (perUser : gmap string Pid),
     consoleLogs w !! logKeyOf userId serverId = Some logs →
     runningProcesses w !! userId = Some perUser →
     ∃ w', onChildClose userId serverId exitCode (FsFails code) w = (w', Normal ())).
Proof.
  split; [|split].
  - intros req w acc handle logs code Haccess Hmay Hreg Hlogs.
    destruct (registryGet_Some _ _ _ _ Hreg) as (perUser & Huser & _).
    assert (Hwp : wp (postStopServer req (FsFails code))
                    (λ _ _, False)
                    (λ e w', e = FsError code ∧ viewers w' = viewers w ∧
                             appEventLogs (db w') = appEventLogs (db w)) w).
    { unfold postStopServer, guarded.
      apply wp_bind, wp_getWorld. rewrite Haccess.
      replace (negb (a_isServerOwner acc) && negb (a_isAdmin acc) &&
               negb (editSettings (permissionsOf (a_server acc) (a_userId acc))))
        with false
        by (by destruct (a_isServerOwner acc), (a_isAdmin acc),
                 (editSettings (permissionsOf (a_server acc) (a_userId acc)))).
      apply wp_bind, wp_getWorld. rewrite Hreg.
      apply wp_bind, wp_modify.
      apply wp_bind. eapply wp_registryDelete; [exact Huser|].
      apply wp_bind, wp_modify.
      apply wp_bind. eapply wp_consolePush; [exact Hlogs|].
      apply wp_bind, wp_modify, wp_bind, wp_modify.
      apply wp_bind, wp_throw. done. }
    apply wp_result in Hwp as (w' & [r|e] & Hrun & Hpost); [done|].
    destruct Hpost as (-> & Hviewers & Hevents). by exists w'.
  - intros userId serverId message code w logs perUser Hlogs Huser.
    assert (Hwp : wp (onChildError userId serverId message (FsFails code))
                    (λ _ _, False)
                    (λ e w', e = FsError code ∧ viewers w' = viewers w) w).
    { unfold onChildError.
      apply wp_bind. eapply wp_consolePush; [exact Hlogs|].
      apply wp_bind, wp_modify.
      apply wp_bind. eapply wp_registryDelete; [exact Huser|].
      apply wp_bind, wp_modify.
      apply wp_bind, wp_throw. done. }
    apply wp_result in Hwp as (w' & [r|e] & Hrun & Hpost); [done|].
    destruct Hpost as (-> & Hviewers). by exists w'.
  - intros userId serverId code exitCode w logs perUser Hlogs Huser.
    assert (Hwp : wp (onChildClose userId serverId exitCode (FsFails code))
                    (λ _ _, True) (λ _ _, False) w).
    { unfold onChildClose.
      apply wp_bind. eapply wp_consolePush; [exact Hlogs|].
      apply wp_bind, wp_modify.
      apply wp_bind. eapply wp_registryDelete; [exact Huser|].
      apply wp_bind, wp_modify.
      apply wp_bind, wp_ignoreFailure, wp_throw, wp_modify. done. }
    apply wp_result in Hwp as (w' & [[]|e] & Hrun & Hpost); [|done].
    by exists w'.
Qed.

Lemma failed_removal_breaks_off_stop_and_error_listener_witness :
  (∃ w', postStopServer ownerRequest (FsFails "EBUSY") runningWorld =
           (w', Throw (FsError "EBUSY")) ∧
         viewers w' = viewers runningWorld ∧
         appEventLogs (db w') = appEventLogs (db runningWorld)) ∧
  (∃ w', onChildError "u1" "s1" "spawn node ENOENT" (FsFails "EBUSY") runningWorld =
           (w', Throw (FsError "EBUSY")) ∧
         viewers w' = viewers runningWorld) ∧
  (∃ w', onChildClose "u1" "s1" (Some 1%Z) (FsFails "EBUSY") runningWorld = (w', Normal ())).
Proof.
  destruct failed_removal_breaks_off_stop_and_error_listener as (Hstop & Herror & Hclose).
  split; [|split].
  - apply (Hstop ownerRequest runningWorld
             (mkAccess "u1" "u1" "s1" "u1" true false (demoServer false indexJs))
             0 [LPreparing; LStarted "3000"]); vm_compute; reflexivity.
  - apply (Herror "u1" "s1" "spawn node ENOENT" "EBUSY" runningWorld
             [LPreparing; LStarted "3000"] {["s1" := 0]}); vm_compute; reflexivity.
  - apply (Hclose "u1" "s1" "EBUSY" (Some 1%Z) runningWorld
             [LPreparing; LStarted "3000"] {["s1" := 0]}); vm_compute; reflexivity.
Defined.

(** What a viewer sees of it: with the removal failing, the stop message
    is never sent; with the removal succeeding it is. *)
Example stop_message_lost_on_failed_removal :
  let attached := fst (wsConnection 7 (Some "u1") (Some "s1") runningWorld) in
  (ws_received <$> head (viewers (fst (postStopServer ownerRequest FsDone attached)))) =
    Some [PLine LPreparing; PLine (LStarted "3000"); PStoppedText] ∧
  snd (postStopServer ownerRequest FsDone attached) = Normal OkStopped ∧
  (ws_received <$> head (viewers (fst (postStopServer ownerRequest (FsFails "EBUSY") attached)))) =
    Some [PLine LPreparing; PLine (LStarted "3000")] ∧
  snd (postStopServer ownerRequest (FsFails "EBUSY") attached) = Throw (FsError "EBUSY").
Proof. vm_compute. done. Qed.

(* ===================================================================== *)
(** ** A start while the server runs *)
(* ===================================================================== *)

Lemma steady_tryCatch_body {A : Type} (I : World → Prop) (body : Run A)
    (handler : JsError → Run A) :
  steady I body → steady I (tryCatch body handler).
Proof.
  intros Hb w Hw. apply wp_tryCatch.
  eapply wp_mono; [| |exact (Hb w Hw)]; done.
Qed.

Lemma wp_detach (body : Run unit) (Q : unit → World → Prop) (E : JsError → World → Prop)
    (w : World) :
  wp body (λ _ w', Q () w') (λ _ w', Q () w') w → wp (detach body) Q E w.
Proof. unfold wp, detach. by destruct (body w) as [w' [[]|e]]. Qed.

Lemma wp_spawn (script port : string) (Q : Pid → World → Prop)
    (E : JsError → World → Prop) (w : World) :
  Q (length (children w))
    (withChildren (λ cs, cs ++ [mkChild (length (children w)) script port [] []]) w) →
  wp (spawn script port) Q E w.
Proof. done. Qed.

Lemma quiet_installDependencies (userId serverId : string) (w0 : World) (env : StartEnv) :
  (packageJsonExists env = true → ∃ out err, npmInstall env = ExecDone out err) →
  steady (quiet userId serverId w0) (installDependencies serverId userId env).
Proof.
  intros Hnpm. unfold installDependencies.
  destruct (packageJsonExists env); [|apply steady_ret].
  destruct (Hnpm eq_refl) as (out & err & ->).
  apply steady_bind; [by apply quiet_pushSaveSend | intros _].
  apply steady_tryCatch_body.
  apply steady_bind; [apply steady_ret | intros o].
  apply steady_bind; [apply quiet_reportExec | intros _].
  by apply quiet_pushSaveSend.
Qed.

(** C1, what the code does.  [/start-server] does not look at the
    registry.  Whatever handle the registry holds for the key of the
    request, a start that the access check lets through and whose
    preparation succeeds is accepted, spawns a new child next to the
    children that exist, none of which gets a signal, and overwrites the
    registry entry of the key with the new handle; the child that was
    registered is no longer reachable through the registry. *)
Theorem start_on_running_key_spawns_second_child
    (req : Request) (env : StartEnv) (w : World) (acc : Access) (server : Server)
    (handle : Pid) :
  ensureServerAccess req (db w) = inr acc →
  DbFile.findServer (a_serverId acc) (appServers (db w)) = Some server →
  s_isSuspended server = false →
  registryGet (a_targetUserId acc) (a_serverId acc) w = Some handle →
  handle < length (children w) →
  ensureServerDir env = FsDone →
  (∀ path, writeFile env path = FsDone) →
  mainFileExists env = true →
  (packageJsonExists env = true → ∃ out err, npmInstall env = ExecDone out err) →
  ∃ w' : World,
    postStartServer req env w = (w', Normal OkStarting) ∧
    children w' =
      children w ++
      [mkChild (length (children w))
         (orDefault (JsMap.lookup "mainFile" (s_startupSettings server)) "index.js")
         (orDefault (JsMap.lookup "port" (s_startupSettings server)) "3000") [] []] ∧
    registryGet (a_targetUserId acc) (a_serverId acc) w' = Some (length (children w)) ∧
    registryGet (a_targetUserId acc) (a_serverId acc) w' ≠ Some handle.
Proof.
  intros Haccess Hserver Hsusp Hreg Hhandle Hdir Hwrite Hmain Hnpm.
  set (mainFile := orDefault (JsMap.lookup "mainFile" (s_startupSettings server)) "index.js").
  set (port := orDefault (JsMap.lookup "port" (s_startupSettings server)) "3000").
  pose (userId := a_targetUserId acc). pose (serverId := a_serverId acc).
  set (Post := λ w' : World,
    children w' = children w ++ [mkChild (length (children w)) mainFile port [] []] ∧
    registryGet userId serverId w' = Some (length (children w))).
  assert (Hwp : wp (postStartServer req env)
                  (λ answer w', answer = OkStarting ∧ Post w') (λ _ _, False) w).
  { unfold postStartServer, guarded.
    apply wp_bind, wp_getWorld. rewrite Haccess.
    apply wp_bind, wp_getWorld. rewrite Hserver, Hsusp.
    apply wp_bind, wp_detach.
    apply (wp_mono _ (λ _ w', Post w') _ (λ _ _, False)); [by intros [] | done |].
    apply start_reaches_entry_check; [done..|].
    intros w6 Hquiet6. rewrite Hmain. cbn [negb]. fold mainFile port.
    apply wp_bind.
    eapply wp_mono;
      [| |apply (quiet_installDependencies userId serverId w env Hnpm w6 Hquiet6)];
      [|done].
    intros [] w7 ((lines & Hlines & _) & _ & Hchildren & Hregistry & _). cbv beta.
    unfold launch. cbv zeta.
    apply wp_bind, wp_spawn, wp_bind, wp_modify, wp_bind, wp_getWorld.
    apply wp_bind, wp_modify, wp_bind, wp_modify.
    unfold pushSaveSend.
    apply wp_bind, wp_bind. eapply wp_consolePush; [world_simpl; exact Hlines|].
    apply wp_bind, wp_modify, wp_modify, wp_modify.
    split.
    - world_simpl. by rewrite Hchildren.
    - unfold registryGet. world_simpl. rewrite Hchildren.
      by rewrite !lookup_insert_eq. }
  apply wp_result in Hwp as (w' & [answer|e] & Hrun & Hpost); [|done].
  destruct Hpost as (-> & Hchildren & Hregistry). subst userId serverId.
  exists w'. split; [done|]. split; [done|]. split; [done|].
  rewrite Hregistry. intros [= Heq]. lia.
Qed.

Lemma start_on_running_key_spawns_second_child_witness :
  ∃ w' : World,
    postStartServer ownerRequest (quietDisk true) runningWorld = (w', Normal OkStarting) ∧
    children w' =
      children runningWorld ++
      [mkChild (length (children runningWorld))
         (orDefault (JsMap.lookup "mainFile" (s_startupSettings (demoServer false indexJs)))
            "index.js")
         (orDefault (JsMap.lookup "port" (s_startupSettings (demoServer false indexJs)))
            "3000") [] []] ∧
    registryGet "u1" "s1" w' = Some (length (children runningWorld)) ∧
    registryGet "u1" "s1" w' ≠ Some 0.
Proof.
  apply (start_on_running_key_spawns_second_child ownerRequest (quietDisk true)
           runningWorld
           (mkAccess "u1" "u1" "s1" "u1" true false (demoServer false indexJs))
           (demoServer false indexJs) 0);
    first [ vm_compute; reflexivity | vm_compute; lia | discriminate ].
Defined.

(** The same on the small installation: the owner starts the server a
    second time while its child runs. *)
Example second_start_on_the_small_installation :
  let w1 := runningWorld in
  let w2 := fst (postStartServer ownerRequest (quietDisk true) w1) in
  registryGet "u1" "s1" w1 = Some 0 ∧
  length (children w1) = 1 ∧
  snd (postStartServer ownerRequest (quietDisk true) w1) = Normal OkStarting ∧
  registryGet "u1" "s1" w2 = Some 1 ∧
  length (children w2) = 2 ∧
  (child_signals <$> findChild 0 w2) = Some [].
Proof. vm_compute. done. Qed.

(* ===================================================================== *)
(** ** The stored process state *)
(* ===================================================================== *)

Section DbFileFacts.

Lemma sameKey_refl (u s : string) : sameKey u s u s = true.
Proof. unfold sameKey. by rewrite !String.eqb_refl. Qed.

Lemma sameKey_true (u s u' s' : string) : sameKey u s u' s' = true ↔ u' = u ∧ s' = s.
Proof.
unfold sameKey. rewrite andb_true_iff, !String.eqb_eq. done.
Qed.

Lemma sameKey_other (u s u' s' a b : string) :
(u', s') ≠ (u, s) → sameKey u s a b = true → sameKey u' s' a b = false.
Proof.
intros Hne [-> ->]%sameKey_true.
destruct (sameKey u' s' u s) eqn:E; [|done].
apply sameKey_true in E as [-> ->]. done.
Qed.

Lemma find_upsert_hit {A : Type} (p : A → bool) (newDoc : A) (array : list A) :
p newDoc = true → List.find p (DbFile.upsert p newDoc array) = Some newDoc.
Proof.
intros Hnew. induction array as [|x array IH]; simpl.
- by rewrite Hnew.
- destruct (p x) eqn:E; simpl; [by rewrite Hnew | by rewrite E].
Qed.

Lemma find_upsert_other {A : Type} (p q : A → bool) (newDoc : A) (array : list A) :
q newDoc = false → (∀ x, p x = true → q x = false) →
List.find q (DbFile.upsert p newDoc array) = List.find q array.
Proof.
intros Hnew Hpq. induction array as [|x array IH]; simpl.
- by rewrite Hnew.
- destruct (p x) eqn:E; simpl.
  + by rewrite Hnew, (Hpq x E).
  + by rewrite IH.
Qed.

Lemma find_filter_negb {A : Type} (p : A → bool) (l : list A) :
List.find p (List.filter (λ x, negb (p x)) l) = None.
Proof.
induction l as [|x l IH]; [done|]. simpl.
destruct (p x) eqn:E; simpl; [done | by rewrite E].
Qed.

Lemma find_filter_other {A : Type} (p q : A → bool) (l : list A) :
(∀ x, q x = true → p x = false) →
List.find q (List.filter (λ x, negb (p x)) l) = List.find q l.
Proof.
intros Hqp. induction l as [|x l IH]; [done|]. simpl.
destruct (q x) eqn:Eq.
- rewrite (Hqp x Eq). simpl. by rewrite Eq.
- destruct (p x); simpl; [done | by rewrite Eq].
Qed.

Lemma getProcessState_setProcessState (u s : string) (running : bool) (t : option Z)
  (rows : list ProcessStateRow) :
DbFile.getProcessState u s (DbFile.setProcessState u s running t rows) =
mkProcessState running (startTimeOrNull t).
Proof.
unfold DbFile.getProcessState, DbFile.setProcessState.
rewrite find_upsert_hit; [done|]. apply sameKey_refl.
Qed.

Lemma map_key_upsert (u s : string) (running : bool) (t : option Z)
  (rows : list ProcessStateRow) :
map ps_key (DbFile.setProcessState u s running t rows) =
if existsb (λ r, sameKey u s (ps_userId r) (ps_serverId r)) rows
then map ps_key rows else map ps_key rows ++ [(u, s)].
Proof.
unfold DbFile.setProcessState.
induction rows as [|r rows IH]; [done|]. simpl.
destruct (sameKey u s (ps_userId r) (ps_serverId r)) eqn:E; simpl.
- apply sameKey_true in E as [Hu Hs]. f_equal. unfold ps_key. simpl. by rewrite Hu, Hs.
- rewrite IH. by destruct (existsb _ rows).
Qed.

Lemma existsb_sameKey (u s : string) (rows : list ProcessStateRow) :
existsb (λ r, sameKey u s (ps_userId r) (ps_serverId r)) rows =
bool_decide ((u, s) ∈ map ps_key rows).
Proof.
induction rows as [|r rows IH]; [done|]. simpl. rewrite IH.
destruct (sameKey u s (ps_userId r) (ps_serverId r)) eqn:E; simpl.
- apply sameKey_true in E as [Hu Hs]. symmetry. apply bool_decide_eq_true.
  unfold ps_key at 1. rewrite Hu, Hs. apply list_elem_of_here.
- apply bool_decide_ext. rewrite elem_of_cons. split; [tauto|].
  intros [Heq|H]; [|done]. unfold ps_key in Heq. injection Heq as -> ->.
  by rewrite sameKey_refl in E.
Qed.

(** A key that was written has a row. *)
Lemma setProcessState_has_row (u s : string) (running : bool) (t : option Z)
  (rows : list ProcessStateRow) :
(u, s) ∈ map ps_key (DbFile.setProcessState u s running t rows).
Proof.
rewrite map_key_upsert, existsb_sameKey. case_bool_decide; [done|].
apply elem_of_app. right. apply list_elem_of_here.
Qed.

End DbFileFacts.

(** X1.  The stored process state of a key is what was last written for
    it: after [setProcessState(u, s, running, t)], [getProcessState(u, s)]
    answers [running] and [t] (a start time of zero is answered as [null]),
    whatever the table held before; and after [clearProcessState(u, s)] the
    key is answered "not running, no start time". *)
Theorem process_state_round_trip (u s : string) (running : bool) (t : option Z)
    (rows : list ProcessStateRow) :
  DbFile.getProcessState u s (DbFile.setProcessState u s running t rows) =
    mkProcessState running (startTimeOrNull t) ∧
  DbFile.getProcessState u s (DbFile.clearProcessState u s rows) = mkProcessState false None.
Proof.
  split; [apply getProcessState_setProcessState|].
  unfold DbFile.getProcessState, DbFile.clearProcessState.
  by rewrite (find_filter_negb (λ r, sameKey u s (ps_userId r) (ps_serverId r))).
Qed.

(** X2.  Writing or clearing the process state of one key leaves the
    state of every other key as it was. *)
Theorem process_state_of_other_keys_untouched (u s u' s' : string) (running : bool)
    (t : option Z) (rows : list ProcessStateRow) :
  (u', s') ≠ (u, s) →
  DbFile.getProcessState u' s' (DbFile.setProcessState u s running t rows) =
    DbFile.getProcessState u' s' rows ∧
  DbFile.getProcessState u' s' (DbFile.clearProcessState u s rows) =
    DbFile.getProcessState u' s' rows.
Proof.
  intros Hne. unfold DbFile.getProcessState, DbFile.setProcessState, DbFile.clearProcessState.
  split.
  - rewrite find_upsert_other; [done| |].
    + simpl. destruct (sameKey u' s' u s) eqn:E; [|done].
      apply sameKey_true in E as [-> ->]. done.
    + intros r Hr. by eapply sameKey_other.
  - rewrite (find_filter_other (λ r, sameKey u s (ps_userId r) (ps_serverId r))); [done|].
    intros r Hr. eapply sameKey_other; [|exact Hr]. congruence.
Qed.

Lemma process_state_of_other_keys_untouched_witness :
  DbFile.getProcessState "u2" "s1"
    (DbFile.setProcessState "u1" "s1" false None
       [mkProcessStateRow "u1" "s1" true (Some 5%Z); mkProcessStateRow "u2" "s1" true (Some 7%Z)]) =
    DbFile.getProcessState "u2" "s1"
      [mkProcessStateRow "u1" "s1" true (Some 5%Z); mkProcessStateRow "u2" "s1" true (Some 7%Z)] ∧
  DbFile.getProcessState "u2" "s1"
    (DbFile.clearProcessState "u1" "s1"
       [mkProcessStateRow "u1" "s1" true (Some 5%Z); mkProcessStateRow "u2" "s1" true (Some 7%Z)]) =
    DbFile.getProcessState "u2" "s1"
      [mkProcessStateRow "u1" "s1" true (Some 5%Z); mkProcessStateRow "u2" "s1" true (Some 7%Z)].
Proof.
  apply (process_state_of_other_keys_untouched "u1" "s1" "u2" "s1"). discriminate.
Defined.

(** X3.  [setProcessState] keeps the table at one row per key: when no two
    rows have the same (userId, serverId), that is still so after the
    write, and the write adds a row only for a key that had none. *)
Theorem process_state_one_row_per_key (u s : string) (running : bool) (t : option Z)
    (rows : list ProcessStateRow) :
  NoDup (map ps_key rows) →
  NoDup (map ps_key (DbFile.setProcessState u s running t rows)) ∧
  length (DbFile.setProcessState u s running t rows) =
    if bool_decide ((u, s) ∈ map ps_key rows) then length rows else S (length rows).
Proof.
  intros Hnodup.
  pose proof (existsb_sameKey u s rows) as Hex.
  split.
  - rewrite map_key_upsert, Hex. case_bool_decide as Hin; [done|].
    apply NoDup_app. split; [done|]. split; [|apply NoDup_singleton].
    intros k Hk ->%list_elem_of_singleton. done.
  - rewrite <- (length_map ps_key), map_key_upsert, Hex.
    case_bool_decide; [by rewrite length_map|].
    rewrite length_app, length_map. simpl. lia.
Qed.

Lemma process_state_one_row_per_key_witness :
  NoDup (map ps_key (DbFile.setProcessState "u1" "s1" true (Some 9%Z)
                       [mkProcessStateRow "u1" "s1" false None])) ∧
  length (DbFile.setProcessState "u1" "s1" true (Some 9%Z)
            [mkProcessStateRow "u1" "s1" false None]) =
    if bool_decide (("u1", "s1") ∈ map ps_key [mkProcessStateRow "u1" "s1" false None])
    then length [mkProcessStateRow "u1" "s1" false None]
    else S (length [mkProcessStateRow "u1" "s1" false None]).
Proof.
  apply (process_state_one_row_per_key "u1" "s1" true (Some 9%Z)
           [mkProcessStateRow "u1" "s1" false None]).
  apply NoDup_singleton.
Defined.

(* ===================================================================== *)
(** ** The stored console lines *)
(* ===================================================================== *)

Section ConsoleStoreFacts.

Lemma filter_filter_negb {A : Type} (p : A → bool) (l : list A) :
List.filter p (List.filter (λ x, negb (p x)) l) = [].
Proof.
induction l as [|x l IH]; [done|]. simpl.
destruct (p x) eqn:E; simpl; [done | by rewrite E].
Qed.

Lemma filter_filter_other {A : Type} (p q : A → bool) (l : list A) :
(∀ x, q x = true → p x = false) →
List.filter q (List.filter (λ x, negb (p x)) l) = List.filter q l.
Proof.
intros Hqp. induction l as [|x l IH]; [done|]. simpl.
destruct (q x) eqn:Eq.
- rewrite (Hqp x Eq). simpl. by rewrite Eq, IH.
- destruct (p x); simpl; [done | by rewrite Eq].
Qed.

Lemma insert_sorted_last {A : Type} (key : A → Z) (a x : A) (sorted : list A) :
(key a <= key x)%Z →
JsArray.insert_sorted key a (sorted ++ [x]) = JsArray.insert_sorted key a sorted ++ [x].
Proof.
intros Hax. induction sorted as [|y sorted IH]; simpl.
- by replace (key a <=? key x)%Z with true by (symmetry; by apply Z.leb_le).
- destruct (key a <=? key y)%Z; [done|]. by rewrite IH.
Qed.

(** A stable sort leaves an element last that comes last and is not
  smaller than any other. *)
Lemma sort_by_last {A : Type} (key : A → Z) (x : A) (l : list A) :
forallb (λ y, (key y <=? key x)%Z) l = true →
JsArray.sort_by key (l ++ [x]) = JsArray.sort_by key l ++ [x].
Proof.
induction l as [|a l IH]; intros H; [done|].
simpl in *. apply andb_prop in H as [Ha H]. rewrite (IH H).
apply insert_sorted_last. by apply Z.leb_le.
Qed.

Lemma cap_app_last {A : Type} (max : nat) (l : list A) (x : A) :
1 ≤ max → ∃ n, JsArray.cap max (l ++ [x]) = drop n l ++ [x].
Proof.
intros Hmax. unfold JsArray.cap. rewrite length_app. simpl.
destruct (max <? length l + 1)%nat eqn:E.
- exists (length l + 1 - max). apply Nat.ltb_lt in E.
  rewrite drop_app. f_equal.
  replace (length l + 1 - max - length l) with 0 by lia. done.
- by exists 0.
Qed.

End ConsoleStoreFacts.

(** X4.  [clearConsoleLogs(u, s)] removes every stored line of the pair and
    nothing else: afterwards [getRecentConsoleLogs(u, s, limit)] is empty for
    every limit, and what it answers for any other pair is what it answered
    before. *)
Theorem cleared_console_is_empty (u s u' s' : string) (limit : Z) (rows : list ConsoleRow) :
  DbFile.getRecentConsoleLogs u s limit (DbFile.clearConsoleLogs u s rows) = [] ∧
  ((u', s') ≠ (u, s) →
   DbFile.getRecentConsoleLogs u' s' limit (DbFile.clearConsoleLogs u s rows) =
     DbFile.getRecentConsoleLogs u' s' limit rows).
Proof.
  unfold DbFile.getRecentConsoleLogs, DbFile.clearConsoleLogs. split.
  - rewrite (filter_filter_negb (λ r, sameKey u s (row_userId r) (row_serverId r))).
    simpl. unfold JsArray.slice_from. by rewrite drop_nil.
  - intros Hne.
    rewrite (filter_filter_other (λ r, sameKey u s (row_userId r) (row_serverId r))); [done|].
    intros r Hr. eapply sameKey_other; [|exact Hr]. congruence.
Qed.

(** X5.  A line that was just saved is the newest line of its pair: when
    no stored row carries a later time stamp than the clock, the answer of
    [getRecentConsoleLogs] for the pair, at any limit of at least one, ends
    with the line that [saveConsoleLog] has just written. *)
Theorem saved_line_is_the_most_recent (now : Z) (u s : string) (content : Line)
    (rows : list ConsoleRow) (limit : Z) :
  forallb (λ r, (row_timestamp r <=? now)%Z) rows = true →
  (1 <= limit)%Z →
  last (DbFile.getRecentConsoleLogs u s limit (DbFile.saveConsoleLog now u s content rows)) =
    Some content.
Proof.
  intros Hclock Hlimit. unfold DbFile.getRecentConsoleLogs, DbFile.saveConsoleLog.
  destruct (cap_app_last DbFile.MAX rows (mkConsoleRow u s now content)) as [n ->].
  { unfold DbFile.MAX. lia. }
  rewrite List.filter_app. simpl. rewrite sameKey_refl.
  rewrite sort_by_last.
  2:{ simpl. by apply forallb_filter, forallb_drop. }
  set (older := JsArray.sort_by row_timestamp _).
  unfold JsArray.slice_from.
  replace (- limit <? 0)%Z with true by (symmetry; apply Z.ltb_lt; lia).
  rewrite length_app. simpl.
  rewrite drop_app_le by lia. rewrite map_app. simpl. by rewrite last_snoc.
Qed.

Lemma saved_line_is_the_most_recent_witness :
  last (DbFile.getRecentConsoleLogs "u1" "s1" 1
          (DbFile.saveConsoleLog 12 "u1" "s1" LStopped
             [mkConsoleRow "u1" "s1" 10 LPreparing; mkConsoleRow "u2" "s1" 12 LPreparing])) =
    Some LStopped.
Proof.
  apply saved_line_is_the_most_recent; [reflexivity | lia].
Defined.

(* ===================================================================== *)
(** ** Path keys, and deleting in the file store *)
(* ===================================================================== *)

Section CodecFacts.

Lemma string_append_assoc (a b c : string) : (a +:+ b) +:+ c = a +:+ (b +:+ c).
Proof. induction a as [|x a IH]; [done|]. by rewrite !append_cons, IH. Qed.

Lemma encode_app (a b : string) :
encodeFilePathKey (a +:+ b) = encodeFilePathKey a +:+ encodeFilePathKey b.
Proof.
induction a as [|c a IH]; [done|].
rewrite append_cons, !encode_cons, IH.
destruct (Ascii.eqb c "."); [by rewrite string_append_assoc | by rewrite append_cons].
Qed.

Lemma encode_no_dot (p : string) : JsString.includes (encodeFilePathKey p) "." = false.
Proof.
induction p as [|c p IH]; [done|].
rewrite encode_cons. destruct (Ascii.eqb c ".") eqn:Hc.
- unfold DOT_TOKEN. rewrite !append_cons, append_empty_l.
  rewrite !includes_cons, !prefix_cons, IH. done.
- rewrite includes_cons, prefix_cons, prefix_empty, IH, Ascii.eqb_sym, Hc. done.
Qed.

End CodecFacts.

(** X6.  An encoded key never holds a dot, whatever the path; and the key
    of a path already free of dots is the path itself, so encoding twice is
    encoding once. *)
Theorem encoded_key_has_no_dot (p : string) :
  JsString.includes (encodeFilePathKey p) "." = false ∧
  encodeFilePathKey (encodeFilePathKey p) = encodeFilePathKey p.
Proof.
  split; [apply encode_no_dot|].
  pose proof (encode_no_dot p) as H. revert H.
  generalize (encodeFilePathKey p). intros k.
  induction k as [|c k IH]; intros H; [done|].
  rewrite includes_cons, prefix_cons, prefix_empty, andb_true_r in H.
  apply orb_false_elim in H as [Hc Hk].
  rewrite encode_cons, Ascii.eqb_sym, Hc. f_equal. by apply IH.
Qed.

(** X7.  The encoder works character by character: the key of a
    concatenation is the concatenation of the keys.  So the key of every
    path under a directory [dir] starts with the key of [dir] followed by
    the key of the separator, which is the test by which the rename and
    delete handlers recognise the contents of a directory. *)
Theorem encoded_key_of_path_under_directory (dir rest : string) :
  encodeFilePathKey (dir +:+ rest) = encodeFilePathKey dir +:+ encodeFilePathKey rest ∧
  JsString.startsWith (encodeFilePathKey (dir +:+ "/" +:+ rest))
    (encodeFilePathKey dir +:+ encodeFilePathKey "/") = true.
Proof.
  split; [apply encode_app|].
  unfold JsString.startsWith. rewrite !encode_app, <- string_append_assoc. apply prefix_app.
Qed.

(** X8.  On the paths that the round trip holds for (those that
    [clashesWithToken] does not flag) the encoding is injective: two such
    paths that differ have different keys, so neither overwrites the other
    in the store. *)
Theorem distinct_clash_free_paths_have_distinct_keys (p q : string) :
  clashesWithToken p = false →
  clashesWithToken q = false →
  p ≠ q →
  encodeFilePathKey p ≠ encodeFilePathKey q.
Proof.
  intros Hp Hq Hne Heq. apply Hne.
  rewrite <- (decode_encode_clash_free p Hp), <- (decode_encode_clash_free q Hq).
  by rewrite Heq.
Qed.

Lemma distinct_clash_free_paths_have_distinct_keys_witness :
  encodeFilePathKey "lib/a.b.js" ≠ encodeFilePathKey "lib/a_b.js".
Proof.
  apply (distinct_clash_free_paths_have_distinct_keys "lib/a.b.js" "lib/a_b.js");
    first [reflexivity | discriminate].
Defined.

Section DeleteFacts.

Implicit Types (files m : FileStore) (k : string).

Lemma keys_delete_subset k k' m : k' ∈ JsMap.keys (JsMap.delete k m) → k' ∈ JsMap.keys m.
Proof.
induction m as [|[k0 v0] m IH]; [done|]. simpl.
destruct (String.eqb k k0); simpl; rewrite ?elem_of_cons; intros H.
- right. by apply IH.
- destruct H as [->|H]; [by left | right; by apply IH].
Qed.

Lemma lookup_fold_delete (ks : list string) m k :
JsMap.lookup k (fold_left (λ fs fp, JsMap.delete fp fs) ks m) =
if bool_decide (k ∈ ks) then None else JsMap.lookup k m.
Proof.
revert m. induction ks as [|k1 ks IH]; intros m; [done|]. simpl. rewrite IH.
destruct (decide (k = k1)) as [->|Hne].
- rewrite jsmap_lookup_delete_eq.
  rewrite (bool_decide_eq_true_2 (k1 ∈ k1 :: ks)) by apply list_elem_of_here.
  by case_bool_decide.
- rewrite jsmap_lookup_delete_ne by done.
  apply (f_equal (λ b : bool, if b then None else JsMap.lookup k m)).
  apply bool_decide_ext. rewrite elem_of_cons. tauto.
Qed.

Lemma jsmap_keys_lookup k m : k ∈ JsMap.keys m ↔ JsMap.lookup k m ≠ None.
Proof.
destruct (JsMap.lookup k m) eqn:E.
- split; [done|]. intros _. destruct (decide (k ∈ JsMap.keys m)) as [|Hn]; [done|].
  apply lookup_None_keys in Hn. congruence.
- apply lookup_None_keys in E. tauto.
Qed.

(** What one deletion leaves of the store. *)
Lemma lookup_deleteEntry files k k' :
JsMap.lookup k' (deleteEntry files k) =
if String.eqb k' k || JsString.startsWith k' (k +:+ encodeFilePathKey "/")
then None else JsMap.lookup k' files.
Proof.
unfold deleteEntry. cbv zeta. rewrite lookup_fold_delete.
set (files1 := if JsMap.has k files then JsMap.delete k files else files).
assert (H1 : JsMap.lookup k' files1 =
             if String.eqb k' k then None else JsMap.lookup k' files).
{ subst files1. destruct (String.eqb k' k) eqn:E.
  - apply String.eqb_eq in E as ->. unfold JsMap.has.
    destruct (JsMap.lookup k files) eqn:El; [apply jsmap_lookup_delete_eq | done].
  - apply String.eqb_neq in E. destruct (JsMap.has k files); [|done].
    by apply jsmap_lookup_delete_ne. }
rewrite H1. destruct (String.eqb k' k) eqn:E; simpl.
- by case_bool_decide.
- destruct (JsString.startsWith k' _) eqn:Hp.
  + case_bool_decide as Hin; [done|].
    destruct (JsMap.lookup k' files) eqn:El; [|done].
    exfalso. apply Hin, elem_of_filter_bool. split; [|done].
    apply jsmap_keys_lookup. by rewrite H1.
  + case_bool_decide as Hin; [|done].
    apply elem_of_filter_bool in Hin as [_ Hin]. congruence.
Qed.

End DeleteFacts.

Section DeleteTheorems.

Implicit Types (files m : FileStore) (k : string).

Lemma no_key_under_deleted files k :
someKeyStartsWith (deleteEntry files k) (k +:+ encodeFilePathKey "/") = false.
Proof.
apply someKeyStartsWith_false. intros k' Hk'.
destruct (JsString.startsWith k' _) eqn:Hp; [|done].
apply jsmap_keys_lookup in Hk'. rewrite lookup_deleteEntry, Hp, orb_true_r in Hk'. done.
Qed.

Lemma delete_set_fresh k (v : FileContent) m :
JsMap.lookup k m = None → JsMap.delete k (JsMap.set k v m) = m.
Proof.
induction m as [|[k0 v0] m IH]; simpl.
- by rewrite String.eqb_refl.
- destruct (String.eqb k k0) eqn:E; [done|]. simpl. rewrite E. intros H. by rewrite IH.
Qed.

Lemma filter_bool_none {A : Type} (f : A → bool) (l : list A) :
(∀ x, x ∈ l → f x = false) → List.filter f l = [].
Proof.
induction l as [|x l IH]; intros H; [done|]. simpl.
rewrite (H x) by apply list_elem_of_here. apply IH. intros y Hy. apply H. by right.
Qed.

Lemma lookup_deleteMany files (paths : list string) k' :
JsMap.lookup k' (deleteManyInStore files paths) =
if existsb (λ p, String.eqb k' (encodeFilePathKey p) ||
                 JsString.startsWith k' (encodeFilePathKey p +:+ encodeFilePathKey "/")) paths
then None else JsMap.lookup k' files.
Proof.
unfold deleteManyInStore. revert files.
induction paths as [|p paths IH]; intros files; [done|]. simpl.
rewrite IH, lookup_deleteEntry.
destruct (existsb _ paths); [by rewrite orb_true_r|]. by rewrite orb_false_r.
Qed.

End DeleteTheorems.

(** X9.  [/delete-file] removes the path and everything under it, and
    nothing else.  For every store and every encoded path [k]: the request
    is refused as "not found" exactly when [k] is no key and no key lies
    under [k/]; afterwards [k] is no key, no key lies under [k/], and every
    other key has the content it had. *)
Theorem delete_removes_path_and_everything_under (files : FileStore) (k : string) :
  let files' := snd (deleteInStore files k) in
  let prefix := k +:+ encodeFilePathKey "/" in
  (fst (deleteInStore files k) = NothingToDelete ↔
     JsMap.has k files = false ∧ someKeyStartsWith files prefix = false) ∧
  JsMap.has k files' = false ∧
  someKeyStartsWith files' prefix = false ∧
  (∀ k', k' ≠ k → JsString.startsWith k' prefix = false →
         JsMap.lookup k' files' = JsMap.lookup k' files).
Proof.
  intros files' prefix. subst files'. unfold deleteInStore. cbv zeta. fold prefix.
  destruct (JsMap.has k files) eqn:Hfile; simpl.
  - split; [split; [done | by intros [? _]]|]. split; [|split].
    + unfold JsMap.has. by rewrite lookup_deleteEntry, String.eqb_refl.
    + apply no_key_under_deleted.
    + intros k' Hne Hp. rewrite lookup_deleteEntry. fold prefix. rewrite Hp.
      apply String.eqb_neq in Hne. by rewrite Hne.
  - destruct (someKeyStartsWith files prefix) eqn:Hdir; simpl.
    + split; [split; [done | by intros [_ ?]]|]. split; [|split].
      * unfold JsMap.has. by rewrite lookup_deleteEntry, String.eqb_refl.
      * apply no_key_under_deleted.
      * intros k' Hne Hp. rewrite lookup_deleteEntry. fold prefix. rewrite Hp.
        apply String.eqb_neq in Hne. by rewrite Hne.
    + by repeat split.
Qed.

(** X10.  Creating a file and deleting it again gives the store back.  For
    a path [k] that is no key and has no key under it, [/create-file] files
    an empty content under [k] at the end of the store, a second
    [/create-file] of [k] is refused, and [/delete-file] of [k] then leaves
    exactly the store there was before. *)
Theorem create_then_delete_restores_store (files : FileStore) (k : string) :
  JsMap.has k files = false →
  someKeyStartsWith files (k +:+ encodeFilePathKey "/") = false →
  createInStore files k = (Created, files ++ [(k, Base64 "")]) ∧
  createInStore (files ++ [(k, Base64 "")]) k = (FileExists, files ++ [(k, Base64 "")]) ∧
  deleteInStore (files ++ [(k, Base64 "")]) k = (Deleted, files).
Proof.
  intros Hfile Hdir.
  assert (Hnone : JsMap.lookup k files = None) by (by apply has_false_lookup).
  assert (Hset : JsMap.set k (Base64 "") files = files ++ [(k, Base64 "")]).
  { clear Hdir Hfile. induction files as [|[k0 v0] files IH]; [done|]. simpl in *.
    destruct (String.eqb k k0); [done|]. by rewrite IH. }
  assert (Hhas : JsMap.has k (files ++ [(k, Base64 "")]) = true).
  { rewrite <- Hset. unfold JsMap.has. by rewrite jsmap_lookup_set_eq. }
  unfold createInStore, deleteInStore. rewrite Hfile, Hhas. cbv zeta. simpl.
  rewrite Hset. split; [done|]. split; [done|]. f_equal.
  unfold deleteEntry. cbv zeta. rewrite Hhas, <- Hset, delete_set_fresh by done.
  by rewrite filter_bool_none by (by apply someKeyStartsWith_false).
Qed.

Lemma create_then_delete_restores_store_witness :
  createInStore indexJs "lib/util__DOT__js" =
    (Created, indexJs ++ [("lib/util__DOT__js", Base64 "")]) ∧
  createInStore (indexJs ++ [("lib/util__DOT__js", Base64 "")]) "lib/util__DOT__js" =
    (FileExists, indexJs ++ [("lib/util__DOT__js", Base64 "")]) ∧
  deleteInStore (indexJs ++ [("lib/util__DOT__js", Base64 "")]) "lib/util__DOT__js" =
    (Deleted, indexJs).
Proof.
  apply (create_then_delete_restores_store indexJs "lib/util__DOT__js"); reflexivity.
Defined.

(** X11.  [/delete-files] removes exactly the listed paths and what lies
    under them: afterwards a key is gone when it is the key of a listed
    path or lies under one, and has the content it had otherwise (so no
    deletion adds or alters an entry); in particular none of the listed
    paths is left, as a file or as a directory. *)
Theorem delete_files_removes_exactly_the_listed (files : FileStore) (paths : list string) :
  let files' := deleteManyInStore files paths in
  (∀ k', JsMap.lookup k' files' =
         if existsb (λ p, String.eqb k' (encodeFilePathKey p) ||
                          JsString.startsWith k'
                            (encodeFilePathKey p +:+ encodeFilePathKey "/")) paths
         then None else JsMap.lookup k' files) ∧
  (∀ p, p ∈ paths →
        JsMap.has (encodeFilePathKey p) files' = false ∧
        someKeyStartsWith files' (encodeFilePathKey p +:+ encodeFilePathKey "/") = false).
Proof.
  intros files'. subst files'. split; [intros k'; apply lookup_deleteMany|].
  intros p Hp.
  assert (Hgone : ∀ k',
    String.eqb k' (encodeFilePathKey p) ||
    JsString.startsWith k' (encodeFilePathKey p +:+ encodeFilePathKey "/") = true →
    JsMap.lookup k' (deleteManyInStore files paths) = None).
  { intros k' Hk'. rewrite lookup_deleteMany.
    replace (existsb _ paths) with true; [done|].
    symmetry. apply existsb_exists. exists p. by rewrite <- list_elem_of_In. }
  split.
  - unfold JsMap.has. rewrite Hgone; [done|]. by rewrite String.eqb_refl.
  - apply someKeyStartsWith_false. intros k' Hk'.
    destruct (JsString.startsWith k' _) eqn:Hunder; [|done].
    apply jsmap_keys_lookup in Hk'. rewrite Hgone in Hk'; [done|]. by rewrite Hunder, orb_true_r.
Qed.

(* ===================================================================== *)
(** ** The access check, and stopping a server *)
(* ===================================================================== *)

Section AccessFacts.

Lemma findServer_Some (id : string) (servers : list Server) (server : Server) :
DbFile.findServer id servers = Some server → s_id server = id ∧ id ≠ "".
Proof.
unfold DbFile.findServer. destruct (String.eqb id "") eqn:E; [done|].
intros [_ H]%List.find_some. apply String.eqb_eq in H. by apply String.eqb_neq in E.
Qed.

Lemma findUser_Some (userId : string) (users : list UserRow) (user : UserRow) :
DbFile.findUser userId users = Some user → u_userId user = userId.
Proof.
unfold DbFile.findUser. destruct (String.eqb userId ""); [done|].
intros [_ H]%List.find_some. by apply String.eqb_eq in H.
Qed.

Lemma wp_guarded (req : Request) (route : Access → Run Response) (acc : Access)
  (Q : Response → World → Prop) (E : JsError → World → Prop) (w : World) :
ensureServerAccess req (db w) = inr acc →
wp (route acc) Q E w → wp (guarded req route) Q E w.
Proof.
intros Haccess H. unfold guarded. apply wp_bind, wp_getWorld. by rewrite Haccess.
Qed.

Lemma registryGet_after_delete (u s u' s' : string) (perUser : gmap string Pid) (w : World) :
runningProcesses w !! u = Some perUser →
registryGet u' s' (withRunningProcesses (insert u (delete s perUser)) w) =
if bool_decide ((u', s') = (u, s)) then None else registryGet u' s' w.
Proof.
intros Huser. unfold registryGet. world_simpl.
destruct (decide (u' = u)) as [->|Hu].
- rewrite lookup_insert_eq, Huser. destruct (decide (s' = s)) as [->|Hs].
  + by rewrite lookup_delete_eq, bool_decide_eq_true_2.
  + rewrite lookup_delete_ne by done. by rewrite bool_decide_eq_false_2 by congruence.
- rewrite lookup_insert_ne by done. by rewrite bool_decide_eq_false_2 by congruence.
Qed.

Lemma truthy_Some (s : string) : s ≠ "" → truthy (Some s) = Some s.
Proof. intros H. simpl. apply String.eqb_neq in H. by rewrite H. Qed.

Lemma findUser_nonempty (userId : string) (users : list UserRow) (user : UserRow) :
DbFile.findUser userId users = Some user → userId ≠ "".
Proof.
unfold DbFile.findUser. destruct (String.eqb userId "") eqn:E; [done|].
intros _. by apply String.eqb_neq.
Qed.

(** What a granted access tells about the request and the database. *)
Lemma ensureServerAccess_inr (req : Request) (d : Db) (acc : Access) :
ensureServerAccess req d = inr acc →
ensureLoggedIn req = Some (a_userId acc) ∧
truthy (body_serverId req) = Some (a_serverId acc) ∧
(∃ user, DbFile.findUser (a_userId acc) (appUsers d) = Some user ∧
         u_isAdmin user = a_isAdmin acc) ∧
is_Some (DbFile.findUser (a_targetUserId acc) (appUsers d)) ∧
DbFile.findServer (a_serverId acc) (appServers d) = Some (a_server acc) ∧
s_ownerId (a_server acc) = a_targetUserId acc ∧
a_isServerOwner acc = String.eqb (s_ownerId (a_server acc)) (a_userId acc) ∧
(a_isServerOwner acc = true ∨ a_isAdmin acc = true ∨
 JsMap.has (a_userId acc) (s_users (a_server acc)) = true) ∧
(s_isSuspended (a_server acc) = true → a_isAdmin acc = true).
Proof.
intros H. unfold ensureServerAccess in H. unfold ensureLoggedIn.
destruct (truthy (session_userId req)) as [originalUserId|]; [|done].
set (userId := match truthy (session_impersonating req) with
               | Some other => other
               | None => originalUserId
               end) in *.
set (targetUserId := match truthy (body_userId req) with
                     | Some u => u
                     | None => userId
                     end) in H.
destruct (truthy (body_serverId req)) as [serverId|]; [|done].
destruct (DbFile.findUser userId (appUsers d)) as [user|] eqn:Huser; [|done].
destruct (DbFile.findUser targetUserId (appUsers d)) as [targetUser|] eqn:Htarget; [|done].
destruct (DbFile.findServer serverId (appServers d)) as [server|] eqn:Hserver; [|done].
destruct (negb (String.eqb (s_ownerId server) targetUserId)) eqn:Hown; [done|].
apply negb_false_iff, String.eqb_eq in Hown.
destruct (s_isSuspended server && negb (u_isAdmin user)) eqn:Hsusp; [done|].
destruct (_ || _ || _) eqn:Hmay in H; [|done].
injection H as <-.
cbn [a_serverId a_server a_targetUserId a_userId a_isAdmin a_isServerOwner].
split; [done|]. split; [done|]. split; [by exists user|]. split; [by rewrite Htarget|].
split; [done|]. split; [done|]. split; [done|]. split.
- apply orb_prop in Hmay as [[Hm|Hm]%orb_prop|Hm]; auto.
- intros Hs. rewrite Hs in Hsusp. by destruct (u_isAdmin user).
Qed.

(** A request that has the permission passes the check of the route. *)
Lemma wp_lacksPermission (acc : Access) (requestingUser : option UserRow) (p : bool)
  (Q : bool → World → Prop) (E : JsError → World → Prop) (w : World) :
a_isServerOwner acc = true ∨
  (∃ user, requestingUser = Some user ∧ u_isAdmin user || p = true) →
Q false w → wp (lacksPermission acc requestingUser p) Q E w.
Proof.
intros [Howner|(user & -> & Hmay)] HQ; unfold lacksPermission.
- by rewrite Howner.
- destruct (a_isServerOwner acc); [done|].
  replace (negb (u_isAdmin user) && negb p) with false; [done|].
  by destruct (u_isAdmin user), p.
Qed.

End AccessFacts.

(** X12.  [ensureServerAccess] lets a request through only for the owner of
    the server, an administrator, or a user listed in the server's user
    map.  Whenever it grants access, the server it hands on is the stored
    server of the requested id and belongs to the target user, the
    requesting account exists, the owner and administrator flags it sets
    are those of that account, and a suspended server is handed on to an
    administrator only. *)
Theorem access_granted_only_to_owner_admin_or_member (req : Request) (d : Db) (acc : Access) :
  ensureServerAccess req d = inr acc →
  DbFile.findServer (a_serverId acc) (appServers d) = Some (a_server acc) ∧
  s_id (a_server acc) = a_serverId acc ∧
  s_ownerId (a_server acc) = a_targetUserId acc ∧
  (∃ user, DbFile.findUser (a_userId acc) (appUsers d) = Some user ∧
           u_isAdmin user = a_isAdmin acc) ∧
  a_isServerOwner acc = String.eqb (s_ownerId (a_server acc)) (a_userId acc) ∧
  (a_isServerOwner acc = true ∨ a_isAdmin acc = true ∨
   JsMap.has (a_userId acc) (s_users (a_server acc)) = true) ∧
  (s_isSuspended (a_server acc) = true → a_isAdmin acc = true).
Proof.
  intros H.
  destruct (ensureServerAccess_inr _ _ _ H)
    as (_ & _ & Huser & _ & Hserver & Hown & Howner & Hmay & Hsusp).
  split; [done|]. split; [by apply findServer_Some in Hserver as [? _]|]. done.
Qed.

Lemma access_granted_only_to_owner_admin_or_member_witness :
  let acc := mkAccess "root" "root" "s1" "u1" false true (demoServer true indexJs) in
  DbFile.findServer (a_serverId acc) (appServers (demoDb true indexJs)) = Some (a_server acc) ∧
  s_id (a_server acc) = a_serverId acc ∧
  s_ownerId (a_server acc) = a_targetUserId acc ∧
  (∃ user, DbFile.findUser (a_userId acc) (appUsers (demoDb true indexJs)) = Some user ∧
           u_isAdmin user = a_isAdmin acc) ∧
  a_isServerOwner acc = String.eqb (s_ownerId (a_server acc)) (a_userId acc) ∧
  (a_isServerOwner acc = true ∨ a_isAdmin acc = true ∨
   JsMap.has (a_userId acc) (s_users (a_server acc)) = true) ∧
  (s_isSuspended (a_server acc) = true → a_isAdmin acc = true).
Proof.
  intros acc.
  apply (access_granted_only_to_owner_admin_or_member adminRequest (demoDb true indexJs) acc).
  reflexivity.
Defined.

(** X13.  [/stop-server] for a key with no registered process is answered
    "already stopped" and does nothing at all: no signal, no console line,
    no removal of the working directory (whatever the removal would have
    answered), no event. *)
Theorem stop_of_a_stopped_server_changes_nothing
    (req : Request) (removeDir : FsOutcome) (w : World) (acc : Access) :
  ensureServerAccess req (db w) = inr acc →
  a_isServerOwner acc || a_isAdmin acc ||
    editSettings (permissionsOf (a_server acc) (a_userId acc)) = true →
  registryGet (a_targetUserId acc) (a_serverId acc) w = None →
  postStopServer req removeDir w = (w, Normal ErrAlreadyStopped).
Proof.
  intros Haccess Hmay Hreg.
  unfold postStopServer, guarded, mbind, Run_bind, getWorld. rewrite Haccess.
  replace (negb (a_isServerOwner acc) && negb (a_isAdmin acc) &&
           negb (editSettings (permissionsOf (a_server acc) (a_userId acc))))
    with false
    by (by destruct (a_isServerOwner acc), (a_isAdmin acc),
             (editSettings (permissionsOf (a_server acc) (a_userId acc)))).
  by rewrite Hreg.
Qed.

Lemma stop_of_a_stopped_server_changes_nothing_witness :
  postStopServer ownerRequest (FsFails "EBUSY") (bootedWorld false indexJs) =
    (bootedWorld false indexJs, Normal ErrAlreadyStopped).
Proof.
  apply (stop_of_a_stopped_server_changes_nothing ownerRequest (FsFails "EBUSY")
           (bootedWorld false indexJs)
           (mkAccess "u1" "u1" "s1" "u1" true false (demoServer false indexJs)));
    reflexivity.
Defined.

(** X14.  A [/stop-server] that goes through (a process is registered for
    the key, its console buffer exists and the working directory can be
    removed) is answered "stopped"; the registered child gets one SIGTERM
    and no other child gets a signal; the registry entry of the key is
    gone and every other entry is as it was; the console page shows the
    server as stopped; the buffer of the key ends with the stop line; and
    the viewers of the key, and only they, are sent the stop text. *)
Theorem stop_server_stops_the_registered_process
    (req : Request) (w : World) (acc : Access) (handle : Pid) (logs : list Line) :
  ensureServerAccess req (db w) = inr acc →
  a_isServerOwner acc || a_isAdmin acc ||
    editSettings (permissionsOf (a_server acc) (a_userId acc)) = true →
  registryGet (a_targetUserId acc) (a_serverId acc) w = Some handle →
  consoleLogs w !! logKeyOf (a_targetUserId acc) (a_serverId acc) = Some logs →
  ∃ w' : World,
    postStopServer req FsDone w = (w', Normal OkStopped) ∧
    children w' = signalChild handle SIGTERM (children w) ∧
    (∀ u s, registryGet u s w' =
            if bool_decide ((u, s) = (a_targetUserId acc, a_serverId acc)) then None
            else registryGet u s w) ∧
    shownAsRunning (a_targetUserId acc) (a_serverId acc) w' = false ∧
    consoleLogs w' !! logKeyOf (a_targetUserId acc) (a_serverId acc) =
      Some (trimLogs (logs ++ [LStopped])) ∧
    viewers w' =
      map (λ v, if watches (a_targetUserId acc) (a_serverId acc) v
                then deliver PStoppedText v else v) (viewers w).
Proof.
  intros Haccess Hmay Hreg Hlogs.
  destruct (registryGet_Some _ _ _ _ Hreg) as (perUser & Huser & _).
  set (u := a_targetUserId acc) in *. set (s := a_serverId acc) in *.
  assert (Hwp : wp (postStopServer req FsDone)
    (λ answer w', answer = OkStopped ∧
       children w' = signalChild handle SIGTERM (children w) ∧
       (∀ u' s', registryGet u' s' w' =
                 if bool_decide ((u', s') = (u, s)) then None else registryGet u' s' w) ∧
       shownAsRunning u s w' = false ∧
       consoleLogs w' !! logKeyOf u s = Some (trimLogs (logs ++ [LStopped])) ∧
       viewers w' = map (λ v, if watches u s v then deliver PStoppedText v else v) (viewers w))
    (λ _ _, False) w).
  { unfold postStopServer. eapply wp_guarded; [exact Haccess|]. cbv zeta. fold u s.
    replace (negb (a_isServerOwner acc) && negb (a_isAdmin acc) &&
             negb (editSettings (permissionsOf (a_server acc) (a_userId acc))))
      with false
      by (by destruct (a_isServerOwner acc), (a_isAdmin acc),
               (editSettings (permissionsOf (a_server acc) (a_userId acc)))).
    apply wp_bind, wp_getWorld. rewrite Hreg.
    apply wp_bind, wp_modify.
    apply wp_bind. eapply wp_registryDelete; [exact Huser|].
    apply wp_bind, wp_modify.
    apply wp_bind. eapply wp_consolePush; [exact Hlogs|].
    apply wp_bind, wp_modify, wp_bind, wp_modify.
    apply wp_bind, wp_fsCall_done, wp_bind, wp_modify, wp_bind, wp_modify, wp_ret.
    assert (Hgone : ∀ u' s' w0, runningProcesses w0 = runningProcesses w →
      registryGet u' s' (withRunningProcesses (insert u (delete s perUser)) w0) =
      if bool_decide ((u', s') = (u, s)) then None else registryGet u' s' w).
    { intros u' s' w0 Hw0. rewrite registryGet_after_delete by (by rewrite Hw0).
      unfold registryGet. by rewrite Hw0. }
    split; [done|]. split; [done|]. split; [|split; [|split]].
    - intros u' s'. rewrite <- (Hgone u' s' w eq_refl). done.
    - unfold shownAsRunning. world_simpl.
      rewrite getProcessState_setProcessState. cbn [isRunning orb].
      change (registryGet u s _) with
        (registryGet u s (withRunningProcesses (insert u (delete s perUser)) w)).
      rewrite (Hgone u s w eq_refl). by rewrite bool_decide_eq_true_2.
    - world_simpl. by rewrite lookup_alter_eq, lookup_insert_eq.
    - done. }
  apply wp_result in Hwp as (w' & [answer|e] & Hrun & Hpost); [|done].
  destruct Hpost as (-> & H). by exists w'.
Qed.

Lemma stop_server_stops_the_registered_process_witness :
  let acc := mkAccess "u1" "u1" "s1" "u1" true false (demoServer false indexJs) in
  ∃ w' : World,
    postStopServer ownerRequest FsDone runningWorld = (w', Normal OkStopped) ∧
    children w' = signalChild 0 SIGTERM (children runningWorld) ∧
    (∀ u s, registryGet u s w' =
            if bool_decide ((u, s) = (a_targetUserId acc, a_serverId acc)) then None
            else registryGet u s runningWorld) ∧
    shownAsRunning (a_targetUserId acc) (a_serverId acc) w' = false ∧
    consoleLogs w' !! logKeyOf (a_targetUserId acc) (a_serverId acc) =
      Some (trimLogs ([LPreparing; LStarted "3000"] ++ [LStopped])) ∧
    viewers w' =
      map (λ v, if watches (a_targetUserId acc) (a_serverId acc) v
                then deliver PStoppedText v else v) (viewers runningWorld).
Proof.
  intros acc.
  apply (stop_server_stops_the_registered_process ownerRequest runningWorld acc 0
           [LPreparing; LStarted "3000"]); vm_compute; reflexivity.
Defined.

(* ===================================================================== *)
(** ** Killing a server, and the listeners of a child *)
(* ===================================================================== *)

Ltac console_lookup :=
  world_simpl; rewrite ?lookup_alter_eq, ?lookup_insert_eq;
  first [eassumption | reflexivity | (cbn [fmap option_fmap option_map]; reflexivity)].

Ltac wp_step :=
  lazymatch goal with
  | |- wp (_ ≫= _) _ _ _ => apply wp_bind
  | |- wp (mret _) _ _ _ => apply wp_ret
  | |- wp (throw _) _ _ _ => apply wp_throw
  | |- wp getWorld _ _ _ => apply wp_getWorld
  | |- wp (modify _) _ _ _ => apply wp_modify
  | |- wp (tryCatch _ _) _ _ _ => apply wp_tryCatch
  | |- wp (ignoreFailure _) _ _ _ => apply wp_ignoreFailure
  | |- wp (detach _) _ _ _ => apply wp_detach
  | |- wp (consolePush _ _) _ _ _ => eapply wp_consolePush; [console_lookup|]
  | |- wp (consoleTrim _) _ _ _ => apply wp_modify
  | |- wp (consoleReset _) _ _ _ => apply wp_modify
  | |- wp (broadcast _ _ _) _ _ _ => apply wp_modify
  | |- wp (kill _ _) _ _ _ => apply wp_modify
  | |- wp (saveConsoleLog _ _ _) _ _ _ => apply wp_modify
  | |- wp (clearConsoleLogs _ _) _ _ _ => apply wp_modify
  | |- wp (setProcessState _ _ _ _) _ _ _ => apply wp_modify
  | |- wp (logServerEvent _ _ _) _ _ _ => apply wp_modify
  | |- wp (registryDeleteOptional _ _) _ _ _ => unfold registryDeleteOptional
  | |- wp (registryDelete _ _) _ _ _ =>
      eapply wp_registryDelete; [world_simpl; eassumption|]
  | |- wp (fsCall FsDone) _ _ _ => apply wp_fsCall_done
  | |- wp (spawn _ _) _ _ _ => apply wp_spawn
  | |- wp (registrySet _ _ _) _ _ _ => apply wp_modify
  end.

Ltac wp_steps := repeat wp_step.

Lemma trimLogs_alter_insert (key : string) (logs : list Line)
  (m : gmap string (list Line)) :
alter trimLogs key (<[key := logs]> m) !! key = Some (trimLogs logs).
Proof. by rewrite lookup_alter_eq, lookup_insert_eq. Qed.

Lemma registryGet_deleted (u s u' s' : string) (perUser : gmap string Pid) (w1 w2 : World) :
runningProcesses w1 !! u = Some perUser →
runningProcesses w2 = <[u := delete s perUser]> (runningProcesses w1) →
registryGet u' s' w2 =
if bool_decide ((u', s') = (u, s)) then None else registryGet u' s' w1.
Proof.
intros Hmap Hw2. rewrite <- (registryGet_after_delete u s u' s' perUser w1 Hmap).
unfold registryGet. by rewrite Hw2.
Qed.

(** X15.  A permitted [/kill-server] always answers, whatever the signal and the
    removal of the working directory do: "kill sent" when a process is
    registered for the key, "was not running" when none is.  Afterwards the
    registry has no entry for the key and every other entry is as it was;
    the registered child got SIGKILL if the signal could be sent, and no
    other child got a signal; the stored process state is not written, so
    the console page goes on showing what the stored state says. *)
Theorem kill_server_always_answers
    (req : Request) (env : KillEnv) (w : World) (acc : Access) :
  ensureServerAccess req (db w) = inr acc →
  (a_isServerOwner acc = true ∨
   ∃ requestingUser,
     DbFile.findUser (a_originalUserId acc) (appUsers (db w)) = Some requestingUser ∧
     u_isAdmin requestingUser ||
       editSettings (permissionsOf (a_server acc) (a_originalUserId acc)) = true) →
  ∃ w' : World,
    postKillServer req env w =
      (w', Normal (match registryGet (a_targetUserId acc) (a_serverId acc) w with
                   | Some _ => OkKillSent
                   | None => ErrWasNotRunning
                   end)) ∧
    (∀ u s, registryGet u s w' =
            if bool_decide ((u, s) = (a_targetUserId acc, a_serverId acc)) then None
            else registryGet u s w) ∧
    children w' =
      match registryGet (a_targetUserId acc) (a_serverId acc) w, sendSignal env with
      | Some serverProcess, None => signalChild serverProcess SIGKILL (children w)
      | _, _ => children w
      end ∧
    appProcessState (db w') = appProcessState (db w) ∧
    shownAsRunning (a_targetUserId acc) (a_serverId acc) w' =
      isRunning (DbFile.getProcessState (a_targetUserId acc) (a_serverId acc)
                   (appProcessState (db w))).
Proof.
  intros Haccess Hmay.
  set (u := a_targetUserId acc) in *. set (s := a_serverId acc) in *.
  set (answer := match registryGet u s w with
                 | Some _ => OkKillSent
                 | None => ErrWasNotRunning
                 end).
  set (Post := λ w' : World,
    (∀ u' s', registryGet u' s' w' =
              if bool_decide ((u', s') = (u, s)) then None else registryGet u' s' w) ∧
    children w' =
      match registryGet u s w, sendSignal env with
      | Some serverProcess, None => signalChild serverProcess SIGKILL (children w)
      | _, _ => children w
      end ∧
    appProcessState (db w') = appProcessState (db w)).
  assert (Hwp : wp (postKillServer req env)
                  (λ r w', r = answer ∧ Post w') (λ _ _, False) w).
  { unfold postKillServer. eapply wp_guarded; [exact Haccess|]. cbv zeta. fold u s.
    wp_step. wp_step. wp_step. apply wp_lacksPermission; [exact Hmay|].
    wp_step. apply wp_initializeServerLogs.
    intros w1 Hlogs1 (Hchildren & Hregistry & Hstate & _) _.
    wp_step. wp_step. rewrite (Hregistry u s). subst answer.
    destruct (registryGet u s w) as [serverProcess|] eqn:Hreg.
    - assert (Hreg1 : registryGet u s w1 = Some serverProcess) by (by rewrite Hregistry).
      destruct (registryGet_Some _ _ _ _ Hreg1) as (perUser & Hmap & _).
      assert (Hdone : ∀ w2 : World,
        runningProcesses w2 = <[u := delete s perUser]> (runningProcesses w1) →
        appProcessState (db w2) = appProcessState (db w1) →
        children w2 =
          match sendSignal env with
          | None => signalChild serverProcess SIGKILL (children w)
          | Some _ => children w
          end →
        Post w2).
      { intros w2 Hr2 Hs2 Hc2. split; [|split].
        - intros u' s'. rewrite (registryGet_deleted u s u' s' perUser w1 w2 Hmap Hr2).
          by rewrite Hregistry.
        - done.
        - by rewrite Hs2. }
      wp_steps.
      destruct (sendSignal env) as [message|] eqn:Hsignal.
      + wp_steps. apply wp_fsCall; intros; wp_steps; (split; [done|]);
          apply Hdone; world_simpl; first [reflexivity | assumption].
      + wp_steps. apply wp_fsCall; intros; wp_steps; (split; [done|]);
          apply Hdone; world_simpl; first [reflexivity | by rewrite Hchildren].
    - wp_steps. apply wp_fsCall; intros; wp_steps; (split; [done|]); (split; [|split]).
      all: try (world_simpl; done).
      all: intros u' s'; case_bool_decide as Heq.
      all: try (injection Heq as -> ->; rewrite <- Hreg, <- Hregistry; reflexivity).
      all: rewrite <- Hregistry; reflexivity. }
  apply wp_result in Hwp as (w' & [r|e] & Hrun & Hpost); [|done].
  destruct Hpost as (-> & Hregistry & Hchildren & Hstate).
  exists w'. split; [done|]. split; [done|]. split; [done|]. split; [done|].
  unfold shownAsRunning. rewrite Hstate, (Hregistry u s), bool_decide_eq_true_2 by done.
  apply orb_false_r.
Qed.

Lemma kill_server_always_answers_witness :
  let acc := mkAccess "u1" "u1" "s1" "u1" true false (demoServer false indexJs) in
  let env := mkKillEnv (Some "kill ESRCH") (FsFails "EBUSY") in
  ∃ w' : World,
    postKillServer ownerRequest env runningWorld =
      (w', Normal (match registryGet (a_targetUserId acc) (a_serverId acc) runningWorld with
                   | Some _ => OkKillSent
                   | None => ErrWasNotRunning
                   end)) ∧
    (∀ u s, registryGet u s w' =
            if bool_decide ((u, s) = (a_targetUserId acc, a_serverId acc)) then None
            else registryGet u s runningWorld) ∧
    children w' =
      match registryGet (a_targetUserId acc) (a_serverId acc) runningWorld, sendSignal env with
      | Some serverProcess, None => signalChild serverProcess SIGKILL (children runningWorld)
      | _, _ => children runningWorld
      end ∧
    appProcessState (db w') = appProcessState (db runningWorld) ∧
    shownAsRunning (a_targetUserId acc) (a_serverId acc) w' =
      isRunning (DbFile.getProcessState (a_targetUserId acc) (a_serverId acc)
                   (appProcessState (db runningWorld))).
Proof.
  intros acc env.
  apply (kill_server_always_answers ownerRequest env runningWorld acc);
    [vm_compute; reflexivity | left; reflexivity].
Defined.

(** After a forced kill the page still shows the server as running. *)
Example killed_server_is_still_shown_as_running :
  let w' := fst (postKillServer ownerRequest (mkKillEnv None FsDone) runningWorld) in
  registryGet "u1" "s1" w' = None ∧
  (child_signals <$> findChild 0 w') = Some [SIGKILL] ∧
  shownAsRunning "u1" "s1" w' = true.
Proof. vm_compute. done. Qed.


(** What the ['close'] listener leaves behind. *)
Lemma onChildClose_spec
    (u s : string) (code : option Z) (removeDir : FsOutcome) (w : World)
    (logs : list Line) (perUser : gmap string Pid) :
  consoleLogs w !! logKeyOf u s = Some logs →
  runningProcesses w !! u = Some perUser →
  ∃ w' : World,
    onChildClose u s code removeDir w = (w', Normal ()) ∧
    (∀ u' s', registryGet u' s' w' =
              if bool_decide ((u', s') = (u, s)) then None else registryGet u' s' w) ∧
    appProcessState (db w') =
      DbFile.setProcessState u s false None (appProcessState (db w)) ∧
    appConsoleLogs (db w') = appConsoleLogs (db w) ∧
    children w' = children w ∧
    consoleLogs w' !! logKeyOf u s = Some (newest maxLogSize (logs ++ [LClosed code])) ∧
    viewers w' =
      map (λ v, if watches u s v then deliver (PLine (LClosed code)) v else v) (viewers w).
Proof.
  intros Hlogs Hmap.
  assert (Hwp : wp (onChildClose u s code removeDir)
    (λ _ w',
       (∀ u' s', registryGet u' s' w' =
                 if bool_decide ((u', s') = (u, s)) then None else registryGet u' s' w) ∧
       appProcessState (db w') =
         DbFile.setProcessState u s false None (appProcessState (db w)) ∧
       appConsoleLogs (db w') = appConsoleLogs (db w) ∧
       children w' = children w ∧
       consoleLogs w' !! logKeyOf u s = Some (newest maxLogSize (logs ++ [LClosed code])) ∧
       viewers w' =
         map (λ v, if watches u s v then deliver (PLine (LClosed code)) v else v) (viewers w))
    (λ _ _, False) w).
  { unfold onChildClose. cbv zeta. wp_steps.
    apply wp_fsCall; intros; wp_steps.
    all: split; [intros u' s'; by apply (registryGet_deleted u s u' s' perUser w)|].
    all: world_simpl; split; [done|]; split; [done|]; split; [done|]; split; [|done].
    all: by rewrite lookup_alter_eq, lookup_insert_eq, <- cap_newest. }
  apply wp_result in Hwp as (w' & [[]|e] & Hrun & Hpost); [|done].
  by exists w'.
Qed.

(** X17.  When the child closes, the listener completes whatever the
    removal of the working directory answers; the registry entry of the
    key is gone, whichever handle it held, and no other entry changes; the
    stored state of the key is "not running", so the console page shows
    the server as stopped; no child gets a signal; the buffer of the key
    ends with the exit line and the viewers of the key are sent it. *)
Theorem child_close_marks_the_server_stopped
    (u s : string) (code : option Z) (removeDir : FsOutcome) (w : World)
    (logs : list Line) (perUser : gmap string Pid) :
  consoleLogs w !! logKeyOf u s = Some logs →
  runningProcesses w !! u = Some perUser →
  ∃ w' : World,
    onChildClose u s code removeDir w = (w', Normal ()) ∧
    (∀ u' s', registryGet u' s' w' =
              if bool_decide ((u', s') = (u, s)) then None else registryGet u' s' w) ∧
    DbFile.getProcessState u s (appProcessState (db w')) = mkProcessState false None ∧
    shownAsRunning u s w' = false ∧
    children w' = children w ∧
    consoleLogs w' !! logKeyOf u s = Some (newest maxLogSize (logs ++ [LClosed code])) ∧
    viewers w' =
      map (λ v, if watches u s v then deliver (PLine (LClosed code)) v else v) (viewers w).
Proof.
  intros Hlogs Hmap.
  destruct (onChildClose_spec u s code removeDir w logs perUser Hlogs Hmap)
    as (w' & Hrun & Hregistry & Hstate & _ & Hchildren & Hconsole & Hviewers).
  assert (Hget : DbFile.getProcessState u s (appProcessState (db w')) =
                 mkProcessState false None).
  { rewrite Hstate. apply getProcessState_setProcessState. }
  exists w'. repeat (split; [done|]). split; [|done].
  unfold shownAsRunning. rewrite Hget, (Hregistry u s), bool_decide_eq_true_2 by done. done.
Qed.

Lemma child_close_marks_the_server_stopped_witness :
  ∃ w' : World,
    onChildClose "u1" "s1" (Some 1%Z) (FsFails "EBUSY") runningWorld = (w', Normal ()) ∧
    (∀ u' s', registryGet u' s' w' =
              if bool_decide ((u', s') = ("u1", "s1")) then None
              else registryGet u' s' runningWorld) ∧
    DbFile.getProcessState "u1" "s1" (appProcessState (db w')) = mkProcessState false None ∧
    shownAsRunning "u1" "s1" w' = false ∧
    children w' = children runningWorld ∧
    consoleLogs w' !! logKeyOf "u1" "s1" =
      Some (newest maxLogSize ([LPreparing; LStarted "3000"] ++ [LClosed (Some 1%Z)])) ∧
    viewers w' =
      map (λ v, if watches "u1" "s1" v then deliver (PLine (LClosed (Some 1%Z))) v else v)
        (viewers runningWorld).
Proof.
  apply (child_close_marks_the_server_stopped "u1" "s1" (Some 1%Z) (FsFails "EBUSY")
           runningWorld [LPreparing; LStarted "3000"] {["s1" := 0]});
    vm_compute; reflexivity.
Defined.

(* ===================================================================== *)
(** ** A viewer connects *)
(* ===================================================================== *)

Section ViewerFacts.

(** Sending to the socket [id] reaches the socket of that id at the end of
    the list, and no socket with another id. *)
Lemma sendTo_last (id : nat) (p : Push) (vs : list Viewer) (v : Viewer) :
Forall (λ v', ws_id v' ≠ id) vs → ws_id v = id → ws_open v = true →
map (λ v, if Nat.eqb (ws_id v) id && ws_open v then deliver p v else v) (vs ++ [v]) =
vs ++ [deliver p v].
Proof.
intros Hvs Hid Hopen. rewrite map_app. simpl.
rewrite Hid, Nat.eqb_refl, Hopen. simpl. f_equal.
induction Hvs as [|v' vs Hv' _ IH]; [done|]. simpl.
apply Nat.eqb_neq in Hv'. by rewrite Hv', IH.
Qed.

Lemma sendAll_last (id : nat) (lines : list Line) (w : World) (vs : list Viewer)
  (userId serverId : option string) (listeners : list (WsEvent * WsListener))
  (received : list Push) :
Forall (λ v', ws_id v' ≠ id) vs →
viewers w = vs ++ [mkViewer id userId serverId true listeners received] →
sendAll id lines w =
(withViewers (λ _, vs ++ [mkViewer id userId serverId true listeners
                            (received ++ map PLine lines)]) w, Normal ()).
Proof.
intros Hvs. revert w received. induction lines as [|l lines IH]; intros w received Hw.
- simpl. rewrite app_nil_r. unfold mret, Run_ret. f_equal.
  destruct w. unfold withViewers. simpl in *. by rewrite Hw.
- cbn [sendAll]. unfold mbind, Run_bind, sendTo, modify.
  rewrite (IH _ (received ++ [PLine l])).
  + simpl. rewrite <- app_assoc. done.
  + world_simpl. rewrite Hw. by rewrite sendTo_last.
Qed.

End ViewerFacts.

(** X18.  A viewer that connects with a user id and a server id is sent
    the stored console lines of that pair, the newest one hundred at most,
    oldest first, and nothing else; no other socket is sent anything; the
    connection touches no process and stores nothing; and the one listener
    the socket ends up with is the one for ['close']. *)
Theorem new_viewer_is_sent_the_recent_lines
    (id : nat) (userId serverId : option string) (u s : string) (w : World) :
  truthy userId = Some u →
  truthy serverId = Some s →
  Forall (λ v, ws_id v ≠ id) (viewers w) →
  ∃ w' : World,
    wsConnection id userId serverId w = (w', Normal ()) ∧
    viewers w' =
      viewers w ++
      [mkViewer id userId serverId true [(EvClose, CloseListener)]
         (map PLine (DbFile.getRecentConsoleLogs u s 100 (appConsoleLogs (db w))))] ∧
    appConsoleLogs (db w') = appConsoleLogs (db w) ∧
    sameProcesses w w'.
Proof.
  intros Hu Hs Hfresh.
  unfold wsConnection, mbind, Run_bind. rewrite Hu, Hs. cbn [modify].
  set (w0 := withViewers _ w).
  destruct (initializeServerLogs_spec u s w0) as (w1 & Hinit & _ & _ & Hsame & Hrows & Hviewers).
  rewrite Hinit. cbn [getWorld].
  rewrite (sendAll_last id _ w1 (viewers w) userId serverId [] []); [|done|by rewrite Hviewers].
  cbn [wsOn modify]. eexists. split; [reflexivity|]. world_simpl.
  split; [|split].
  - rewrite map_app. simpl. rewrite Nat.eqb_refl. f_equal; [|by rewrite Hrows].
    induction Hfresh as [|v vs Hv _ IH]; [done|]. simpl.
    apply Nat.eqb_neq in Hv. by rewrite Hv, IH.
  - by rewrite Hrows.
  - eapply sameProcesses_step; [exact Hsame|done..].
Qed.

Lemma new_viewer_is_sent_the_recent_lines_witness :
  ∃ w' : World,
    wsConnection 7 (Some "u1") (Some "s1") runningWorld = (w', Normal ()) ∧
    viewers w' =
      viewers runningWorld ++
      [mkViewer 7 (Some "u1") (Some "s1") true [(EvClose, CloseListener)]
         (map PLine (DbFile.getRecentConsoleLogs "u1" "s1" 100
                       (appConsoleLogs (db runningWorld))))] ∧
    appConsoleLogs (db w') = appConsoleLogs (db runningWorld) ∧
    sameProcesses runningWorld w'.
Proof.
  apply (new_viewer_is_sent_the_recent_lines 7 (Some "u1") (Some "s1") "u1" "s1" runningWorld);
    [reflexivity | reflexivity | vm_compute; constructor].
Defined.

(* ===================================================================== *)
(** ** The console buffer of a key *)
(* ===================================================================== *)

(** X19.  [initializeServerLogs] only fills in what is missing.  It
    always completes; a console buffer that exists keeps its lines and a
    missing one is created empty; the buffers of other keys, every registry
    entry, the database, the children and the viewers are as they were; the
    user has a registry map afterwards; a start time other than zero is
    kept and a missing one is set to the clock; and where the buffer, the
    user's registry map and a start time other than zero are there already,
    the call changes nothing. *)
Theorem initializeServerLogs_only_fills_in (u s : string) (w : World) :
  (∃ w' : World,
     initializeServerLogs u s w = (w', Normal ()) ∧
     consoleLogs w' !! logKeyOf u s = Some (default [] (consoleLogs w !! logKeyOf u s)) ∧
     (∀ key, key ≠ logKeyOf u s → consoleLogs w' !! key = consoleLogs w !! key) ∧
     (∀ u' s', registryGet u' s' w' = registryGet u' s' w) ∧
     is_Some (runningProcesses w' !! u) ∧
     serverStartTime w' !! logKeyOf u s =
       Some (match serverStartTime w !! logKeyOf u s with
             | Some t => if (t =? 0)%Z then clock w else t
             | None => clock w
             end) ∧
     db w' = db w ∧ children w' = children w ∧ viewers w' = viewers w) ∧
  (∀ logs perUser t,
     consoleLogs w !! logKeyOf u s = Some logs →
     runningProcesses w !! u = Some perUser →
     serverStartTime w !! logKeyOf u s = Some t → t ≠ 0%Z →
     initializeServerLogs u s w = (w, Normal ())).
Proof.
  split.
  - eexists. split; [reflexivity|]. simpl.
    set (key := logKeyOf u s).
    set (w1 := match consoleLogs w !! key with
               | None => withConsoleLogs (insert key []) w
               | Some _ => w
               end).
    set (w2 := match runningProcesses w1 !! u with
               | None => withRunningProcesses (insert u ∅) w1
               | Some _ => w1
               end).
    assert (H1 : consoleLogs w1 !! key = Some (default [] (consoleLogs w !! key)) ∧
                 (∀ k, k ≠ key → consoleLogs w1 !! k = consoleLogs w !! k) ∧
                 runningProcesses w1 = runningProcesses w ∧
                 serverStartTime w1 = serverStartTime w ∧ clock w1 = clock w ∧
                 db w1 = db w ∧ children w1 = children w ∧ viewers w1 = viewers w).
    { subst w1. destruct (consoleLogs w !! key) eqn:E; world_simpl.
      - by repeat split.
      - rewrite lookup_insert_eq. repeat split; try done.
        intros k Hk. by rewrite lookup_insert_ne. }
    destruct H1 as (Hkey & Hother & Hreg1 & Hsst1 & Hclock1 & Hdb1 & Hch1 & Hvs1).
    assert (H2 : consoleLogs w2 = consoleLogs w1 ∧
                 (∀ u' s', registryGet u' s' w2 = registryGet u' s' w1) ∧
                 is_Some (runningProcesses w2 !! u) ∧
                 serverStartTime w2 = serverStartTime w1 ∧ clock w2 = clock w1 ∧
                 db w2 = db w1 ∧ children w2 = children w1 ∧ viewers w2 = viewers w1).
    { split; [subst w2; by destruct (runningProcesses w1 !! u)|].
      split; [intros u' s'; apply registryGet_initialized|].
      split; [|subst w2; by destruct (runningProcesses w1 !! u)].
      subst w2. destruct (runningProcesses w1 !! u) eqn:E; world_simpl.
      - by rewrite E.
      - by rewrite lookup_insert_eq. }
    destruct H2 as (Hcl2 & Hreg2 & Hsome2 & Hsst2 & Hclock2 & Hdb2 & Hch2 & Hvs2).
    assert (Hreg : ∀ u' s', registryGet u' s' w2 = registryGet u' s' w).
    { intros u' s'. rewrite Hreg2. unfold registryGet. by rewrite Hreg1. }
    rewrite Hsst2, Hsst1, Hclock2, Hclock1.
    destruct (serverStartTime w !! key) as [t|] eqn:E3; [destruct (t =? 0)%Z|];
      world_simpl; unfold registryGet in *; world_simpl;
      rewrite ?lookup_insert_eq, ?Hcl2, ?Hsst2, ?Hsst1, ?E3, ?Hdb2, ?Hch2, ?Hvs2;
      repeat split; try done; try congruence.
    all: intros k Hk; rewrite <- Hother by done; done.
  - intros logs perUser t Hlogs Hmap Htime Ht.
    unfold initializeServerLogs, modify. rewrite Hlogs, Hmap, Htime.
    apply Z.eqb_neq in Ht. by rewrite Ht.
Qed.

(* ===================================================================== *)
(** ** Creating a server *)
(* ===================================================================== *)

Section ServerRecordFacts.

Lemma findServer_saveServer (server : Server) (servers : list Server) :
s_id server ≠ "" →
DbFile.findServer (s_id server) (saveServer server servers) = Some server.
Proof.
intros Hid. unfold DbFile.findServer, saveServer.
apply String.eqb_neq in Hid. rewrite Hid.
apply (find_upsert_hit (λ s, String.eqb (s_id s) (s_id server))), String.eqb_refl.
Qed.

Lemma findServer_saveServer_other (id : string) (server : Server) (servers : list Server) :
id ≠ s_id server →
DbFile.findServer id (saveServer server servers) = DbFile.findServer id servers.
Proof.
intros Hne. unfold DbFile.findServer, saveServer.
destruct (String.eqb id ""); [done|].
apply find_upsert_other.
- by apply String.eqb_neq, not_eq_sym.
- intros x Hx. apply String.eqb_eq in Hx. apply String.eqb_neq. congruence.
Qed.

Lemma findServer_deleteServer_other (id id' : string) (servers : list Server) :
id' ≠ id →
DbFile.findServer id' (DbFile.deleteServer id servers) = DbFile.findServer id' servers.
Proof.
intros Hne. unfold DbFile.findServer, DbFile.deleteServer.
destruct (String.eqb id' ""); [done|]. destruct (String.eqb id ""); [done|].
apply (find_filter_other (λ s, String.eqb (s_id s) id)).
intros x Hx. apply String.eqb_eq in Hx. apply String.eqb_neq. congruence.
Qed.

Lemma ensureLoggedIn_Some (req : Request) (userId : string) :
ensureLoggedIn req = Some userId →
∃ originalUserId,
  truthy (session_userId req) = Some originalUserId ∧
  userId = match truthy (session_impersonating req) with
           | Some other => other
           | None => originalUserId
           end.
Proof.
unfold ensureLoggedIn. destruct (truthy (session_userId req)) as [o|]; [|done].
intros [= <-]. by exists o.
Qed.

End ServerRecordFacts.

(** X20.  [/create-server] never refuses a name that is taken.  The
    look-up that should find a server of the same name and owner hands
    [findOne] a query without an id, and [findOne] answers [null] for every
    such query; so for every logged-in request with a name that is not
    blank the server is created, whatever servers there are.  The new
    server is stored under the fresh id with the given name, owned by the
    account of the request, not suspended, with that account as its only
    user holding every permission, without files and startup settings;
    the other servers, the processes and the registry are untouched; and
    the owner's next request for it passes the access check as owner. *)
Theorem create_server_ignores_taken_names
    (req : Request) (serverName : option string) (name userId newId : string) (w : World) :
  ensureLoggedIn req = Some userId →
  truthy serverName = Some name →
  isBlank name = false →
  newId ≠ "" →
  let newServer :=
    mkServer newId name userId false
      [(userId, mkPermissions true true true true true true true true true)] [] [] in
  ∃ w' : World,
    postCreateServer req serverName newId w = (w', Normal CsCreated) ∧
    DbFile.findServer newId (appServers (db w')) = Some newServer ∧
    (∀ id, id ≠ newId →
           DbFile.findServer id (appServers (db w')) = DbFile.findServer id (appServers (db w))) ∧
    children w' = children w ∧ runningProcesses w' = runningProcesses w ∧
    appUsers (db w') = appUsers (db w) ∧
    (is_Some (DbFile.findUser userId (appUsers (db w))) →
     ∃ acc, ensureServerAccess
              (mkRequest (session_userId req) (session_impersonating req) None (Some newId))
              (db w') = inr acc ∧
            a_isServerOwner acc = true ∧ a_server acc = newServer).
Proof.
  intros Hlogged Hname Hblank Hid newServer.
  unfold postCreateServer, mbind, Run_bind, getWorld, findOneServer.
  rewrite Hlogged, Hname, Hblank. cbn [q_id modify logServerEvent mret Run_ret].
  fold newServer. eexists. split; [reflexivity|]. world_simpl.
  assert (Hfound : DbFile.findServer newId (saveServer newServer (appServers (db w))) =
                   Some newServer) by (by apply (findServer_saveServer newServer)).
  split; [exact Hfound|]. split.
  { intros id Hne. by apply (findServer_saveServer_other id newServer). }
  split; [done|]. split; [done|]. split; [reflexivity|].
  intros [user Huser].
  destruct (ensureLoggedIn_Some _ _ Hlogged) as (originalUserId & Horig & HuserId).
  unfold ensureServerAccess. cbn [session_userId session_impersonating body_userId body_serverId].
  rewrite Horig, <- HuserId. cbn [truthy]. apply String.eqb_neq in Hid. rewrite Hid.
  world_simpl. rewrite Huser, Hfound.
  unfold newServer at 1 2 3 4. cbn [s_ownerId s_isSuspended s_users].
  rewrite String.eqb_refl.
  cbn [negb andb orb]. eexists. split; [reflexivity|].
  cbn [a_isServerOwner a_server s_ownerId]. by rewrite String.eqb_refl.
Qed.

Lemma create_server_ignores_taken_names_witness :
  let newServer :=
    mkServer "s2" "bot" "u1" false
      [("u1", mkPermissions true true true true true true true true true)] [] [] in
  ∃ w' : World,
    postCreateServer ownerRequest (Some "bot") "s2" runningWorld = (w', Normal CsCreated) ∧
    DbFile.findServer "s2" (appServers (db w')) = Some newServer ∧
    (∀ id, id ≠ "s2" →
           DbFile.findServer id (appServers (db w')) =
           DbFile.findServer id (appServers (db runningWorld))) ∧
    children w' = children runningWorld ∧
    runningProcesses w' = runningProcesses runningWorld ∧
    appUsers (db w') = appUsers (db runningWorld) ∧
    (is_Some (DbFile.findUser "u1" (appUsers (db runningWorld))) →
     ∃ acc, ensureServerAccess
              (mkRequest (session_userId ownerRequest) (session_impersonating ownerRequest)
                 None (Some "s2"))
              (db w') = inr acc ∧
            a_isServerOwner acc = true ∧ a_server acc = newServer).
Proof.
  apply (create_server_ignores_taken_names ownerRequest (Some "bot") "bot" "u1" "s2"
           runningWorld); first [reflexivity | discriminate].
Defined.

(** The owner of the server [bot] creates a second server of that name. *)
Example two_servers_of_one_name :
  let w' := fst (postCreateServer ownerRequest (Some "bot") "s2" (bootedWorld false indexJs)) in
  map (λ s, (s_id s, s_name s, s_ownerId s)) (appServers (db w')) =
    [("s1", "bot", "u1"); ("s2", "bot", "u1")].
Proof. reflexivity. Qed.

(* ===================================================================== *)
(** ** The users of a server *)
(* ===================================================================== *)

Section MemberFacts.

Lemma wp_usersRoute (req : Request) (route : Access → Run UsersAnswer) (acc : Access)
  (w : World) :
ensureServerAccess req (db w) = inr acc →
a_isServerOwner acc || a_isAdmin acc ||
  editUsers (permissionsOf (a_server acc) (a_userId acc)) = true →
usersRoute req route w = route acc w.
Proof.
intros Haccess Hmay. unfold usersRoute, mbind, Run_bind, getWorld. rewrite Haccess.
replace (negb (a_isServerOwner acc) && negb (a_isAdmin acc) &&
         negb (editUsers (permissionsOf (a_server acc) (a_userId acc))))
  with false; [done|].
by destruct (a_isServerOwner acc), (a_isAdmin acc),
     (editUsers (permissionsOf (a_server acc) (a_userId acc))).
Qed.

(** The access check of a request of the account [member] for the server
    [server], stored under [serverId] and owned by [owner], when [member]
    is neither the owner nor an administrator and the server is not
    suspended: it comes down to whether the server lists the account. *)
Lemma member_access (d : Db) (member owner serverId : string) (server : Server)
  (user : UserRow) :
DbFile.findUser member (appUsers d) = Some user →
u_isAdmin user = false →
is_Some (DbFile.findUser owner (appUsers d)) →
serverId ≠ "" →
DbFile.findServer serverId (appServers d) = Some server →
s_ownerId server = owner →
s_isSuspended server = false →
member ≠ owner →
ensureServerAccess (mkRequest (Some member) None (Some owner) (Some serverId)) d =
if JsMap.has member (s_users server)
then inr (mkAccess member member serverId owner false false server)
else inl ErrNoAccess.
Proof.
intros Huser Hadmin [ownerRow Howner] Hid Hserver Hown Hsusp Hne.
unfold ensureServerAccess.
cbn [session_userId session_impersonating body_userId body_serverId].
rewrite !truthy_Some by (done || by eapply findUser_nonempty). cbn [truthy].
rewrite Huser, Howner, Hserver, Hown, String.eqb_refl, Hsusp, Hadmin.
cbn [negb andb orb].
assert (String.eqb owner member = false) as -> by (by apply String.eqb_neq).
done.
Qed.

End MemberFacts.

(** X21.  A user that [/add-user] adds gains access to the server.  When
    the request may edit the users, the account of the given name exists,
    is not the owner and is not listed yet, the route answers "added"; the
    stored server then lists the account with exactly the submitted
    permissions, every other listed user is as before, and (the server not
    being suspended) the access check lets the new user's requests for the
    server through, as neither owner nor more of an administrator than the
    account is. *)
Theorem added_user_gains_access
    (req : Request) (username : option string) (submitted : Permissions) (w : World)
    (acc : Access) (newUser : UserRow) :
  ensureServerAccess req (db w) = inr acc →
  a_isServerOwner acc || a_isAdmin acc ||
    editUsers (permissionsOf (a_server acc) (a_userId acc)) = true →
  findUserByName username (appUsers (db w)) = Some newUser →
  DbFile.findUser (u_userId newUser) (appUsers (db w)) = Some newUser →
  u_isAdmin newUser = false →
  u_userId newUser ≠ s_ownerId (a_server acc) →
  JsMap.has (u_userId newUser) (s_users (a_server acc)) = false →
  s_isSuspended (a_server acc) = false →
  let server' := withUsers (JsMap.set (u_userId newUser) submitted) (a_server acc) in
  ∃ w' : World,
    postAddUser req username submitted w = (w', Normal OkUserAdded) ∧
    DbFile.findServer (a_serverId acc) (appServers (db w')) = Some server' ∧
    permissionsOf server' (u_userId newUser) = submitted ∧
    (∀ id, id ≠ u_userId newUser →
           JsMap.lookup id (s_users server') = JsMap.lookup id (s_users (a_server acc))) ∧
    ensureServerAccess
      (mkRequest (Some (u_userId newUser)) None (Some (a_targetUserId acc))
         (Some (a_serverId acc))) (db w') =
      inr (mkAccess (u_userId newUser) (u_userId newUser) (a_serverId acc)
             (a_targetUserId acc) false false server').
Proof.
  intros Haccess Hmay Hname Hfound Hadmin Hnotowner Hfresh Hsusp server'.
  destruct (ensureServerAccess_inr _ _ _ Haccess)
    as (_ & Hsid & _ & Htarget & Hserver & Hown & _).
  destruct (findServer_Some _ _ _ Hserver) as [Hsame Hid].
  unfold postAddUser. rewrite (wp_usersRoute _ _ acc) by done.
  unfold mbind, Run_bind, getWorld. rewrite Hname.
  apply String.eqb_neq in Hnotowner as Hnotowner'. rewrite Hnotowner', Hfresh.
  cbn [modify logServerEvent mret Run_ret]. fold server'.
  eexists. split; [reflexivity|]. world_simpl.
  assert (Hsaved : DbFile.findServer (a_serverId acc)
                     (saveServer server' (appServers (db w))) = Some server').
  { rewrite <- Hsame at 1. apply (findServer_saveServer server'). simpl. congruence. }
  split; [exact Hsaved|]. split.
  { unfold permissionsOf, server'. simpl. by rewrite jsmap_lookup_set_eq. }
  split.
  { intros id Hne. unfold server'. simpl. by apply jsmap_lookup_set_ne. }
  rewrite (member_access _ (u_userId newUser) (a_targetUserId acc) (a_serverId acc) server'
             newUser); try done.
  - unfold server'. simpl. unfold JsMap.has. by rewrite jsmap_lookup_set_eq.
  - congruence.
Qed.

Lemma added_user_gains_access_witness :
  let acc := mkAccess "u1" "u1" "s1" "u1" true false (demoServer false indexJs) in
  let server' := withUsers (JsMap.set (u_userId guestRow) allPermissions) (a_server acc) in
  ∃ w' : World,
    postAddUser ownerRequest (Some "guest") allPermissions guestWorld =
      (w', Normal OkUserAdded) ∧
    DbFile.findServer (a_serverId acc) (appServers (db w')) = Some server' ∧
    permissionsOf server' (u_userId guestRow) = allPermissions ∧
    (∀ id, id ≠ u_userId guestRow →
           JsMap.lookup id (s_users server') = JsMap.lookup id (s_users (a_server acc))) ∧
    ensureServerAccess
      (mkRequest (Some (u_userId guestRow)) None (Some (a_targetUserId acc))
         (Some (a_serverId acc))) (db w') =
      inr (mkAccess (u_userId guestRow) (u_userId guestRow) (a_serverId acc)
             (a_targetUserId acc) false false server').
Proof.
  intros acc.
  apply (added_user_gains_access ownerRequest (Some "guest") allPermissions guestWorld acc
           guestRow); first [reflexivity | discriminate].
Defined.

(** X22.  [/edit-user] takes the two start-up permissions away.  The
    handler stores seven of the nine permissions; whatever the form
    submits and whatever the member held, the stored entry has no
    [viewStartup] and no [editStartup], and the other seven are as
    submitted.  So after any edit of the permissions of a member who is
    neither owner nor administrator, that member's [/restart-server] is
    refused for want of the permission and changes nothing. *)
Theorem edited_member_loses_startup_permissions
    (req : Request) (targetUserId : string) (submitted : Permissions) (w : World)
    (acc : Access) (member : UserRow) (env : RestartEnv) :
  ensureServerAccess req (db w) = inr acc →
  a_isServerOwner acc || a_isAdmin acc ||
    editUsers (permissionsOf (a_server acc) (a_userId acc)) = true →
  JsMap.has targetUserId (s_users (a_server acc)) = true →
  DbFile.findUser targetUserId (appUsers (db w)) = Some member →
  u_isAdmin member = false →
  targetUserId ≠ s_ownerId (a_server acc) →
  s_isSuspended (a_server acc) = false →
  ∃ (w' : World) (server' : Server),
    postEditUser req targetUserId submitted w = (w', Normal OkPermissionsEdited) ∧
    DbFile.findServer (a_serverId acc) (appServers (db w')) = Some server' ∧
    permissionsOf server' targetUserId =
      mkPermissions (viewConsole submitted) (viewFiles submitted) (editFiles submitted)
        (viewSettings submitted) (editSettings submitted) (viewUsers submitted)
        (editUsers submitted) false false ∧
    postRestartServer
      (mkRequest (Some targetUserId) None (Some (a_targetUserId acc)) (Some (a_serverId acc)))
      env w' = (w', Normal ErrNotPermitted).
Proof.
  intros Haccess Hmay Hlisted Hmember Hadmin Hnotowner Hsusp.
  destruct (ensureServerAccess_inr _ _ _ Haccess)
    as (_ & Hsid & _ & Htarget & Hserver & Hown & _).
  destruct (findServer_Some _ _ _ Hserver) as [Hsame Hid].
  unfold postEditUser. rewrite (wp_usersRoute _ _ acc) by done.
  rewrite Hlisted. cbn [negb]. unfold mbind, Run_bind.
  cbn [modify logServerEvent mret Run_ret].
  set (stored := mkPermissions _ _ _ _ _ _ _ false false).
  set (server' := withUsers (JsMap.set targetUserId stored) (a_server acc)).
  eexists. exists server'. split; [reflexivity|]. world_simpl.
  assert (Hsaved : DbFile.findServer (a_serverId acc)
                     (saveServer server' (appServers (db w))) = Some server').
  { rewrite <- Hsame at 1. apply (findServer_saveServer server'). simpl. congruence. }
  assert (Hperm : permissionsOf server' targetUserId = stored).
  { unfold permissionsOf, server'. simpl. by rewrite jsmap_lookup_set_eq. }
  split; [exact Hsaved|]. split; [exact Hperm|].
  unfold postRestartServer, guarded, mbind, Run_bind, getWorld. world_simpl.
  rewrite (member_access _ targetUserId (a_targetUserId acc) (a_serverId acc) server' member);
    try done; [|congruence].
  replace (JsMap.has targetUserId (s_users server')) with true
    by (unfold server'; simpl; unfold JsMap.has; by rewrite jsmap_lookup_set_eq).
  cbn [a_originalUserId a_server a_isServerOwner a_serverId a_targetUserId].
  world_simpl. unfold lacksPermission. cbn [a_isServerOwner mret Run_ret].
  by rewrite Hmember, Hadmin, Hperm.
Qed.

Lemma edited_member_loses_startup_permissions_witness :
  ∃ (w' : World) (server' : Server),
    postEditUser ownerRequest "u2" allPermissions memberWorld =
      (w', Normal OkPermissionsEdited) ∧
    DbFile.findServer "s1" (appServers (db w')) = Some server' ∧
    permissionsOf server' "u2" =
      mkPermissions (viewConsole allPermissions) (viewFiles allPermissions)
        (editFiles allPermissions) (viewSettings allPermissions)
        (editSettings allPermissions) (viewUsers allPermissions)
        (editUsers allPermissions) false false ∧
    postRestartServer (mkRequest (Some "u2") None (Some "u1") (Some "s1"))
      (mkRestartEnv false FsDone (quietDisk true)) w' = (w', Normal ErrNotPermitted).
Proof.
  apply (edited_member_loses_startup_permissions ownerRequest "u2" allPermissions memberWorld
           (mkAccess "u1" "u1" "s1" "u1" true false
              (withUsers (JsMap.set "u2" allPermissions) (demoServer false indexJs)))
           guestRow (mkRestartEnv false FsDone (quietDisk true)));
    first [reflexivity | discriminate].
Defined.

(** X23.  A user that [/remove-user] removes loses access to the server.
    When the request may edit the users and the target is listed and is not
    the owner, the route answers "removed"; the stored server no longer
    lists the target and lists every other user as before; and the access
    check turns away every later request of the target for the server,
    unless the target is an administrator.  The owner cannot be removed. *)
Theorem removed_user_loses_access
    (req : Request) (targetUserId : string) (w : World) (acc : Access) :
  ensureServerAccess req (db w) = inr acc →
  a_isServerOwner acc || a_isAdmin acc ||
    editUsers (permissionsOf (a_server acc) (a_userId acc)) = true →
  JsMap.has targetUserId (s_users (a_server acc)) = true →
  if String.eqb targetUserId (s_ownerId (a_server acc))
  then postRemoveUser req targetUserId w = (w, Normal ErrCannotRemoveOwner)
  else
    let server' := withUsers (JsMap.delete targetUserId) (a_server acc) in
    ∃ w' : World,
      postRemoveUser req targetUserId w = (w', Normal OkUserRemoved) ∧
      DbFile.findServer (a_serverId acc) (appServers (db w')) = Some server' ∧
      JsMap.has targetUserId (s_users server') = false ∧
      (∀ id, id ≠ targetUserId →
             JsMap.lookup id (s_users server') = JsMap.lookup id (s_users (a_server acc))) ∧
      (∀ (req' : Request) (user : UserRow),
         ensureLoggedIn req' = Some targetUserId →
         truthy (body_serverId req') = Some (a_serverId acc) →
         DbFile.findUser targetUserId (appUsers (db w')) = Some user →
         u_isAdmin user = false →
         ∃ refusal, ensureServerAccess req' (db w') = inl refusal).
Proof.
  intros Haccess Hmay Hlisted.
  destruct (ensureServerAccess_inr _ _ _ Haccess)
    as (_ & Hsid & _ & Htarget & Hserver & Hown & _).
  destruct (findServer_Some _ _ _ Hserver) as [Hsame Hid].
  unfold postRemoveUser. rewrite (wp_usersRoute _ _ acc) by done.
  rewrite Hlisted. cbn [negb].
  destruct (String.eqb targetUserId (s_ownerId (a_server acc))) eqn:Howner; [done|].
  apply String.eqb_neq in Howner.
  set (server' := withUsers (JsMap.delete targetUserId) (a_server acc)).
  unfold mbind, Run_bind. cbn [modify logServerEvent mret Run_ret].
  eexists. split; [reflexivity|]. world_simpl.
  assert (Hsaved : DbFile.findServer (a_serverId acc)
                     (saveServer server' (appServers (db w))) = Some server').
  { rewrite <- Hsame at 1. apply (findServer_saveServer server'). simpl. congruence. }
  assert (Hgone : JsMap.has targetUserId (s_users server') = false).
  { unfold server'. simpl. unfold JsMap.has. by rewrite jsmap_lookup_delete_eq. }
  split; [exact Hsaved|]. split; [exact Hgone|]. split.
  { intros id Hne. unfold server'. simpl. by apply jsmap_lookup_delete_ne. }
  intros req' user Hlogged Hsid' Huser Hadmin.
  destruct (ensureLoggedIn_Some _ _ Hlogged) as (originalUserId & Horig & HuserId).
  unfold ensureServerAccess. rewrite Horig, <- HuserId, Hsid'. world_simpl.
  rewrite Huser.
  clear Htarget.
  match goal with
  | |- context [DbFile.findUser ?t (appUsers (db w))] =>
      destruct (DbFile.findUser t (appUsers (db w))) as [targetUser|]
  end; [|eexists; reflexivity].
  rewrite Hsaved.
  destruct (negb (String.eqb (s_ownerId server') _)); [eexists; reflexivity|].
  rewrite Hadmin. cbn [negb].
  destruct (s_isSuspended server'); [eexists; reflexivity|]. cbn [andb].
  replace (String.eqb (s_ownerId server') targetUserId) with false.
  - rewrite Hgone. eexists; reflexivity.
  - symmetry. apply String.eqb_neq. unfold server'. simpl. congruence.
Qed.

Lemma removed_user_loses_access_witness :
  let acc := mkAccess "u1" "u1" "s1" "u1" true false
               (withUsers (JsMap.set "u2" allPermissions) (demoServer false indexJs)) in
  if String.eqb "u2" (s_ownerId (a_server acc))
  then postRemoveUser ownerRequest "u2" memberWorld = (memberWorld, Normal ErrCannotRemoveOwner)
  else
    let server' := withUsers (JsMap.delete "u2") (a_server acc) in
    ∃ w' : World,
      postRemoveUser ownerRequest "u2" memberWorld = (w', Normal OkUserRemoved) ∧
      DbFile.findServer (a_serverId acc) (appServers (db w')) = Some server' ∧
      JsMap.has "u2" (s_users server') = false ∧
      (∀ id, id ≠ "u2" →
             JsMap.lookup id (s_users server') = JsMap.lookup id (s_users (a_server acc))) ∧
      (∀ (req' : Request) (user : UserRow),
         ensureLoggedIn req' = Some "u2" →
         truthy (body_serverId req') = Some (a_serverId acc) →
         DbFile.findUser "u2" (appUsers (db w')) = Some user →
         u_isAdmin user = false →
         ∃ refusal, ensureServerAccess req' (db w') = inl refusal).
Proof.
  intros acc.
  apply (removed_user_loses_access ownerRequest "u2" memberWorld acc); reflexivity.
Defined.

(** The member [guest] on the small installation: added, listed, edited,
    removed. *)
Example guest_is_added_edited_and_removed :
  (∃ acc, ensureServerAccess guestRequest (db guestWorld) = inl ErrNoAccess ∧
          ensureServerAccess guestRequest (db memberWorld) = inr acc) ∧
  (let w' := fst (postEditUser ownerRequest "u2" allPermissions memberWorld) in
   snd (postRestartServer guestRequest (mkRestartEnv false FsDone (quietDisk true)) w') =
     Normal ErrNotPermitted ∧
   snd (postRestartServer guestRequest (mkRestartEnv false FsDone (quietDisk true)) memberWorld) =
     Normal OkRestarting) ∧
  (let w' := fst (postRemoveUser ownerRequest "u2" memberWorld) in
   ensureServerAccess guestRequest (db w') = inl ErrNoAccess).
Proof. split; [eexists; split; reflexivity|]. split; [split; reflexivity | reflexivity]. Qed.

(* ===================================================================== *)
(** ** Suspending and deleting a server *)
(* ===================================================================== *)

Lemma toggleSuspension_twice (server : Server) :
  toggleSuspension (toggleSuspension server) = server.
Proof. destruct server. unfold toggleSuspension. simpl. by rewrite negb_involutive. Qed.

(** X24.  Suspending a server does not stop it.  For an administrator and
    a server that exists, [/admin/toggle-server-suspension] flips the
    suspension flag of the stored server and changes nothing else of it;
    the other servers, the children, the registry and the stored process
    states are as they were, so a process that runs goes on running and
    stays registered; and a second toggle gives the stored server back. *)
Theorem suspension_toggle_leaves_the_process_running
    (req : Request) (w : World) (userId serverId : string) (server : Server) :
  ensureAdmin req (db w) = inr userId →
  body_serverId req = Some serverId →
  DbFile.findServer serverId (appServers (db w)) = Some server →
  ∃ w' w'' : World,
    postAdminToggleSuspension req w = (w', Normal AdmSuspensionToggled) ∧
    DbFile.findServer serverId (appServers (db w')) = Some (toggleSuspension server) ∧
    (∀ id, id ≠ serverId →
           DbFile.findServer id (appServers (db w')) = DbFile.findServer id (appServers (db w))) ∧
    children w' = children w ∧
    runningProcesses w' = runningProcesses w ∧
    appProcessState (db w') = appProcessState (db w) ∧
    postAdminToggleSuspension req w' = (w'', Normal AdmSuspensionToggled) ∧
    DbFile.findServer serverId (appServers (db w'')) = Some server.
Proof.
  intros Hadmin Hbody Hserver.
  destruct (findServer_Some _ _ _ Hserver) as [Hsame Hid].
  assert (Hstep : ∀ (w0 : World) (server0 : Server),
    appUsers (db w0) = appUsers (db w) →
    DbFile.findServer serverId (appServers (db w0)) = Some server0 →
    s_id server0 = serverId →
    ∃ w1, postAdminToggleSuspension req w0 = (w1, Normal AdmSuspensionToggled) ∧
          DbFile.findServer serverId (appServers (db w1)) = Some (toggleSuspension server0) ∧
          (∀ id, id ≠ serverId →
                 DbFile.findServer id (appServers (db w1)) =
                 DbFile.findServer id (appServers (db w0))) ∧
          children w1 = children w0 ∧ runningProcesses w1 = runningProcesses w0 ∧
          appProcessState (db w1) = appProcessState (db w0) ∧
          appUsers (db w1) = appUsers (db w0)).
  { intros w0 server0 Husers Hserver0 Hsame0.
    unfold postAdminToggleSuspension, mbind, Run_bind, getWorld.
    unfold ensureAdmin in *. rewrite Husers. rewrite Hadmin.
    unfold findOneServer, byRequestedId. rewrite Hbody. cbn [q_id]. rewrite Hserver0.
    cbn [modify logServerEvent mret Run_ret]. eexists. split; [reflexivity|]. world_simpl.
    split.
    { rewrite <- Hsame0 at 1. apply (findServer_saveServer (toggleSuspension server0)).
      simpl. congruence. }
    split; [|done]. intros id Hne.
    apply (findServer_saveServer_other id (toggleSuspension server0)). simpl. congruence. }
  destruct (Hstep w server eq_refl Hserver Hsame)
    as (w' & Hrun & Hfound & Hothers & Hch & Hreg & Hstate & Husers).
  destruct (Hstep w' (toggleSuspension server) Husers Hfound Hsame)
    as (w'' & Hrun' & Hfound' & _).
  exists w', w''. rewrite toggleSuspension_twice in Hfound'. done.
Qed.

Lemma suspension_toggle_leaves_the_process_running_witness :
  ∃ w' w'' : World,
    postAdminToggleSuspension adminRequest runningWorld = (w', Normal AdmSuspensionToggled) ∧
    DbFile.findServer "s1" (appServers (db w')) =
      Some (toggleSuspension (demoServer false indexJs)) ∧
    (∀ id, id ≠ "s1" →
           DbFile.findServer id (appServers (db w')) =
           DbFile.findServer id (appServers (db runningWorld))) ∧
    children w' = children runningWorld ∧
    runningProcesses w' = runningProcesses runningWorld ∧
    appProcessState (db w') = appProcessState (db runningWorld) ∧
    postAdminToggleSuspension adminRequest w' = (w'', Normal AdmSuspensionToggled) ∧
    DbFile.findServer "s1" (appServers (db w'')) = Some (demoServer false indexJs).
Proof.
  apply (suspension_toggle_leaves_the_process_running adminRequest runningWorld "root" "s1"
           (demoServer false indexJs)); vm_compute; reflexivity.
Defined.

(** What [/delete-server] does for the owner or an administrator. *)
Lemma postDeleteServer_spec (req : Request) (w : World) (acc : Access) :
  ensureServerAccess req (db w) = inr acc →
  a_isServerOwner acc || a_isAdmin acc = true →
  ∃ w' : World,
    postDeleteServer req w = (w', Normal OkDeleted) ∧
    registryGet (a_targetUserId acc) (a_serverId acc) w' = None ∧
    children w' =
      match registryGet (a_targetUserId acc) (a_serverId acc) w with
      | Some handle => signalChild handle SIGTERM (children w)
      | None => children w
      end ∧
    DbFile.findServer (a_serverId acc) (appServers (db w')) = None ∧
    appProcessState (db w') = appProcessState (db w) ∧
    appConsoleLogs (db w') = appConsoleLogs (db w).
Proof.
  intros Haccess Hmay.
  assert (Hid : a_serverId acc ≠ "").
  { destruct (ensureServerAccess_granted _ _ _ Haccess) as (Hid & _).
    by eapply truthy_nonempty. }
  unfold postDeleteServer, guarded, mbind, Run_bind, getWorld. rewrite Haccess.
  replace (negb (a_isServerOwner acc) && negb (a_isAdmin acc)) with false
    by (by destruct (a_isServerOwner acc), (a_isAdmin acc)).
  destruct (registryGet (a_targetUserId acc) (a_serverId acc) w) as [handle|] eqn:Hreg.
  - destruct (registryGet_Some _ _ _ _ Hreg) as (perUser & Huser & Hhandle).
    unfold kill, modify, registryDelete. cbn [runningProcesses withChildren]. rewrite Huser.
    eexists. split; [reflexivity|]. unfold registryGet. world_simpl.
    rewrite lookup_insert_eq, lookup_delete_eq, findServer_deleteServer by done. done.
  - eexists. split; [reflexivity|]. unfold registryGet in *. world_simpl.
    rewrite findServer_deleteServer by done. done.
Qed.

(** What [/admin/delete-server] does for an administrator. *)
Lemma postAdminDeleteServer_spec
    (req : Request) (w : World) (userId serverId : string) (server : Server) :
  ensureAdmin req (db w) = inr userId →
  body_serverId req = Some serverId →
  DbFile.findServer serverId (appServers (db w)) = Some server →
  ∃ w' : World,
    postAdminDeleteServer req w = (w', Normal AdmServerDeleted) ∧
    DbFile.findServer serverId (appServers (db w')) = None ∧
    (∀ id, id ≠ serverId →
           DbFile.findServer id (appServers (db w')) = DbFile.findServer id (appServers (db w))) ∧
    children w' = children w ∧
    (∀ u s, registryGet u s w' = registryGet u s w) ∧
    appProcessState (db w') = appProcessState (db w) ∧
    appConsoleLogs (db w') = appConsoleLogs (db w).
Proof.
  intros Hadmin Hbody Hserver.
  destruct (findServer_Some _ _ _ Hserver) as [Hsame Hid].
  unfold postAdminDeleteServer, mbind, Run_bind, getWorld. rewrite Hadmin.
  unfold findOneServer, byRequestedId. rewrite Hbody. cbn [q_id]. rewrite Hserver.
  cbn [modify logServerEvent mret Run_ret default from_option id].
  eexists. split; [reflexivity|]. world_simpl.
  split; [by apply findServer_deleteServer|].
  split; [intros id Hne; by apply findServer_deleteServer_other|]. done.
Qed.

(** After the owner deleted the running server, the stored process state
    of the key still says "running" and the stored console lines of the
    key are still there. *)
Example owner_delete_leaves_state_and_lines :
  let w' := fst (postDeleteServer ownerRequest runningWorld) in
  snd (postDeleteServer ownerRequest runningWorld) = Normal OkDeleted ∧
  DbFile.findServer "s1" (appServers (db w')) = None ∧
  DbFile.getProcessState "u1" "s1" (appProcessState (db w')) = mkProcessState true (Some 1000%Z) ∧
  DbFile.getRecentConsoleLogs "u1" "s1" 100 (appConsoleLogs (db w')) =
    [LPreparing; LStarted "3000"].
Proof. vm_compute. done. Qed.

(** C2, what the code does.  The deletion of a server does not cascade.
    - [/delete-server], for the owner or an administrator who has access,
      sends SIGTERM to the process registered for the (owner, server) key,
      if there is one, removes the registry entry and removes the server
      record; the stored process states and the stored console lines are
      left exactly as they are.
    - [/admin/delete-server], for an administrator and a server that
      exists, removes the server record and nothing else: no child gets a
      signal and no registry entry changes, so a process that runs for the
      deleted server goes on running and stays registered; the stored
      process states and console lines are left as they are too.
    - The ['close'] listener of the child that [/delete-server] signalled
      does not remove the stored process state either: it rewrites the row
      of the key to "not running", so the row is still in the table, and
      it leaves the stored console lines as they are. *)
Theorem delete_server_does_not_cascade :
  (∀ (req : Request) (w : World) (acc : Access),
     ensureServerAccess req (db w) = inr acc →
     a_isServerOwner acc || a_isAdmin acc = true →
     ∃ w' : World,
       postDeleteServer req w = (w', Normal OkDeleted) ∧
       registryGet (a_targetUserId acc) (a_serverId acc) w' = None ∧
       children w' =
         match registryGet (a_targetUserId acc) (a_serverId acc) w with
         | Some handle => signalChild handle SIGTERM (children w)
         | None => children w
         end ∧
       DbFile.findServer (a_serverId acc) (appServers (db w')) = None ∧
       appProcessState (db w') = appProcessState (db w) ∧
       appConsoleLogs (db w') = appConsoleLogs (db w)) ∧
  (∀ (req : Request) (w : World) (userId serverId : string) (server : Server),
     ensureAdmin req (db w) = inr userId →
     body_serverId req = Some serverId →
     DbFile.findServer serverId (appServers (db w)) = Some server →
     ∃ w' : World,
       postAdminDeleteServer req w = (w', Normal AdmServerDeleted) ∧
       DbFile.findServer serverId (appServers (db w')) = None ∧
       children w' = children w ∧
       (∀ u s, registryGet u s w' = registryGet u s w) ∧
       appProcessState (db w') = appProcessState (db w) ∧
       appConsoleLogs (db w') = appConsoleLogs (db w)) ∧
  (∀ (u s : string) (code : option Z) (removeDir : FsOutcome) (w : World)
     (logs : list Line) (perUser : gmap string Pid),
     consoleLogs w !! logKeyOf u s = Some logs →
     runningProcesses w !! u = Some perUser →
     ∃ w' : World,
       onChildClose u s code removeDir w = (w', Normal ()) ∧
       (u, s) ∈ map ps_key (appProcessState (db w')) ∧
       DbFile.getProcessState u s (appProcessState (db w')) = mkProcessState false None ∧
       appConsoleLogs (db w') = appConsoleLogs (db w)).
Proof.
  split; [|split].
  - intros req w acc. apply postDeleteServer_spec.
  - intros req w userId serverId server Hadmin Hbody Hserver.
    destruct (postAdminDeleteServer_spec req w userId serverId server Hadmin Hbody Hserver)
      as (w' & Hrun & Hgone & _ & Hchildren & Hregistry & Hstate & Hlines).
    by exists w'.
  - intros u s code removeDir w logs perUser Hlogs Hmap.
    destruct (onChildClose_spec u s code removeDir w logs perUser Hlogs Hmap)
      as (w' & Hrun & _ & Hstate & Hlines & _).
    exists w'. split; [done|]. rewrite Hstate. split; [|split; [|done]].
    + apply setProcessState_has_row.
    + apply getProcessState_setProcessState.
Qed.

(** The three parts on the small installation: the owner deletes the
    running server, the administrator deletes the running server, and the
    child of the server that the owner deleted closes. *)
Lemma delete_server_does_not_cascade_witness :
  let acc := mkAccess "u1" "u1" "s1" "u1" true false (demoServer false indexJs) in
  let deleted := fst (postDeleteServer ownerRequest runningWorld) in
  (∃ w' : World,
     postDeleteServer ownerRequest runningWorld = (w', Normal OkDeleted) ∧
     registryGet (a_targetUserId acc) (a_serverId acc) w' = None ∧
     children w' =
       match registryGet (a_targetUserId acc) (a_serverId acc) runningWorld with
       | Some handle => signalChild handle SIGTERM (children runningWorld)
       | None => children runningWorld
       end ∧
     DbFile.findServer (a_serverId acc) (appServers (db w')) = None ∧
     appProcessState (db w') = appProcessState (db runningWorld) ∧
     appConsoleLogs (db w') = appConsoleLogs (db runningWorld)) ∧
  (∃ w' : World,
     postAdminDeleteServer adminRequest runningWorld = (w', Normal AdmServerDeleted) ∧
     DbFile.findServer "s1" (appServers (db w')) = None ∧
     children w' = children runningWorld ∧
     (∀ u s, registryGet u s w' = registryGet u s runningWorld) ∧
     appProcessState (db w') = appProcessState (db runningWorld) ∧
     appConsoleLogs (db w') = appConsoleLogs (db runningWorld)) ∧
  (∃ w' : World,
     onChildClose "u1" "s1" None FsDone deleted = (w', Normal ()) ∧
     ("u1", "s1") ∈ map ps_key (appProcessState (db w')) ∧
     DbFile.getProcessState "u1" "s1" (appProcessState (db w')) = mkProcessState false None ∧
     appConsoleLogs (db w') = appConsoleLogs (db deleted)).
Proof.
  intros acc deleted.
  destruct delete_server_does_not_cascade as (Howner & Hadmin & Hclose).
  split; [|split].
  - apply (Howner ownerRequest runningWorld acc); vm_compute; reflexivity.
  - apply (Hadmin adminRequest runningWorld "root" "s1" (demoServer false indexJs));
      vm_compute; reflexivity.
  - apply (Hclose "u1" "s1" None FsDone deleted [LPreparing; LStarted "3000"]
             (delete "s1" {["s1" := 0]})); vm_compute; reflexivity.
Defined.

(** The process of a server that the administrator deleted. *)
Example process_outlives_the_deleted_server :
  let w' := fst (postAdminDeleteServer adminRequest runningWorld) in
  DbFile.findServer "s1" (appServers (db w')) = None ∧
  registryGet "u1" "s1" w' = Some 0 ∧
  (child_signals <$> findChild 0 w') = Some [] ∧
  shownAsRunning "u1" "s1" w' = true.
Proof. vm_compute. done. Qed.

(* ===================================================================== *)
(** ** What a start does to the handles *)
(* ===================================================================== *)

Global Instance sameHandles_refl : Reflexive sameHandles.
Proof. by intros w. Qed.

Global Instance sameHandles_trans : Transitive sameHandles.
Proof.
  intros w1 w2 w3 [Hc1 Hr1] [Hc2 Hr2]. split; [congruence|].
  intros u s. by rewrite Hr2.
Qed.

Section StartOutcome.

Lemma sameProcesses_sameHandles (w w' : World) : sameProcesses w w' → sameHandles w w'.
Proof. intros (Hc & Hr & _). by split. Qed.

Lemma keeps_weaken {A : Type} (R R' : World → World → Prop) (m : Run A) :
(∀ w w', R w w' → R' w w') → keeps R m → keeps R' m.
Proof. intros HR Hm w. apply HR, Hm. Qed.

Lemma keeps_handles {A : Type} (m : Run A) : keeps sameProcesses m → keeps sameHandles m.
Proof. apply keeps_weaken, sameProcesses_sameHandles. Qed.

Lemma startOutcome_step (u s : string) (w0 w w' : World) :
startOutcome u s w0 w → sameHandles w w' → startOutcome u s w0 w'.
Proof.
intros [H|(child & Hc & Hpid & Hsig & Hreg & Hother)] [Hc' Hr'].
- left. by etrans.
- right. exists child. rewrite Hc', !Hr'. repeat split; try done.
  intros u' s' Hne. rewrite Hr'. by apply Hother.
Qed.

(** A statement that leaves the handles alone, inside a longer run. *)
Lemma wp_keeps_bind {A B : Type} (m : Run B) (f : B → Run A)
  (Q : A → World → Prop) (E : JsError → World → Prop) (w0 w : World) :
keeps sameHandles m → sameHandles w0 w →
(∀ b w1, sameHandles w0 w1 → wp (f b) Q E w1) →
(∀ e w1, sameHandles w0 w1 → E e w1) →
wp (m ≫= f) Q E w.
Proof.
intros Hm Hw Hf He. apply wp_bind. specialize (Hm w). unfold wp.
destruct (m w) as [w1 [b|e]]; simpl in Hm.
- apply Hf. by etrans.
- apply He. by etrans.
Qed.

Lemma wp_keeps {A : Type} (m : Run A) (I : World → Prop) (w0 w : World) :
keeps sameHandles m → (∀ w1, sameHandles w w1 → I w1) →
wp m (λ _ w', I w') (λ _ w', I w') w.
Proof.
intros Hm HI. specialize (Hm w). unfold wp.
destruct (m w) as [w1 [b|e]]; simpl in Hm; by apply HI.
Qed.

Ltac keeps_all :=
  keeps_auto;
  try apply keeps_pushSaveSend; try apply keeps_reportExec; try apply keeps_writeFiles.

Lemma keeps_removeStaleDir (serverId u : string) (env : StartEnv) :
keeps sameProcesses (removeStaleDir serverId u env).
Proof. unfold removeStaleDir. keeps_all. Qed.

Lemma keeps_installUserPackagesFirst (serverId u : string) (pkgs : list string)
  (env : StartEnv) :
keeps sameProcesses (installUserPackagesFirst serverId u pkgs env).
Proof. unfold installUserPackagesFirst. keeps_all. Qed.

Lemma keeps_installDependencies (serverId u : string) (env : StartEnv) :
keeps sameProcesses (installDependencies serverId u env).
Proof. unfold installDependencies. keeps_all. Qed.

Lemma keeps_reportStartFailure (serverId u : string) (env : StartEnv) (e : JsError) :
keeps sameProcesses (reportStartFailure serverId u env e).
Proof. unfold reportStartFailure. keeps_all. Qed.

Lemma wp_consolePush_any (key : string) (line : Line)
  (Q : unit → World → Prop) (E : JsError → World → Prop) (w : World) :
(∀ logs, consoleLogs w !! key = Some logs →
         Q () (withConsoleLogs (insert key (logs ++ [line])) w)) →
(consoleLogs w !! key = None → E TypeError w) →
wp (consolePush key line) Q E w.
Proof.
intros HQ HE. unfold wp, consolePush.
destruct (consoleLogs w !! key) as [logs|]; [by apply HQ | by apply HE].
Qed.

Lemma registryGet_registrySet (u s u' s' : string) (pid : Pid) (w w1 : World) :
runningProcesses w1 =
  <[u := <[s := pid]> (match runningProcesses w !! u with Some m => m | None => ∅ end)]>
    (runningProcesses w) →
registryGet u' s' w1 =
if bool_decide ((u', s') = (u, s)) then Some pid else registryGet u' s' w.
Proof.
intros Hw1. unfold registryGet. rewrite Hw1.
destruct (decide (u' = u)) as [->|Hu].
- rewrite lookup_insert_eq. destruct (decide (s' = s)) as [->|Hs].
  + by rewrite lookup_insert_eq, bool_decide_eq_true_2.
  + rewrite lookup_insert_ne by done. rewrite bool_decide_eq_false_2 by congruence.
    by destruct (runningProcesses w !! u).
- rewrite lookup_insert_ne by done. by rewrite bool_decide_eq_false_2 by congruence.
Qed.

(** The launch spawns one child and registers it; whatever follows, also
    the handler of a failure, touches no child and no registry entry. *)
Lemma launch_outcome (serverId u mainFile port : string) (env : StartEnv) (w0 w : World) :
sameHandles w0 w →
wp (launch serverId u mainFile port)
  (λ _ w', startOutcome u serverId w0 w')
  (λ e w1, wp (reportStartFailure serverId u env e)
             (λ _ w', startOutcome u serverId w0 w')
             (λ _ w', startOutcome u serverId w0 w') w1) w.
Proof.
intros [Hc Hr].
assert (Hspawned : ∀ w1 : World,
  children w1 = children w ++ [mkChild (length (children w)) mainFile port [] []] →
  (∀ u' s', registryGet u' s' w1 =
            if bool_decide ((u', s') = (u, serverId)) then Some (length (children w))
            else registryGet u' s' w) →
  startOutcome u serverId w0 w1).
{ intros w1 Hc1 Hr1. right. eexists. rewrite Hc1, Hc. split; [reflexivity|].
  split; [simpl; congruence|]. split; [done|]. split.
  - rewrite Hr1, bool_decide_eq_true_2 by done. congruence.
  - intros u' s' Hne. by rewrite Hr1, bool_decide_eq_false_2, Hr. }
assert (Hfail : ∀ e w1, startOutcome u serverId w0 w1 →
  wp (reportStartFailure serverId u env e)
    (λ _ w', startOutcome u serverId w0 w') (λ _ w', startOutcome u serverId w0 w') w1).
{ intros e w1 H1. apply (wp_keeps _ _ w0).
  - apply keeps_handles, keeps_reportStartFailure.
  - intros w2 H2. by eapply startOutcome_step. }
unfold launch, pushSaveSend. cbv zeta.
wp_step. wp_step. wp_step. wp_step. wp_step. wp_step. wp_step. wp_step. wp_step. wp_step.
wp_step. wp_step.
apply wp_consolePush_any.
- intros logs _. wp_steps. apply Hspawned; [done|].
  intros u' s'. by apply (registryGet_registrySet u serverId u' s').
- intros _. apply Hfail, Hspawned; [done|].
  intros u' s'. by apply (registryGet_registrySet u serverId u' s').
Qed.

(** One run of [startServerInBackground]: no child gets a signal, at most
    one child is spawned, and it is the one that the registry then holds
    for the key. *)
Lemma start_outcome (serverId u : string) (server : Server) (env : StartEnv) (w : World) :
wp (startServerInBackground serverId u server env)
  (λ _ w', startOutcome u serverId w w') (λ _ w', startOutcome u serverId w w') w.
Proof.
assert (Hfail : ∀ e w1, sameHandles w w1 →
  wp (reportStartFailure serverId u env e)
    (λ _ w', startOutcome u serverId w w') (λ _ w', startOutcome u serverId w w') w1).
{ intros e w1 H1. apply (wp_keeps _ _ w).
  - apply keeps_handles, keeps_reportStartFailure.
  - intros w2 H2. left. by etrans. }
unfold startServerInBackground. cbv zeta. apply wp_tryCatch.
eapply wp_keeps_bind; [apply keeps_handles, keeps_removeStaleDir|reflexivity| |exact Hfail].
intros _ w1 H1.
eapply wp_keeps_bind; [apply keeps_handles; keeps_auto|exact H1| |exact Hfail].
intros _ w2 H2.
eapply wp_keeps_bind; [apply keeps_handles; keeps_auto|exact H2| |exact Hfail].
intros _ w3 H3.
eapply wp_keeps_bind; [apply keeps_handles; keeps_auto|exact H3| |exact Hfail].
intros _ w4 H4.
eapply wp_keeps_bind; [apply keeps_handles; keeps_auto|exact H4| |exact Hfail].
intros _ w5 H5.
eapply wp_keeps_bind; [apply keeps_handles; keeps_auto|exact H5| |exact Hfail].
intros _ w6 H6.
eapply wp_keeps_bind; [apply keeps_handles, keeps_pushSaveSend|exact H6| |exact Hfail].
intros _ w7 H7.
eapply wp_keeps_bind; [apply keeps_handles, keeps_writeFiles|exact H7| |exact Hfail].
intros _ w8 H8.
eapply wp_keeps_bind; [|exact H8| |exact Hfail].
{ apply keeps_handles. destruct (words _); [keeps_auto|].
  apply keeps_installUserPackagesFirst. }
intros _ w9 H9.
destruct (negb (mainFileExists env)).
- eapply wp_mono; [| |apply (wp_keeps _ (sameHandles w) w w9);
                       [apply keeps_handles, keeps_pushSaveSend|]].
  + intros [] w' H'. by left.
  + intros e w' H'. by apply Hfail.
  + intros w' H'. by etrans.
- eapply wp_keeps_bind;
    [apply keeps_handles, keeps_installDependencies|exact H9| |exact Hfail].
  intros _ w10 H10. by apply launch_outcome.
Qed.

End StartOutcome.

(* ===================================================================== *)
(** ** Starting and restarting *)
(* ===================================================================== *)

Section RestartFacts.

(** A start whose preparation succeeds spawns one child and registers it
    for its key; no other child and no other registry entry changes. *)
Lemma start_launches (serverId u : string) (server : Server) (env : StartEnv) (w : World) :
ensureServerDir env = FsDone →
(∀ path, writeFile env path = FsDone) →
mainFileExists env = true →
(packageJsonExists env = true → ∃ out err, npmInstall env = ExecDone out err) →
wp (startServerInBackground serverId u server env)
  (λ _ w',
     children w' =
       children w ++
       [mkChild (length (children w))
          (orDefault (JsMap.lookup "mainFile" (s_startupSettings server)) "index.js")
          (orDefault (JsMap.lookup "port" (s_startupSettings server)) "3000") [] []] ∧
     ∀ u' s', registryGet u' s' w' =
              if bool_decide ((u', s') = (u, serverId)) then Some (length (children w))
              else registryGet u' s' w)
  (λ _ _, False) w.
Proof.
intros Hdir Hwrite Hmain Hnpm.
apply start_reaches_entry_check; [done..|].
intros w6 Hquiet6. rewrite Hmain. cbn [negb].
apply wp_bind.
eapply wp_mono;
  [| |apply (quiet_installDependencies u serverId w env Hnpm w6 Hquiet6)]; [|done].
intros [] w7 ((lines & Hlines & _) & _ & Hchildren & Hregistry & _). cbv beta.
unfold launch. cbv zeta.
apply wp_bind, wp_spawn, wp_bind, wp_modify, wp_bind, wp_getWorld.
apply wp_bind, wp_modify, wp_bind, wp_modify.
unfold pushSaveSend.
apply wp_bind, wp_bind. eapply wp_consolePush; [world_simpl; exact Hlines|].
apply wp_bind, wp_modify, wp_modify, wp_modify.
split.
- world_simpl. by rewrite Hchildren.
- intros u' s'. rewrite <- Hregistry, <- Hchildren.
  by apply (registryGet_registrySet u serverId u' s').
Qed.

(** [/restart-server] up to the start.  A permitted restart signals the
    process that is registered for the key, removes its registry entry and
    then runs the start, without a look at the suspension flag; what the
    start establishes, and what touches no handle keeps, holds when the
    route has answered. *)
Lemma restart_reaches_start (req : Request) (env : RestartEnv) (w : World) (acc : Access)
  (I : World → Prop) :
ensureServerAccess req (db w) = inr acc →
a_isServerOwner acc = true ∨
  (∃ requestingUser,
     DbFile.findUser (a_originalUserId acc) (appUsers (db w)) = Some requestingUser ∧
     u_isAdmin requestingUser ||
       editStartup (permissionsOf (a_server acc) (a_originalUserId acc)) = true) →
(∀ w1 w2, I w1 → sameHandles w1 w2 → I w2) →
(∀ w3 : World,
   children w3 =
     match registryGet (a_targetUserId acc) (a_serverId acc) w with
     | Some handle => signalChild handle SIGTERM (children w)
     | None => children w
     end →
   (∀ u' s', registryGet u' s' w3 =
             if bool_decide ((u', s') = (a_targetUserId acc, a_serverId acc)) then None
             else registryGet u' s' w) →
   wp (startServerInBackground (a_serverId acc) (a_targetUserId acc) (a_server acc)
         (restartStart env))
     (λ _ w', I w') (λ _ w', I w') w3) →
wp (postRestartServer req env) (λ answer w', answer = OkRestarting ∧ I w') (λ _ _, False) w.
Proof.
intros Haccess Hmay Hkeeps Hstart.
set (u := a_targetUserId acc) in *. set (s := a_serverId acc) in *.
set (signalled := match registryGet u s w with
                  | Some handle => signalChild handle SIGTERM (children w)
                  | None => children w
                  end) in *.
set (Base := λ w3 : World,
  children w3 = signalled ∧
  ∀ u' s', registryGet u' s' w3 =
           if bool_decide ((u', s') = (u, s)) then None else registryGet u' s' w).
assert (Hrest : ∀ w2 : World, Base w2 →
  is_Some (consoleLogs w2 !! logKeyOf u s) →
  wp (consoleReset (logKeyOf u s) ;;
      clearConsoleLogs u s ;;
      broadcast u s PClearConsole ;;
      consolePush (logKeyOf u s) LRestarting ;;
      consoleTrim (logKeyOf u s) ;;
      broadcast u s (PLine LRestarting) ;;
      detach
        (tryCatch
           (startServerInBackground s u (a_server acc) (restartStart env))
           (λ err,
              consolePush (logKeyOf u s) (LRestartFatal (errMessage err)) ;;
              consoleTrim (logKeyOf u s) ;;
              broadcast u s (PLine (LRestartFatal (errMessage err))))) ;;
      logServerEvent "إعادة تشغيل سيرفر" (a_originalUserId acc) s ;;
      mret OkRestarting)
    (λ answer w', answer = OkRestarting ∧ I w') (λ _ _, False) w2).
{ intros w2 HBase _. wp_steps.
  set (w3 := withViewers _ _).
  assert (HBase3 : Base w3) by (destruct HBase; by split).
  destruct HBase3 as [Hc3 Hr3].
  eapply wp_mono; [| |apply (Hstart w3 Hc3 Hr3)].
  - intros [] w4 H4. wp_steps. split; [done|]. apply (Hkeeps w4); [done|]. by split.
  - intros e w4 H4. cbv beta.
    eapply wp_mono;
      [| |apply (wp_keeps
                   (consolePush (logKeyOf u s) (LRestartFatal (errMessage e)) ;;
                    consoleTrim (logKeyOf u s) ;;
                    broadcast u s (PLine (LRestartFatal (errMessage e)))) I w4 w4);
          [apply keeps_handles; keeps_auto | intros w5 H5; by apply (Hkeeps w4)]].
    + intros [] w5 H5. wp_steps. split; [done|]. apply (Hkeeps w5); [done|]. by split.
    + intros e' w5 H5. wp_steps. split; [done|]. apply (Hkeeps w5); [done|]. by split. }
unfold postRestartServer. eapply wp_guarded; [exact Haccess|]. cbv zeta. fold u s.
wp_step. wp_step. wp_step. apply wp_lacksPermission; [exact Hmay|].
wp_step. apply wp_initializeServerLogs.
intros w1 Hlogs1 (Hchildren & Hregistry & _) _.
wp_step. wp_step. wp_step. rewrite (Hregistry u s). subst signalled.
destruct (registryGet u s w) as [handle|] eqn:Hreg.
- assert (Hreg1 : registryGet u s w1 = Some handle) by (by rewrite Hregistry).
  destruct (registryGet_Some _ _ _ _ Hreg1) as (perUser & Hmap & _).
  wp_steps.
  assert (HBase2 : ∀ w2 : World,
    runningProcesses w2 = <[u := delete s perUser]> (runningProcesses w1) →
    children w2 = signalChild handle SIGTERM (children w) →
    Base w2).
  { intros w2 Hr2 Hc2. split; [done|]. intros u' s'.
    rewrite (registryGet_deleted u s u' s' perUser w1 w2 Hmap Hr2).
    by rewrite Hregistry. }
  destruct (tempDirExists env).
  + wp_step. apply wp_fsCall; intros; wp_step; apply Hrest.
    all: try (apply HBase2; world_simpl; [reflexivity | by rewrite Hchildren]).
    all: world_simpl; rewrite lookup_alter_eq, lookup_insert_eq; by eexists.
  + wp_step. apply Hrest.
    * apply HBase2; world_simpl; [reflexivity | by rewrite Hchildren].
    * world_simpl. rewrite lookup_alter_eq, lookup_insert_eq. by eexists.
- assert (HBase1 : Base w1).
  { split; [done|]. intros u' s'. rewrite Hregistry. case_bool_decide as Heq; [|done].
    by injection Heq as -> ->. }
  destruct (tempDirExists env).
  + wp_step. apply wp_fsCall; intros; wp_step; apply Hrest; try done.
    all: rewrite Hlogs1; by eexists.
  + wp_step. apply Hrest; [done|]. rewrite Hlogs1. by eexists.
Qed.

Lemma ensureServerAccess_refuses (req : Request) (d : Db) (refusal : Response) :
ensureServerAccess req d = inl refusal →
refusal ≠ OkStarting ∧ refusal ≠ OkRestarting.
Proof.
unfold ensureServerAccess.
repeat match goal with
       | |- context [match ?x with _ => _ end] =>
           lazymatch x with
           | context [match _ with _ => _ end] => fail
           | _ => destruct x
           end
       end; intros [= <-]; done.
Qed.

End RestartFacts.

(** X25.  [/start-server] always answers, whatever the disk and the
    installer do, and never sends a signal.  Either no child and no
    registry entry changes, or the request was let through, the answer is
    "starting", exactly one child was spawned, with a fresh handle and no
    signal, and it is the child that the registry then holds for the key
    of the request, every other entry being as it was. *)
Theorem start_server_spawns_at_most_one_child (req : Request) (env : StartEnv) (w : World) :
  ∃ (w' : World) (answer : Response),
    postStartServer req env w = (w', Normal answer) ∧
    (sameHandles w w' ∨
     ∃ acc, ensureServerAccess req (db w) = inr acc ∧ answer = OkStarting ∧
            spawnedFor (a_targetUserId acc) (a_serverId acc) w w').
Proof.
  assert (Hwp : wp (postStartServer req env)
    (λ answer w',
       sameHandles w w' ∨
       ∃ acc, ensureServerAccess req (db w) = inr acc ∧ answer = OkStarting ∧
              spawnedFor (a_targetUserId acc) (a_serverId acc) w w')
    (λ _ _, False) w).
  { unfold postStartServer, guarded. wp_step. wp_step.
    destruct (ensureServerAccess req (db w)) as [refusal|acc] eqn:Haccess.
    { wp_step. by left. }
    wp_step. wp_step.
    destruct (DbFile.findServer _ _) as [server|]; [|wp_step; by left].
    destruct (s_isSuspended server); [wp_step; by left|].
    wp_step. wp_step.
    eapply wp_mono; [| |apply start_outcome].
    - intros [] w' [H|H]; wp_step; [by left|]. right. by exists acc.
    - intros e w' [H|H]; wp_step; [by left|]. right. by exists acc. }
  apply wp_result in Hwp as (w' & [answer|e] & Hrun & Hpost); [|done].
  by exists w', answer.
Qed.

(** X26.  [/restart-server] always answers "restarting" when the request
    is permitted, whatever the disk and the installer do.  The process
    that was registered for the key gets one SIGTERM and no other child
    gets a signal; afterwards the key is registered for nothing, or for a
    child that this restart spawned, with a fresh handle and no signal,
    never for the process that was running before; the entries of all
    other keys are as they were. *)
Theorem restart_registers_a_fresh_child_or_nothing
    (req : Request) (env : RestartEnv) (w : World) (acc : Access) :
  ensureServerAccess req (db w) = inr acc →
  a_isServerOwner acc = true ∨
    (∃ requestingUser,
       DbFile.findUser (a_originalUserId acc) (appUsers (db w)) = Some requestingUser ∧
       u_isAdmin requestingUser ||
         editStartup (permissionsOf (a_server acc) (a_originalUserId acc)) = true) →
  let u := a_targetUserId acc in
  let s := a_serverId acc in
  let signalled :=
    match registryGet u s w with
    | Some handle => signalChild handle SIGTERM (children w)
    | None => children w
    end in
  ∃ w' : World,
    postRestartServer req env w = (w', Normal OkRestarting) ∧
    ((children w' = signalled ∧ registryGet u s w' = None) ∨
     (∃ child, children w' = signalled ++ [child] ∧
               child_pid child = length (children w) ∧
               child_signals child = [] ∧
               registryGet u s w' = Some (length (children w)))) ∧
    (∀ u' s', (u', s') ≠ (u, s) → registryGet u' s' w' = registryGet u' s' w).
Proof.
  intros Haccess Hmay u s signalled.
  set (Post := λ w' : World,
    ((children w' = signalled ∧ registryGet u s w' = None) ∨
     (∃ child, children w' = signalled ++ [child] ∧
               child_pid child = length (children w) ∧
               child_signals child = [] ∧
               registryGet u s w' = Some (length (children w)))) ∧
    (∀ u' s', (u', s') ≠ (u, s) → registryGet u' s' w' = registryGet u' s' w)).
  assert (Hlen : length signalled = length (children w)).
  { subst signalled. destruct (registryGet u s w); [|done].
    unfold signalChild. by rewrite length_map. }
  assert (Hwp : wp (postRestartServer req env)
                  (λ answer w', answer = OkRestarting ∧ Post w') (λ _ _, False) w).
  { apply (restart_reaches_start req env w acc Post Haccess Hmay).
    - intros w1 w2 [H1 Hother] [Hc Hr]. split.
      + rewrite Hc, Hr. exact H1.
      + intros u' s' Hne. rewrite Hr. by apply Hother.
    - fold u s signalled. intros w3 Hc3 Hr3.
      assert (Hpost : ∀ w4, startOutcome u s w3 w4 → Post w4).
      { intros w4 [[Hc4 Hr4]|(child & Hc4 & Hpid & Hsig & Hreg & Hother)].
        - split.
          + left. rewrite Hc4, Hr4, Hr3, bool_decide_eq_true_2 by done. done.
          + intros u' s' Hne. by rewrite Hr4, Hr3, bool_decide_eq_false_2.
        - split.
          + right. exists child. rewrite Hc4, Hpid, Hreg, Hc3, Hlen. done.
          + intros u' s' Hne. by rewrite Hother, Hr3, bool_decide_eq_false_2. }
      eapply wp_mono; [| |apply start_outcome]; intros; by apply Hpost. }
  apply wp_result in Hwp as (w' & [answer|e] & Hrun & Hpost'); [|done].
  destruct Hpost' as (-> & H). by exists w'.
Qed.

Lemma restart_registers_a_fresh_child_or_nothing_witness :
  let acc := mkAccess "u1" "u1" "s1" "u1" true false (demoServer false indexJs) in
  let env := mkRestartEnv true (FsFails "EBUSY") (quietDisk true) in
  let u := a_targetUserId acc in
  let s := a_serverId acc in
  let signalled :=
    match registryGet u s runningWorld with
    | Some handle => signalChild handle SIGTERM (children runningWorld)
    | None => children runningWorld
    end in
  ∃ w' : World,
    postRestartServer ownerRequest env runningWorld = (w', Normal OkRestarting) ∧
    ((children w' = signalled ∧ registryGet u s w' = None) ∨
     (∃ child, children w' = signalled ++ [child] ∧
               child_pid child = length (children runningWorld) ∧
               child_signals child = [] ∧
               registryGet u s w' = Some (length (children runningWorld)))) ∧
    (∀ u' s', (u', s') ≠ (u, s) → registryGet u' s' w' = registryGet u' s' runningWorld).
Proof.
  intros acc env.
  apply (restart_registers_a_fresh_child_or_nothing ownerRequest env runningWorld acc);
    [vm_compute; reflexivity | left; reflexivity].
Defined.

(** The administrator asks for a start of the suspended server and is
    refused by the route. *)
Example suspended_start_by_the_administrator :
  (u_isAdmin <$> DbFile.findUser "root" (appUsers (db (bootedWorld true indexJs)))) = Some true ∧
  (s_isSuspended <$> DbFile.findServer "s1" (appServers (db (bootedWorld true indexJs))))
    = Some true ∧
  (∃ acc, ensureServerAccess adminRequest (db (bootedWorld true indexJs)) = inr acc) ∧
  postStartServer adminRequest (quietDisk true) (bootedWorld true indexJs) =
    (bootedWorld true indexJs, Normal ErrSuspended).
Proof. repeat split; try reflexivity. eexists. reflexivity. Qed.

(** C4, what the code does.  [/start-server] refuses the start of a
    suspended server to every actor, the privileged one included, while
    the access check and [/restart-server] let the privileged actor
    through.
    - For a suspended server, a request that the access check turns away,
      which it does for every actor who is not an administrator, is
      answered by the refusal of the access check on [/start-server] and
      on [/restart-server] alike, and the world is as it was: no child is
      spawned and no registry entry is created.  A request that the access
      check lets through comes from an administrator, and [/start-server]
      answers it with "suspended" all the same and changes nothing.
    - [/restart-server] never reads the suspension flag: a permitted
      restart, of a suspended server as of any other, whose preparation
      succeeds answers "restarting", sends SIGTERM to the process that was
      registered for the key, if there was one, spawns a new child and
      registers it for the key.  So the administrator whom [/start-server]
      refuses does start the suspended server through [/restart-server]. *)
Theorem start_route_refuses_the_privileged_actor :
  (∀ (req : Request) (env : StartEnv) (renv : RestartEnv) (w : World)
     (serverId : string) (server : Server),
     truthy (body_serverId req) = Some serverId →
     DbFile.findServer serverId (appServers (db w)) = Some server →
     s_isSuspended server = true →
     match ensureServerAccess req (db w) with
     | inl refusal =>
         postStartServer req env w = (w, Normal refusal) ∧
         postRestartServer req renv w = (w, Normal refusal) ∧
         refusal ≠ OkStarting ∧ refusal ≠ OkRestarting
     | inr acc =>
         a_isAdmin acc = true ∧
         postStartServer req env w = (w, Normal ErrSuspended)
     end) ∧
  (∀ (req : Request) (renv : RestartEnv) (w : World) (acc : Access),
     ensureServerAccess req (db w) = inr acc →
     a_isServerOwner acc = true ∨
       (∃ requestingUser,
          DbFile.findUser (a_originalUserId acc) (appUsers (db w)) = Some requestingUser ∧
          u_isAdmin requestingUser ||
            editStartup (permissionsOf (a_server acc) (a_originalUserId acc)) = true) →
     ensureServerDir (restartStart renv) = FsDone →
     (∀ path, writeFile (restartStart renv) path = FsDone) →
     mainFileExists (restartStart renv) = true →
     (packageJsonExists (restartStart renv) = true →
      ∃ out err, npmInstall (restartStart renv) = ExecDone out err) →
     ∃ w' : World,
       postRestartServer req renv w = (w', Normal OkRestarting) ∧
       children w' =
         match registryGet (a_targetUserId acc) (a_serverId acc) w with
         | Some handle => signalChild handle SIGTERM (children w)
         | None => children w
         end ++
         [mkChild (length (children w))
            (orDefault (JsMap.lookup "mainFile" (s_startupSettings (a_server acc))) "index.js")
            (orDefault (JsMap.lookup "port" (s_startupSettings (a_server acc))) "3000")
            [] []] ∧
       registryGet (a_targetUserId acc) (a_serverId acc) w' = Some (length (children w))).
Proof.
  split.
  - intros req env renv w serverId server Hid Hserver Hsusp.
    destruct (ensureServerAccess req (db w)) as [refusal|acc] eqn:Haccess.
    + split; [|split].
      * unfold postStartServer, guarded, mbind, Run_bind, getWorld. by rewrite Haccess.
      * unfold postRestartServer, guarded, mbind, Run_bind, getWorld. by rewrite Haccess.
      * by eapply ensureServerAccess_refuses.
    + destruct (ensureServerAccess_granted _ _ _ Haccess) as (Hid' & Hserver' & Hadmin).
      assert (a_serverId acc = serverId) as Heq by congruence.
      assert (a_server acc = server) as Heq' by congruence.
      split; [apply Hadmin; congruence|].
      unfold postStartServer, guarded, mbind, Run_bind, getWorld.
      by rewrite Haccess, Heq, Hserver, Hsusp.
  - intros req renv w acc Haccess Hmay Hdir Hwrite Hmain Hnpm.
    set (u := a_targetUserId acc). set (s := a_serverId acc).
    set (signalled := match registryGet u s w with
                      | Some handle => signalChild handle SIGTERM (children w)
                      | None => children w
                      end).
    set (child := mkChild (length (children w))
      (orDefault (JsMap.lookup "mainFile" (s_startupSettings (a_server acc))) "index.js")
      (orDefault (JsMap.lookup "port" (s_startupSettings (a_server acc))) "3000") [] []).
    set (Post := λ w' : World,
      children w' = signalled ++ [child] ∧
      ∀ u' s', registryGet u' s' w' =
               if bool_decide ((u', s') = (u, s)) then Some (length (children w))
               else registryGet u' s' w).
    assert (Hlen : length signalled = length (children w)).
    { subst signalled. destruct (registryGet u s w); [|done].
      unfold signalChild. by rewrite length_map. }
    assert (Hwp : wp (postRestartServer req renv)
                    (λ answer w', answer = OkRestarting ∧ Post w') (λ _ _, False) w).
    { apply (restart_reaches_start req renv w acc Post Haccess Hmay).
      - intros w1 w2 [H1 Hr1] [Hc Hr]. split; [by rewrite Hc|].
        intros u' s'. by rewrite Hr.
      - fold u s signalled. intros w3 Hc3 Hr3.
        eapply wp_mono; [| |apply (start_launches s u (a_server acc) (restartStart renv) w3)];
          [|done|done..].
        intros [] w4 [Hc4 Hr4]. split.
        + rewrite Hc4, Hc3, Hlen. done.
        + intros u' s'. rewrite Hr4, Hc3, Hlen, Hr3. by case_bool_decide. }
    apply wp_result in Hwp as (w' & [answer|e] & Hrun & Hpost); [|done].
    destruct Hpost as (-> & Hchildren & Hregistry).
    exists w'. split; [done|]. split; [done|].
    by rewrite Hregistry, bool_decide_eq_true_2.
Qed.

(** The administrator and the suspended server of the small installation:
    the start is refused, the restart starts the server. *)
Lemma start_route_refuses_the_privileged_actor_witness :
  let w := bootedWorld true indexJs in
  let renv := mkRestartEnv false FsDone (quietDisk true) in
  (s_isSuspended <$> DbFile.findServer "s1" (appServers (db w))) = Some true ∧
  postStartServer adminRequest (quietDisk true) w = (w, Normal ErrSuspended) ∧
  postStartServer ownerRequest (quietDisk true) w = (w, Normal ErrSuspended) ∧
  postRestartServer ownerRequest renv w = (w, Normal ErrSuspended) ∧
  ∃ w' : World,
    postRestartServer adminRequest renv w = (w', Normal OkRestarting) ∧
    children w' = [mkChild 0 "index.js" "3000" [] []] ∧
    registryGet "u1" "s1" w' = Some 0.
Proof.
  intros w renv.
  destruct start_route_refuses_the_privileged_actor as [Hstart Hrestart].
  split; [reflexivity|].
  pose proof (Hstart adminRequest (quietDisk true) renv w "s1" (demoServer true indexJs)
                eq_refl eq_refl eq_refl) as Hadmin.
  pose proof (Hstart ownerRequest (quietDisk true) renv w "s1" (demoServer true indexJs)
                eq_refl eq_refl eq_refl) as Howner.
  split; [exact (proj2 Hadmin)|].
  split; [exact (proj1 Howner)|].
  split; [exact (proj1 (proj2 Howner))|].
  apply (Hrestart adminRequest renv w
           (mkAccess "root" "root" "s1" "u1" false true (demoServer true indexJs)));
    first [ reflexivity | discriminate | idtac ].
  right. exists (mkUserRow "root" "Ebrahim" true). split; reflexivity.
Defined.

(** A restart on the small installation. *)
Example restart_of_the_running_server :
  let w' := fst (postRestartServer ownerRequest (mkRestartEnv true FsDone (quietDisk true))
                   runningWorld) in
  registryGet "u1" "s1" w' = Some 1 ∧
  (child_signals <$> findChild 0 w') = Some [SIGTERM] ∧
  (child_signals <$> findChild 1 w') = Some [] ∧
  consoleLogs w' !! "u1-s1" = Some [LPreparing; LStarted "3000"].
Proof. vm_compute. done. Qed.
